(* ===================================================================== *)
(* vintage-product-manager: the record model (src/models/product.py) and *)
(* the spreadsheet repository (src/services/sheets_product_repository.py) *)
(* as Rocq functions, with the properties of their specification.         *)
(* ===================================================================== *)

From Stdlib Require Import ZArith NArith Lia Bool List.
From Stdlib Require Import Strings.Ascii Strings.String.
From Stdlib Require Import Numbers.DecimalString Numbers.DecimalZ Numbers.DecimalPos.
From stdpp Require Import base option list gmap strings.
From Stdlib Require Import Sorting.Sorted Sorting.Permutation.

Local Open Scope Z_scope.

(* --------------------------------------------------------------------- *)
(* 1. Python text                                                         *)
(* --------------------------------------------------------------------- *)

(* A Python [str] is a sequence of Unicode code points.  Dictionary keys
   (field names) are only ever compared for equality, so they are kept as
   Rocq strings; every text VALUE is a [str]. *)
Definition char := N.
Definition str := list char.

(* UTF-8 decoding of a literal of this file into code points. *)
Fixpoint utf8_decode (bs : list N) : str :=
  match bs with
  | [] => []
  | b0 :: r0 =>
      if (b0 <? 128)%N then b0 :: utf8_decode r0
      else match r0 with
      | [] => [b0]
      | b1 :: r1 =>
          if (b0 <? 224)%N
          then ((b0 - 192) * 64 + (b1 - 128))%N :: utf8_decode r1
          else match r1 with
          | [] => [b0]
          | b2 :: r2 =>
              if (b0 <? 240)%N
              then ((b0 - 224) * 4096 + (b1 - 128) * 64 + (b2 - 128))%N
                     :: utf8_decode r2
              else match r2 with
              | [] => [b0]
              | b3 :: r3 =>
                  ((b0 - 240) * 262144 + (b1 - 128) * 4096
                   + (b2 - 128) * 64 + (b3 - 128))%N :: utf8_decode r3
              end
          end
      end
  end.

Definition bytes_of (s : string) : list N :=
  List.map N_of_ascii (list_ascii_of_string s).

(* [u "..."] is the Python literal "...". *)
Definition u (s : string) : str := utf8_decode (bytes_of s).

(* str.isspace for one character: CPython's _PyUnicode_IsWhitespace. *)
Definition isspace (c : char) : bool :=
  ((9 <=? c) && (c <=? 13) || (28 <=? c) && (c <=? 32)
   || (c =? 133) || (c =? 160) || (c =? 5760)
   || (8192 <=? c) && (c <=? 8202)
   || (c =? 8232) || (c =? 8233) || (c =? 8239) || (c =? 8287)
   || (c =? 12288))%N.

Fixpoint lstrip (s : str) : str :=
  match s with
  | [] => []
  | c :: r => if isspace c then lstrip r else s
  end.

Definition rstrip (s : str) : str := rev (lstrip (rev s)).

(* str.strip() *)
Definition strip (s : str) : str := rstrip (lstrip s).

(* s.replace(old, "") for a one-character [old]. *)
Definition remove_char (old : char) (s : str) : str :=
  List.filter (fun c => negb (c =? old)%N) s.

(* sep.join(parts) *)
Fixpoint join (sep : str) (parts : list str) : str :=
  match parts with
  | [] => []
  | [p] => p
  | p :: r => p ++ sep ++ join sep r
  end.

Definition str_eqb (a b : str) : bool := bool_decide (a = b).

(* x in (t1, t2, ...) for strings *)
Definition str_in (x : str) (l : list str) : bool := existsb (str_eqb x) l.

(* s.startswith(p) *)
Fixpoint startswith (p s : str) : bool :=
  match p, s with
  | [], _ => true
  | a :: p', b :: s' => (a =? b)%N && startswith p' s'
  | _ :: _, [] => false
  end.

(* str(n) for an int: an optional minus sign and the decimal digits. *)
Definition str_of_int (z : Z) : str :=
  bytes_of (NilZero.string_of_int (Z.to_int z)).

(* format(z, "0<w>d"): sign first, then zeros up to the width. *)
Definition pad_int (w : nat) (z : Z) : str :=
  if z <? 0
  then 45%N :: repeat 48%N (w - 1 - length (str_of_int (- z)))
         ++ str_of_int (- z)
  else repeat 48%N (w - length (str_of_int z)) ++ str_of_int z.

(* Python's l[i]: a negative index counts from the end; None is IndexError. *)
Definition py_getitem {A} (l : list A) (i : Z) : option A :=
  if 0 <=? i then l !! Z.to_nat i
  else if - Z.of_nat (length l) <=? i
       then l !! Z.to_nat (Z.of_nat (length l) + i)
       else None.

(* l[i] = x *)
Definition py_setitem {A} (l : list A) (i : Z) (x : A) : option (list A) :=
  if 0 <=? i
  then if i <? Z.of_nat (length l) then Some (<[Z.to_nat i := x]> l) else None
  else if - Z.of_nat (length l) <=? i
       then Some (<[Z.to_nat (Z.of_nat (length l) + i) := x]> l)
       else None.

Example u_ascii : u "P00001" = [80; 48; 48; 48; 48; 49]%N.
Proof. reflexivity. Qed.

Example u_kanji : u "未出品" = [26410; 20986; 21697]%N.
Proof. reflexivity. Qed.

Example strip_ideographic : strip (u "　 出品済 ") = u "出品済".
Proof. reflexivity. Qed.

Example str_of_int_neg : str_of_int (-120) = u "-120".
Proof. reflexivity. Qed.

Example pad_int_5 : pad_int 5 42 = u "00042" /\ pad_int 2 7 = u "07"
                    /\ pad_int 2 123 = u "123".
Proof. repeat split; reflexivity. Qed.

(* --------------------------------------------------------------------- *)
(* 2. Exceptions, dates, values                                           *)
(* --------------------------------------------------------------------- *)

Inductive exn :=
| ValueError (msg : string)
| KeyError (key : str)
| ExternalUpdateDetectedError
| AttributeError (attr : string)
| IndexError
| OverflowError
| TypeError.

Inductive result (A : Type) :=
| Ok (a : A)
| Raise (e : exn).
Arguments Ok {A} a.
Arguments Raise {A} e.

Definition is_ValueError (e : exn) : bool :=
  match e with ValueError _ => true | _ => false end.

(* Whether a call returned, and what it returned. *)
Definition succeeds {A} (r : result A) : bool :=
  match r with Ok _ => true | Raise _ => false end.

Definition value_or {A} (d : A) (r : result A) : A :=
  match r with Ok a => a | Raise _ => d end.

(* Sequencing of calls that may raise: [x ← m; k] runs [k] unless [m]
   raised. *)
#[global] Instance result_ret : MRet result := fun _ a => Ok a.
#[global] Instance result_bind : MBind result := fun _ _ k m =>
  match m with Ok a => k a | Raise e => Raise e end.

(* datetime.date *)
Record date := mkdate { year : Z; month : Z; day : Z }.

Definition is_leap (y : Z) : bool :=
  (y mod 4 =? 0) && (negb (y mod 100 =? 0) || (y mod 400 =? 0)).

Definition days_in_month (y m : Z) : Z :=
  if m =? 2 then (if is_leap y then 29 else 28)
  else if (m =? 4) || (m =? 6) || (m =? 9) || (m =? 11) then 30 else 31.

(* The dates a [datetime.date] object can hold. *)
Definition valid_date (d : date) : bool :=
  (1 <=? year d) && (year d <=? 9999) && (1 <=? month d) && (month d <=? 12)
  && (1 <=? day d) && (day d <=? days_in_month (year d) (month d)).

(* date.isoformat(): "%04d-%02d-%02d" *)
Definition isoformat (d : date) : str :=
  pad_int 4 (year d) ++ u "-" ++ pad_int 2 (month d) ++ u "-" ++ pad_int 2 (day d).

(* datetime.datetime; the offset from UTC, when there is one, in minutes *)
Record datetime := mkdatetime {
  dt_date : date;
  dt_hour : Z;
  dt_minute : Z;
  dt_second : Z;
  dt_microsecond : Z;
  dt_utcoffset : option Z;
}.

(* datetime.isoformat(): the date, "T", the time, the microseconds when
   they are not zero, and the offset of an aware value *)
Definition datetime_isoformat (t : datetime) : str :=
  isoformat (dt_date t) ++ u "T"
  ++ pad_int 2 (dt_hour t) ++ u ":" ++ pad_int 2 (dt_minute t) ++ u ":"
  ++ pad_int 2 (dt_second t)
  ++ (if dt_microsecond t =? 0 then [] else u "." ++ pad_int 6 (dt_microsecond t))
  ++ match dt_utcoffset t with
     | None => []
     | Some off =>
         (if off <? 0 then u "-" else u "+")
         ++ pad_int 2 (Z.abs off / 60) ++ u ":" ++ pad_int 2 (Z.abs off mod 60)
     end.

(* The values that flow through rows and payloads of this program: sheet
   cells are text; the form sends None, integers and text; the model holds
   dates and flags. *)
Inductive PyVal :=
| VNone
| VBool (b : bool)
| VInt (z : Z)
| VStr (s : str)
| VDate (d : date).

#[global] Instance date_eq_dec : EqDecision date.
Proof. solve_decision. Defined.
#[global] Instance PyVal_eq_dec : EqDecision PyVal.
Proof. solve_decision. Defined.
#[global] Instance exn_eq_dec : EqDecision exn.
Proof. solve_decision. Defined.

(* str(v) *)
Definition py_str (v : PyVal) : str :=
  match v with
  | VNone => u "None"
  | VBool true => u "True"
  | VBool false => u "False"
  | VInt z => str_of_int z
  | VStr s => s
  | VDate d => isoformat d
  end.

(* bool(v) *)
Definition truthy (v : PyVal) : bool :=
  match v with
  | VNone => false
  | VBool b => b
  | VInt z => negb (z =? 0)
  | VStr s => negb (bool_decide (s = []))
  | VDate _ => true
  end.

(* a or b *)
Definition py_or (a b : PyVal) : PyVal := if truthy a then a else b.

(* value in (None, "") *)
Definition is_blank (v : PyVal) : bool :=
  match v with
  | VNone => true
  | VStr [] => true
  | _ => false
  end.

(* --------------------------------------------------------------------- *)
(* 3. The Python runtime the program calls into                           *)
(* --------------------------------------------------------------------- *)

(* Builtins and library calls whose code is not part of the repository:
   the Unicode database, int(), float(), strptime, hashlib, the clock.
   They are parameters; the laws are the facts about them that the
   properties below rely on. *)
Class PyRuntime := {
  (* Py_UNICODE_TODECIMAL: the value of a character matched by \d *)
  py_todecimal : char -> option Z;
  (* str.isdigit for one character *)
  py_isdigit : char -> bool;
  (* str.lower *)
  py_lower : str -> str;
  (* int(s) for a str; None is ValueError *)
  py_int : str -> option Z;
  (* int(float(s)): ValueError for text that is no number or is NaN,
     OverflowError for an infinity *)
  py_int_float : str -> result Z;
  (* datetime.strptime(s, "%Y-%m-%d").date(); None is ValueError *)
  py_strptime_ymd : str -> option date;
  (* hashlib.sha256(s.encode("utf-8")).hexdigest() *)
  py_sha256_hex : str -> str;
  (* date.today() *)
  py_today : date;

  py_todecimal_ascii : forall c, (c < 128)%N ->
    py_todecimal c = if ((48 <=? c) && (c <=? 57))%N
                     then Some (Z.of_N c - 48) else None;
  py_todecimal_nonspace : forall c, is_Some (py_todecimal c) -> isspace c = false;
  (* no CJK unified ideograph is a decimal digit *)
  py_todecimal_cjk : forall c, (19968 <= c <= 40959)%N -> py_todecimal c = None;
  py_lower_ascii_upper : forall s,
    Forall (fun c => (c < 128)%N) s ->
    py_lower s = List.map (fun c => if ((65 <=? c) && (c <=? 90))%N
                                    then (c + 32)%N else c) s;
  (* the clock shows a year of three digits or more *)
  py_today_year : 100 <= year py_today;
  py_int_str_of_int : forall z, py_int (str_of_int z) = Some z;
  py_strptime_isoformat : forall d,
    valid_date d = true -> py_strptime_ymd (isoformat d) = Some d;
}.

(* row.get(key, default) *)
Definition dict_get (row : gmap string PyVal) (key : string) (dflt : PyVal) : PyVal :=
  default dflt (row !! key).

(* d.setdefault(key, v) *)
Definition setdefault (key : string) (v : PyVal) (d : gmap string PyVal)
  : gmap string PyVal :=
  match d !! key with Some _ => d | None => <[key := v]> d end.

(* d.update(other) *)
Definition dict_update (d other : gmap string PyVal) : gmap string PyVal :=
  other ∪ d.

(* --------------------------------------------------------------------- *)
(* 4. src/models/product.py                                               *)
(* --------------------------------------------------------------------- *)

Module product.
Section model.
Context `{R : PyRuntime}.

Definition ALLOWED_SALE_STATUS : list str :=
  [u "未出品"; u "出品済"; u "売却済"].

(* isinstance(value, datetime) cannot be reached: no value of a row or a
   payload is a datetime (and a datetime is already caught by the date
   test above it). *)
Definition _to_date (value : PyVal) (field_name : string) (required : bool)
  : result (option date) :=
  if is_blank value then
    if required then Raise (ValueError (field_name +:+ " is required"))
    else Ok None
  else match value with
  | VDate d => Ok (Some d)
  | VStr s =>
      match py_strptime_ymd s with
      | Some d => Ok (Some d)
      | None => Raise (ValueError (field_name +:+ " must be YYYY-MM-DD"))
      end
  | _ => Raise (ValueError (field_name +:+ " has invalid type"))
  end.

(* int(value): TypeError and ValueError both become ValueError. *)
Definition _to_int (value : PyVal) (field_name : string) (required : bool)
  : result (option Z) :=
  if is_blank value then
    if required then Raise (ValueError (field_name +:+ " is required"))
    else Ok None
  else match value with
  | VInt z => Ok (Some z)
  | VBool b => Ok (Some (if b then 1 else 0))
  | VStr s =>
      match py_int s with
      | Some z => Ok (Some z)
      | None => Raise (ValueError (field_name +:+ " must be integer"))
      end
  | _ => Raise (ValueError (field_name +:+ " must be integer"))
  end.

(* The dataclass fields as the generated __init__ receives them. *)
Record Product_args := {
  a_product_no : str;
  a_name : str;
  a_store_name : str;
  a_purchase_date : PyVal;
  a_purchase_price : PyVal;
  a_sale_status : str;
  a_listed_date : PyVal;
  a_sale_date : PyVal;
  a_sale_price : PyVal;
  a_sales_channel : option str;
  a_shipping_cost : PyVal;
  a_is_archived : bool;
  a_revision : str;
  a_updated_at : option datetime;
}.

(* A constructed Product: the fields after __post_init__. *)
Record Product := {
  product_no : str;
  name : str;
  store_name : str;
  purchase_date : date;
  purchase_price : Z;
  sale_status : str;
  listed_date : option date;
  sale_date : option date;
  sale_price : option Z;
  sales_channel : option str;
  shipping_cost : option Z;
  is_archived : bool;
  revision : str;
  updated_at : option datetime;
}.

Definition required {A} (field_name : string) (o : option A) : result A :=
  match o with
  | Some a => Ok a
  | None => Raise (ValueError (field_name +:+ " is required"))
  end.

Definition ensure (ok : bool) (msg : string) : result unit :=
  if ok then Ok tt else Raise (ValueError msg).

Definition negative (o : option Z) : bool :=
  match o with Some z => z <? 0 | None => false end.

Definition __post_init__ (a : Product_args) : result Product :=
  _ ← ensure (negb (bool_decide (a_product_no a = []))) "product_no is required";
  _ ← ensure (negb (bool_decide (a_name a = []))) "name is required";
  _ ← ensure (negb (bool_decide (a_store_name a = []))) "store_name is required";
  pd ← _to_date (a_purchase_date a) "purchase_date" true;
  pd ← required "purchase_date" pd;
  pp ← _to_int (a_purchase_price a) "purchase_price" true;
  pp ← required "purchase_price" pp;
  ld ← _to_date (a_listed_date a) "listed_date" false;
  sd ← _to_date (a_sale_date a) "sale_date" false;
  sp ← _to_int (a_sale_price a) "sale_price" false;
  sc ← _to_int (a_shipping_cost a) "shipping_cost" false;
  _ ← ensure (str_in (a_sale_status a) ALLOWED_SALE_STATUS)
        "sale_status must be one of ['出品済', '売却済', '未出品']";
  _ ← ensure (negb (pp <? 0)) "purchase_price must be >= 0";
  _ ← ensure (negb (negative sp)) "sale_price must be >= 0";
  _ ← ensure (negb (negative sc)) "shipping_cost must be >= 0";
  Ok {| product_no := a_product_no a; name := a_name a;
        store_name := a_store_name a; purchase_date := pd;
        purchase_price := pp; sale_status := a_sale_status a;
        listed_date := ld; sale_date := sd; sale_price := sp;
        sales_channel := a_sales_channel a; shipping_cost := sc;
        is_archived := a_is_archived a; revision := a_revision a;
        updated_at := a_updated_at a |}.

(* self.shipping_cost or 0 *)
Definition int_or (o : option Z) (d : Z) : Z :=
  match o with
  | Some z => if z =? 0 then d else z
  | None => d
  end.

Definition profit (self : Product) : option Z :=
  match sale_price self with
  | None => None
  | Some sp =>
      let ship := int_or (shipping_cost self) 0 in
      Some (sp - purchase_price self - ship)
  end.

Definition date_cell (o : option date) : PyVal :=
  match o with Some d => VStr (isoformat d) | None => VStr [] end.

Definition int_cell (o : option Z) : PyVal :=
  match o with Some z => VInt z | None => VStr [] end.

(* x or "" for an optional text *)
Definition str_or_empty (o : option str) : str :=
  match o with
  | Some s => if bool_decide (s = []) then [] else s
  | None => []
  end.

(* The dict literal of to_row, in the order it is written. *)
Definition to_row_items (self : Product) : list (string * PyVal) :=
  [ ("product_no", VStr (product_no self));
    ("name", VStr (name self));
    ("store_name", VStr (store_name self));
    ("purchase_date", VStr (isoformat (purchase_date self)));
    ("purchase_price", VInt (purchase_price self));
    ("sale_status", VStr (sale_status self));
    ("listed_date", date_cell (listed_date self));
    ("sale_date", date_cell (sale_date self));
    ("sale_price", int_cell (sale_price self));
    ("sales_channel", VStr (str_or_empty (sales_channel self)));
    ("shipping_cost", int_cell (shipping_cost self));
    ("is_archived", VBool (is_archived self));
    ("revision", VStr (revision self));
    ("updated_at",
     VStr (match updated_at self with
           | Some t => datetime_isoformat t
           | None => []
           end)) ].

Definition to_row (self : Product) : gmap string PyVal :=
  list_to_map (to_row_items self).

(* s or None *)
Definition nonempty (s : str) : option str :=
  if bool_decide (s = []) then None else Some s.

Definition from_row (row : gmap string PyVal) : result Product :=
  let text key := strip (py_str (dict_get row key (VStr []))) in
  let status := strip (py_str (dict_get row "sale_status" (VStr (u "未出品")))) in
  __post_init__
    {| a_product_no := text "product_no";
       a_name := text "name";
       a_store_name := text "store_name";
       a_purchase_date := dict_get row "purchase_date" (VStr []);
       a_purchase_price := dict_get row "purchase_price" (VStr []);
       a_sale_status := if bool_decide (status = []) then u "未出品" else status;
       a_listed_date := dict_get row "listed_date" (VStr []);
       a_sale_date := dict_get row "sale_date" (VStr []);
       a_sale_price := dict_get row "sale_price" (VStr []);
       a_sales_channel := nonempty (text "sales_channel");
       a_shipping_cost := dict_get row "shipping_cost" (VStr []);
       a_is_archived :=
         str_in (py_lower (py_str (dict_get row "is_archived" (VStr []))))
                [u "true"; u "1"; u "yes"];
       a_revision := text "revision";
       a_updated_at := None |}.

(* getattr(product, "handling_fee"): the dataclass declares no such field
   and nothing ever sets it. *)
Definition handling_fee (self : Product) : result (option Z) :=
  Raise (AttributeError "handling_fee").

End model.
End product.

(* --------------------------------------------------------------------- *)
(* 5. src/services/sheets_product_repository.py: cell parsing             *)
(* --------------------------------------------------------------------- *)

Module SheetsProductRepository.
Import product.

(* An insertion-ordered dict with field-name keys (the column map). *)
Definition colmap := list (string * Z).

Fixpoint col_get (col : colmap) (key : string) : option Z :=
  match col with
  | [] => None
  | (k, c) :: r => if bool_decide (k = key) then Some c else col_get r key
  end.

(* The header texts accepted for each field; the first one listed wins. *)
Definition JP_HEADERS : list (string * list str) :=
  [ ("product_no", [u "商品No"]);
    ("name", [u "商品名"]);
    ("store_name", [u "店舗名"]);
    ("purchase_date", [u "仕入れ日付"; u "仕入日付"]);
    ("purchase_price", [u "仕入額"; u "仕入れ額"]);
    ("listed_date", [u "出品日"]);
    ("sale_date", [u "売却日"]);
    ("sale_price", [u "売上金"]);
    ("sales_channel", [u "販売先"]);
    ("shipping_cost", [u "送料"]);
    ("handling_fee", [u "手数料"]);
    ("listed_flag", [u "出品済"]) ].

Section parsing.
Context `{R : PyRuntime}.

(* hashlib.sha256("|".join(...)).hexdigest()[:16] *)
Definition _row_revision (row_values : list str) : str :=
  take 16 (py_sha256_hex (join (u "|") row_values)).

(* \d *)
Definition is_d (c : char) : bool :=
  match py_todecimal c with Some _ => true | None => false end.

(* int(g) for a regex group g; a group of \d characters has its positional
   decimal value. *)
Fixpoint digits_value (acc : Z) (g : str) : option Z :=
  match g with
  | [] => Some acc
  | c :: r =>
      match py_todecimal c with
      | Some d => digits_value (10 * acc + d) r
      | None => None
      end
  end.

Definition int_group (g : str) : result Z :=
  match g with
  | [] => Raise (ValueError "invalid literal for int()")
  | _ =>
      match digits_value 0 g with
      | Some z => Ok z
      | None => Raise (ValueError "invalid literal for int()")
      end
  end.

(* \d{lo,hi} followed by the rest [k] of the pattern: the counts to try
   are given longest first, and a shorter one is tried when [k] fails. *)
Fixpoint rep_d {A} (counts : list nat) (s : str)
    (k : str -> str -> option A) : option A :=
  match counts with
  | [] => None
  | n :: r =>
      if bool_decide (length (take n s) = n) && forallb is_d (take n s) then
        match k (take n s) (drop n s) with
        | Some a => Some a
        | None => rep_d r s k
        end
      else rep_d r s k
  end.

(* one literal character *)
Definition lit {A} (c : char) (s : str) (k : str -> option A) : option A :=
  match s with
  | c' :: r => if (c' =? c)%N then k r else None
  | [] => None
  end.

(* $: the end of the text, or just before a final newline *)
Definition at_end (s : str) : bool :=
  bool_decide (s = []) || bool_decide (s = [10%N]).

Definition HYPHEN : char := 45%N.
Definition SLASH : char := 47%N.
Definition TSUKI : char := 26376%N.   (* 月 *)
Definition NICHI : char := 26085%N.   (* 日 *)

(* ^(\d{4})-(\d{1,2})-(\d{1,2})$ *)
Definition re_ymd (s : str) : option (str * str * str) :=
  rep_d [4%nat] s (fun g1 s1 =>
  lit HYPHEN s1 (fun s2 =>
  rep_d [2%nat; 1%nat] s2 (fun g2 s3 =>
  lit HYPHEN s3 (fun s4 =>
  rep_d [2%nat; 1%nat] s4 (fun g3 s5 =>
  if at_end s5 then Some (g1, g2, g3) else None))))).

(* ^(\d{1,2})/(\d{1,2})(?:/(\d{2,4}))?$ *)
Definition re_md (s : str) : option (str * str * option str) :=
  rep_d [2%nat; 1%nat] s (fun g1 s1 =>
  lit SLASH s1 (fun s2 =>
  rep_d [2%nat; 1%nat] s2 (fun g2 s3 =>
  match lit SLASH s3 (fun s4 =>
          rep_d [4%nat; 3%nat; 2%nat] s4 (fun g3 s5 =>
          if at_end s5 then Some (g1, g2, Some g3) else None)) with
  | Some m => Some m
  | None => if at_end s3 then Some (g1, g2, None) else None
  end))).

(* ^(\d{1,2})月(\d{1,2})日 *)
Definition re_jp (s : str) : option (str * str) :=
  rep_d [2%nat; 1%nat] s (fun g1 s1 =>
  lit TSUKI s1 (fun s2 =>
  rep_d [2%nat; 1%nat] s2 (fun g2 s3 =>
  lit NICHI s3 (fun _ => Some (g1, g2))))).

Definition _to_iso_date (value : PyVal) : result (option str) :=
  if is_blank value then Ok None else
  let s := strip (py_str value) in
  if bool_decide (s = []) then Ok None else
  match re_ymd s with
  | Some (g1, g2, g3) =>
      m ← int_group g2;
      d ← int_group g3;
      Ok (Some (g1 ++ u "-" ++ pad_int 2 m ++ u "-" ++ pad_int 2 d))
  | None =>
  match re_md s with
  | Some (g1, g2, g3) =>
      y ← match g3 with
          | Some g => int_group g
          | None => Ok (year py_today)
          end;
      let y := if y <? 100 then y + (if y <? 50 then 2000 else 1900) else y in
      m ← int_group g1;
      d ← int_group g2;
      Ok (Some (str_of_int y ++ u "-" ++ pad_int 2 m ++ u "-" ++ pad_int 2 d))
  | None =>
  match re_jp s with
  | Some (g1, g2) =>
      let y := year py_today in
      m ← int_group g1;
      d ← int_group g2;
      Ok (Some (str_of_int y ++ u "-" ++ pad_int 2 m ++ u "-" ++ pad_int 2 d))
  | None => Ok None
  end end end.

(* str(int(float(str(value).replace(",", "")))), or "" *)
Definition _to_int_str (value : PyVal) : result str :=
  if is_blank value then Ok [] else
  match py_int_float (remove_char 44%N (py_str value)) with
  | Ok z => Ok (str_of_int z)
  | Raise (ValueError _) => Ok []
  | Raise TypeError => Ok []
  | Raise e => Raise e
  end.

(* int(s) if s else None *)
Definition int_if_text (s : str) : result (option Z) :=
  if bool_decide (s = []) then Ok None
  else match py_int s with
       | Some z => Ok (Some z)
       | None => Raise (ValueError "invalid literal for int()")
       end.

(* The local function _cell of _record_from_jp_row. *)
Definition _cell (col : colmap) (row_values : list str) (key : string)
  : result str :=
  match col_get col key with
  | None => Ok []
  | Some idx =>
      if Z.of_nat (length row_values) <? idx then Ok []
      else match py_getitem row_values (idx - 1) with
           | Some v => Ok (strip v)
           | None => Raise IndexError
           end
  end.

Definition AFFIRMATIVE : list str :=
  [u "true"; u "1"; u "yes"; u "○"; u "〇"; u "はい"; u "出品済"; u "済"].

Definition positive_price (o : option Z) : bool :=
  match o with Some z => 0 <? z | None => false end.

(* The status derived from the sale date, the sale price and the flag. *)
Definition derive_sale_status (sale_date : option str) (sale_price : option Z)
    (listed_flag : str) : str :=
  if match sale_date with Some (_ :: _) => true | _ => false end
     || positive_price sale_price
  then u "売却済"
  else if str_in (py_lower listed_flag) AFFIRMATIVE then u "出品済"
  else u "未出品".

Definition opt_text (o : option str) : PyVal :=
  VStr (match o with Some s => if bool_decide (s = []) then [] else s | None => [] end).

(* The body of _record_from_jp_row once the column map is at hand. *)
Definition jp_record (col : colmap) (row_values : list str)
  : result (gmap string PyVal) :=
  let cell key := _cell col row_values key in
  c ← cell "purchase_date"; purchase_date ← _to_iso_date (VStr c);
  c ← cell "listed_date"; listed_date ← _to_iso_date (VStr c);
  c ← cell "sale_date"; sale_date ← _to_iso_date (VStr c);
  c ← cell "sale_price"; sale_price_str ← _to_int_str (VStr c);
  sale_price ← int_if_text sale_price_str;
  c ← cell "shipping_cost"; shipping_cost_str ← _to_int_str (VStr c);
  shipping_cost ← int_if_text shipping_cost_str;
  c ← cell "handling_fee"; handling_fee_str ← _to_int_str (VStr c);
  handling_fee ← int_if_text handling_fee_str;
  c ← cell "listed_flag";
  let listed_flag := strip c in
  let sale_status := derive_sale_status sale_date sale_price listed_flag in
  c_product_no ← cell "product_no";
  c_name ← cell "name";
  c_store_name ← cell "store_name";
  c ← cell "purchase_price"; purchase_price ← _to_int_str (VStr c);
  c_sales_channel ← cell "sales_channel";
  Ok (list_to_map
    [ ("product_no", VStr c_product_no);
      ("name", VStr c_name);
      ("store_name", VStr c_store_name);
      ("purchase_date", opt_text purchase_date);
      ("purchase_price",
       VStr (if bool_decide (purchase_price = []) then u "0" else purchase_price));
      ("sale_status", VStr sale_status);
      ("listed_date", opt_text listed_date);
      ("sale_date", opt_text sale_date);
      ("sale_price", int_cell sale_price);
      ("sales_channel",
       if bool_decide (c_sales_channel = []) then VNone else VStr c_sales_channel);
      ("shipping_cost", int_cell shipping_cost);
      ("handling_fee", int_cell handling_fee);
      ("revision", VStr (_row_revision row_values)) ]).

End parsing.

(* --------------------------------------------------------------------- *)
(* 6. The worksheet and the repository operations                         *)
(* --------------------------------------------------------------------- *)

(* The gspread worksheet: the four calls the repository makes.  Cells are
   read back as text. *)
Class Worksheet (W : Type) := {
  row_values : W -> Z -> list str;
  get_all_values : W -> list (list str);
  update_cell : Z -> Z -> PyVal -> W -> W;
  append_row : list PyVal -> W -> W;
}.

(* A write call issued to the worksheet. *)
Inductive write :=
| UpdateCell (row col : Z) (value : PyVal)
| AppendRow (values : list PyVal).

(* The repository instance together with the sheet behind it.  [writes]
   records, oldest first, the write calls issued so far. *)
Record state (W : Type) := {
  sheet : W;
  _worksheet : bool;                (* self._worksheet is not None *)
  _jp_col_map : option colmap;
  writes : list write;
}.
Arguments sheet {W} _.
Arguments _worksheet {W} _.
Arguments _jp_col_map {W} _.
Arguments writes {W} _.

(* A method: it returns or raises, and leaves a state behind either way. *)
Definition M (W A : Type) : Type := state W -> result A * state W.

#[global] Instance M_ret {W} : MRet (M W) := fun _ a σ => (Ok a, σ).
#[global] Instance M_bind {W} : MBind (M W) := fun _ _ k m σ =>
  match m σ with
  | (Ok a, σ') => k a σ'
  | (Raise e, σ') => (Raise e, σ')
  end.

Definition raise {W A} (e : exn) : M W A := fun σ => (Raise e, σ).

Definition lift {W A} (r : result A) : M W A := fun σ => (r, σ).

Section repository.
Context `{R : PyRuntime} {W : Type} `{WS : Worksheet W}.

Definition ws_row_values (n : Z) : M W (list str) :=
  fun σ => (Ok (row_values (sheet σ) n), σ).

Definition ws_get_all_values : M W (list (list str)) :=
  fun σ => (Ok (get_all_values (sheet σ)), σ).

Definition ws_update_cell (r c : Z) (v : PyVal) : M W unit :=
  fun σ => (Ok tt, {| sheet := update_cell r c v (sheet σ);
                      _worksheet := _worksheet σ;
                      _jp_col_map := _jp_col_map σ;
                      writes := writes σ ++ [UpdateCell r c v] |}).

Definition ws_append_row (vs : list PyVal) : M W unit :=
  fun σ => (Ok tt, {| sheet := append_row vs (sheet σ);
                      _worksheet := _worksheet σ;
                      _jp_col_map := _jp_col_map σ;
                      writes := writes σ ++ [AppendRow vs] |}).

(* self._jp_col_map or {} *)
Definition the_col_map : M W colmap :=
  fun σ => (Ok (default [] (_jp_col_map σ)), σ).

(* The inner loop of _configure_sheet_layout for one header cell. *)
Fixpoint bind_header (h : str) (idx : Z) (hs : list (string * list str))
    (m : colmap) : colmap :=
  match hs with
  | [] => m
  | (en_key, headers) :: r =>
      match col_get m en_key with
      | Some _ => bind_header h idx r m
      | None =>
          if str_in h headers then m ++ [(en_key, idx + 1)]
          else bind_header h idx r m
      end
  end.

Fixpoint bind_headers (idx : Z) (row3 : list str) (m : colmap) : colmap :=
  match row3 with
  | [] => m
  | raw_header :: r =>
      let h := strip (remove_char 10%N raw_header) in
      bind_headers (idx + 1) r (bind_header h idx JP_HEADERS m)
  end.

Definition _configure_sheet_layout : M W unit :=
  fun σ =>
    if _worksheet σ then
      let row3 := row_values (sheet σ) 3 in
      (Ok tt, {| sheet := sheet σ; _worksheet := true;
                 _jp_col_map := Some (bind_headers 0 row3 []);
                 writes := writes σ |})
    else (Ok tt, σ).

Definition _open_worksheet : M W unit :=
  fun σ =>
    if _worksheet σ then (Ok tt, σ)
    else _configure_sheet_layout
           {| sheet := sheet σ; _worksheet := true;
              _jp_col_map := _jp_col_map σ; writes := writes σ |}.

Definition _record_from_jp_row (row_num : Z) (row_vals : list str)
  : M W (gmap string PyVal) :=
  _ ← (fun σ => match _jp_col_map σ with
                | None => _open_worksheet σ
                | Some _ => (Ok tt, σ)
                end);
  col ← the_col_map;
  lift (jp_record col row_vals).

(* An insertion-ordered dict keyed by column: assigning to a key that is
   present replaces its value in place. *)
Fixpoint dict_set (d : list (Z * PyVal)) (k : Z) (v : PyVal) : list (Z * PyVal) :=
  match d with
  | [] => [(k, v)]
  | (k', v') :: r => if k' =? k then (k, v) :: r else (k', v') :: dict_set r k v
  end.

(* if col.get(key): updates[col[key]] = v *)
Definition set_if_bound (col : colmap) (key : string) (v : PyVal)
    (updates : list (Z * PyVal)) : list (Z * PyVal) :=
  match col_get col key with
  | Some c => if c =? 0 then updates else dict_set updates c v
  | None => updates
  end.

Definition bound (col : colmap) (key : string) : bool :=
  match col_get col key with
  | Some c => negb (c =? 0)
  | None => false
  end.

Definition flag_cell (p : Product) : PyVal :=
  VStr (if str_in (sale_status p) [u "出品済"; u "売却済"]
        then u "TRUE" else u "FALSE").

Definition _apply_updates_to_jp_row (col : colmap) (p : Product)
    (listed : option date) : result (list (Z * PyVal)) :=
  let updates := set_if_bound col "name" (VStr (name p)) [] in
  let updates := set_if_bound col "store_name" (VStr (store_name p)) updates in
  let updates := set_if_bound col "purchase_date"
                   (VStr (isoformat (purchase_date p))) updates in
  let updates := set_if_bound col "purchase_price" (VInt (purchase_price p)) updates in
  let d := match listed with Some d => Some d | None => listed_date p end in
  let updates := set_if_bound col "listed_date" (date_cell d) updates in
  let updates := set_if_bound col "sale_date" (date_cell (sale_date p)) updates in
  let updates := set_if_bound col "sale_price" (int_cell (sale_price p)) updates in
  let updates := set_if_bound col "sales_channel"
                   (VStr (str_or_empty (sales_channel p))) updates in
  let updates := set_if_bound col "shipping_cost"
                   (int_cell (shipping_cost p)) updates in
  updates ← (if bound col "handling_fee"
             then fee ← handling_fee p;
                  Ok (set_if_bound col "handling_fee" (int_cell fee) updates)
             else Ok updates);
  Ok (set_if_bound col "listed_flag" (flag_cell p) updates).

(* (row[c - 1] if c <= n else "").strip() *)
Definition cell_at (row : list str) (c : Z) : result str :=
  if c <=? Z.of_nat (length row) then
    match py_getitem row (c - 1) with
    | Some v => Ok (strip v)
    | None => Raise IndexError
    end
  else Ok (strip []).

(* The scan of _find_first_insertable_jp_row over all_values[4:]; [i] is
   the index of the first row of [rows]. *)
Fixpoint scan_insertable (product_no_col name_col : Z) (i : Z)
    (rows : list (list str)) : result (option (Z * str)) :=
  match rows with
  | [] => Ok None
  | row :: r =>
      pno ← cell_at row product_no_col;
      name_val ← cell_at row name_col;
      if negb (bool_decide (pno = [])) && bool_decide (name_val = [])
      then Ok (Some (i + 1, pno))
      else scan_insertable product_no_col name_col (i + 1) r
  end.

Definition _find_first_insertable_jp_row : M W (option (Z * str)) :=
  _ ← _open_worksheet;
  all_values ← ws_get_all_values;
  if bool_decide (length all_values < 5)%nat then mret None else
  col ← the_col_map;
  match col_get col "product_no", col_get col "name" with
  | Some product_no_col, Some name_col =>
      lift (scan_insertable product_no_col name_col 4 (drop 4 all_values))
  | _, _ => mret None
  end.

End repository.

Section operations.
Context `{R : PyRuntime} {W : Type} `{WS : Worksheet W}.

(* try: body  except ValueError: handler *)
Definition except_ValueError {A} (body handler : M W A) : M W A :=
  fun σ =>
    match body σ with
    | (Raise (ValueError _), σ') => handler σ'
    | other => other
    end.

(* One turn of the loop of list_products: the product of the row, or None
   when the row is passed over. *)
Definition list_row (include_archived : bool) (i : Z) (row : list str)
  : M W (option Product) :=
  except_ValueError
    (rec ← _record_from_jp_row (i + 1) row;
     if negb (truthy (dict_get rec "product_no" VNone)) then mret None else
     p ← lift (from_row rec);
     if negb include_archived && is_archived p then mret None
     else mret (Some p))
    (mret None).

Fixpoint list_rows (include_archived : bool) (i : Z) (rows : list (list str))
  : M W (list Product) :=
  match rows with
  | [] => mret []
  | row :: r =>
      o ← list_row include_archived i row;
      rest ← list_rows include_archived (i + 1) r;
      mret (match o with Some p => p :: rest | None => rest end)
  end.

Definition list_products (include_archived : bool) : M W (list Product) :=
  _ ← _open_worksheet;
  all_values ← ws_get_all_values;
  if bool_decide (length all_values < 5)%nat then mret []
  else list_rows include_archived 4 (drop 4 all_values).

(* s.isdigit() *)
Definition isdigit (s : str) : bool :=
  negb (bool_decide (s = [])) && forallb py_isdigit s.

Fixpoint max_seq_of (products : list Product) (max_seq : Z) : result Z :=
  match products with
  | [] => Ok max_seq
  | p :: r =>
      if startswith (u "P") (product_no p) && isdigit (drop 1 (product_no p))
      then match py_int (drop 1 (product_no p)) with
           | Some n => max_seq_of r (Z.max max_seq n)
           | None => Raise (ValueError "invalid literal for int()")
           end
      else max_seq_of r max_seq
  end.

Definition _next_product_no : M W str :=
  products ← list_products true;
  max_seq ← lift (max_seq_of products 0);
  mret (u "P" ++ pad_int 5 (max_seq + 1)).

Definition set_revision (p : Product) (rev : str) : Product :=
  {| product_no := product_no p; name := name p; store_name := store_name p;
     purchase_date := purchase_date p; purchase_price := purchase_price p;
     sale_status := sale_status p; listed_date := listed_date p;
     sale_date := sale_date p; sale_price := sale_price p;
     sales_channel := sales_channel p; shipping_cost := shipping_cost p;
     is_archived := is_archived p; revision := rev;
     updated_at := updated_at p |}.

(* for col_idx, val in updates.items(): ws.update_cell(row, col_idx, val) *)
Fixpoint write_cells (row : Z) (updates : list (Z * PyVal)) : M W unit :=
  match updates with
  | [] => mret tt
  | (col_idx, val) :: r => _ ← ws_update_cell row col_idx val; write_cells row r
  end.

(* listed_date only for a record whose status is 出品済 *)
Definition listed_if_listed (p : Product) : option date :=
  if str_eqb (sale_status p) (u "出品済") then listed_date p else None.

(* The value the append branch puts in the column of field [k]; None for
   a key outside the elif chain. *)
Definition append_value (k : string) (product_no : PyVal) (p : Product)
  : result (option PyVal) :=
  if bool_decide (k = "product_no") then Ok (Some product_no)
  else if bool_decide (k = "name") then Ok (Some (VStr (name p)))
  else if bool_decide (k = "store_name") then Ok (Some (VStr (store_name p)))
  else if bool_decide (k = "purchase_date")
    then Ok (Some (VStr (isoformat (purchase_date p))))
  else if bool_decide (k = "purchase_price") then Ok (Some (VInt (purchase_price p)))
  else if bool_decide (k = "listed_date")
    then Ok (Some (date_cell (listed_if_listed p)))
  else if bool_decide (k = "sale_date") then Ok (Some (date_cell (sale_date p)))
  else if bool_decide (k = "sale_price") then Ok (Some (int_cell (sale_price p)))
  else if bool_decide (k = "sales_channel")
    then Ok (Some (VStr (str_or_empty (sales_channel p))))
  else if bool_decide (k = "shipping_cost")
    then Ok (Some (int_cell (shipping_cost p)))
  else if bool_decide (k = "handling_fee")
    then fee ← handling_fee p; Ok (Some (int_cell fee))
  else if bool_decide (k = "listed_flag") then Ok (Some (flag_cell p))
  else Ok None.

Fixpoint fill_row (items : colmap) (product_no : PyVal) (p : Product)
    (row_data : list PyVal) : result (list PyVal) :=
  match items with
  | [] => Ok row_data
  | (k, c) :: r =>
      v ← append_value k product_no p;
      match v with
      | None => fill_row r product_no p row_data
      | Some v =>
          match py_setitem row_data (c - 1) v with
          | Some row_data' => fill_row r product_no p row_data'
          | None => Raise IndexError
          end
      end
  end.

(* max(col.values(), default=10) *)
Definition max_col (col : colmap) : Z :=
  match col with
  | [] => 10
  | (_, c) :: r => fold_left Z.max (List.map snd r) c
  end.

Definition create_product (payload : gmap string PyVal) : M W Product :=
  slot ← _find_first_insertable_jp_row;
  product_no ←
    (let given := dict_get payload "product_no" VNone in
     if truthy given then mret given
     else match slot with
          | Some (_, pno) => mret (VStr pno)
          | None => n ← _next_product_no; mret (VStr n)
          end);
  let data := <["product_no" := product_no]> payload in
  let data := setdefault "sale_status" (VStr (u "未出品")) data in
  let data := setdefault "listed_date" VNone data in
  let data := setdefault "sale_date" VNone data in
  let data := setdefault "sale_price" VNone data in
  let data := setdefault "sales_channel" VNone data in
  let data := setdefault "shipping_cost" VNone data in
  let data := setdefault "handling_fee" VNone data in
  product ← lift (from_row data);
  _ ← _open_worksheet;
  slot ← _find_first_insertable_jp_row;
  _ ← match slot with
      | Some (insert_row, _) =>
          col ← the_col_map;
          _ ← match col_get col "product_no" with
              | Some product_no_col =>
                  if product_no_col =? 0 then mret tt
                  else ws_update_cell insert_row product_no_col product_no
              | None => mret tt
              end;
          updates ← lift (_apply_updates_to_jp_row col product
                            (listed_if_listed product));
          write_cells insert_row updates
      | None =>
          col ← the_col_map;
          let row_data := repeat (VStr []) (Z.to_nat (max_col col)) in
          row_data ← lift (fill_row col product_no product row_data);
          ws_append_row row_data
      end;
  all_values ← ws_get_all_values;
  let target_row := match slot with
                    | Some (r, _) => r
                    | None => Z.of_nat (length all_values)
                    end in
  if target_row <=? Z.of_nat (length all_values) then
    match py_getitem all_values (target_row - 1) with
    | Some row_vals => mret (set_revision product (_row_revision row_vals))
    | None => raise IndexError
    end
  else mret product.

(* The search loop of update_product over all_values[4:]. *)
Fixpoint find_row (product_no_col : Z) (product_no : str) (i : Z)
    (rows : list (list str)) : result (option Z) :=
  match rows with
  | [] => Ok None
  | row :: r =>
      pno ← cell_at row product_no_col;
      if str_eqb pno product_no then Ok (Some (i + 1))
      else find_row product_no_col product_no (i + 1) r
  end.

Definition update_product (product_no : str) (updates : gmap string PyVal)
    (expected_revision : str) : M W Product :=
  _ ← _open_worksheet;
  all_values ← ws_get_all_values;
  if bool_decide (length all_values < 5)%nat then raise (KeyError product_no) else
  col ← the_col_map;
  match col_get col "product_no" with
  | None => raise (KeyError product_no)
  | Some product_no_col =>
      target ← lift (find_row product_no_col product_no 4 (drop 4 all_values));
      match target with
      | None => raise (KeyError product_no)
      | Some target_row =>
          match py_getitem all_values (target_row - 1) with
          | None => raise IndexError
          | Some row_vals =>
              let current_revision := _row_revision row_vals in
              if negb (str_eqb current_revision expected_revision)
              then raise ExternalUpdateDetectedError else
              rec ← _record_from_jp_row target_row row_vals;
              current ← lift (from_row rec);
              let merged := dict_update (to_row current) updates in
              let merged := <["product_no" := VStr product_no]> merged in
              updated ← lift (from_row merged);
              col ← the_col_map;
              cell_updates ← lift (_apply_updates_to_jp_row col updated
                                     (listed_date updated));
              _ ← write_cells target_row cell_updates;
              rv ← ws_row_values target_row;
              mret (set_revision updated (_row_revision rv))
          end
      end
  end.

End operations.
End SheetsProductRepository.

(* --------------------------------------------------------------------- *)
(* 7. A reference runtime and an in-memory worksheet                      *)
(* --------------------------------------------------------------------- *)

(* The builtins restricted to ASCII digits and letters; on such text they
   agree with CPython.  Used to run the model on concrete rows. *)
Module Reference.
Import product SheetsProductRepository.

Definition todecimal (c : char) : option Z :=
  if ((48 <=? c) && (c <=? 57))%N then Some (Z.of_N c - 48) else None.

Definition isdigit1 (c : char) : bool := ((48 <=? c) && (c <=? 57))%N.

Definition lower (s : str) : str :=
  List.map (fun c => if ((65 <=? c) && (c <=? 90))%N then (c + 32)%N else c) s.

Definition text_of (s : str) : string :=
  string_of_list_ascii (List.map ascii_of_N s).

(* [-]digits, as str(int) writes them (leading zeros allowed) *)
Definition int_plain (s : str) : option Z :=
  if forallb (fun c => (c <? 256)%N) s
  then Z.of_int <$> NilZero.int_of_string (text_of s)
  else None.

Definition ascii_space (c : char) : bool :=
  ((9 <=? c) && (c <=? 13) || (c =? 32))%N.

Fixpoint drop_space (s : str) : str :=
  match s with
  | [] => []
  | c :: r => if ascii_space c then drop_space r else s
  end.

Definition ascii_strip (s : str) : str :=
  rev (drop_space (rev (drop_space s))).

(* one leading plus sign before a digit *)
Definition unsign (s : str) : str :=
  match s with
  | 43%N :: (c :: _) as r => if isdigit1 c then r else s
  | _ => s
  end.

(* int(s): surrounding blanks and a plus sign are accepted *)
Definition int (s : str) : option Z :=
  match int_plain s with
  | Some z => Some z
  | None => int_plain (unsign (ascii_strip s))
  end.

Fixpoint span_digits (s : str) : str * str :=
  match s with
  | [] => ([], [])
  | c :: r =>
      if isdigit1 c then let '(ds, rest) := span_digits r in (c :: ds, rest)
      else ([], s)
  end.

Definition INFINITIES : list str :=
  [u "inf"; u "+inf"; u "-inf"; u "infinity"; u "+infinity"; u "-infinity"].

(* int(float(s)) for a plain decimal numeral with an optional fraction
   (exact below 2**53), and for the spellings of infinity and NaN *)
Definition int_float (s : str) : result Z :=
  let t := ascii_strip s in
  if str_in (lower t) INFINITIES then Raise OverflowError else
  let '(neg, body) := match t with
                      | 45%N :: r => (true, r)
                      | 43%N :: r => (false, r)
                      | _ => (false, t)
                      end in
  let '(whole, rest) := span_digits body in
  let '(frac, tail) := match rest with
                       | 46%N :: r => span_digits r
                       | _ => ([], rest)
                       end in
  if bool_decide (tail = []) && negb (bool_decide (whole ++ frac = [])) then
    match int_plain (48%N :: whole) with
    | Some z => Ok (if neg then - z else z)
    | None => Raise (ValueError "could not convert string to float")
    end
  else Raise (ValueError "could not convert string to float").

Definition digit2 (a b : char) : option Z :=
  if isdigit1 a && isdigit1 b
  then Some (10 * (Z.of_N a - 48) + (Z.of_N b - 48)) else None.

(* (1[0-2]|0[1-9]|[1-9]) followed by a hyphen *)
Definition month_then (s : str) : option (Z * str) :=
  match s with
  | a :: 45%N :: r =>
      if ((49 <=? a) && (a <=? 57))%N then Some (Z.of_N a - 48, r) else None
  | a :: b :: 45%N :: r =>
      match digit2 a b with
      | Some m => if (1 <=? m) && (m <=? 12) then Some (m, r) else None
      | None => None
      end
  | _ => None
  end.

(* (3[01]|[12]\d|0[1-9]|[1-9]| [1-9]) up to the end of the text *)
Definition day_only (s : str) : option Z :=
  match s with
  | [a] => if ((49 <=? a) && (a <=? 57))%N then Some (Z.of_N a - 48) else None
  | [a; b] =>
      if (a =? 32)%N
      then (if ((49 <=? b) && (b <=? 57))%N then Some (Z.of_N b - 48) else None)
      else match digit2 a b with
           | Some d => if (1 <=? d) && (d <=? 31) then Some d else None
           | None => None
           end
  | _ => None
  end.

(* datetime.strptime(s, "%Y-%m-%d").date() *)
Definition strptime_ymd (s : str) : option date :=
  match s with
  | a :: b :: c :: d :: 45%N :: r =>
      match digit2 a b, digit2 c d with
      | Some hi, Some lo =>
          match month_then r with
          | Some (m, r') =>
              match day_only r' with
              | Some dd =>
                  let dt := mkdate (100 * hi + lo) m dd in
                  if valid_date dt then Some dt else None
              | None => None
              end
          | None => None
          end
      | _, _ => None
      end
  | _ => None
  end.

Definition hex_digit (n : N) : char :=
  if (n <? 10)%N then (48 + n)%N else (87 + n)%N.

Fixpoint hex_of (digits : nat) (n : N) (acc : str) : str :=
  match digits with
  | O => acc
  | S k => hex_of k (n / 16)%N (hex_digit (n mod 16)%N :: acc)
  end.

(* A stand-in for the SHA-256 hex digest: a 256-bit polynomial checksum of
   the code points, printed as 64 hex digits.  No property below depends
   on which digest is used. *)
Definition digest_hex (s : str) : str :=
  hex_of 64 (fold_left (fun h c => ((h * 1000003 + c + 1) mod 2 ^ 256)%N) s 5381%N) [].

(* An in-memory worksheet: a grid of text cells. *)
Definition grid := list (list str).

(* the text a written value shows as *)
Definition cell_text (v : PyVal) : str :=
  match v with
  | VNone => []
  | VBool true => u "TRUE"
  | VBool false => u "FALSE"
  | other => py_str other
  end.

Definition pad_to {A} (n : nat) (x : A) (l : list A) : list A :=
  l ++ repeat x (n - length l).

Definition grid_update (r c : Z) (v : PyVal) (g : grid) : grid :=
  let g := pad_to (Z.to_nat r) [] g in
  match g !! Z.to_nat (r - 1) with
  | Some row =>
      <[Z.to_nat (r - 1) :=
          <[Z.to_nat (c - 1) := cell_text v]> (pad_to (Z.to_nat c) [] row)]> g
  | None => g
  end.

#[global] Instance grid_worksheet : Worksheet grid := {|
  row_values g n := default [] (g !! Z.to_nat (n - 1));
  get_all_values g := g;
  update_cell := grid_update;
  append_row vs g := g ++ [List.map cell_text vs];
|}.


Definition in_range (lo n : Z) (ensure : Z -> bool) : bool :=
  forallb ensure (seqZ lo n).

Definition check_year (y : Z) : bool :=
  match pad_int 4 y with
  | [a; b; c; d] =>
      match digit2 a b, digit2 c d with
      | Some hi, Some lo => 100 * hi + lo =? y
      | _, _ => false
      end
  | _ => false
  end.

Definition check_month (m : Z) : bool :=
  bool_decide (month_then (pad_int 2 m ++ [45%N]) = Some (m, [])).

Definition check_day (d : Z) : bool :=
  bool_decide (day_only (pad_int 2 d) = Some d).

End Reference.

(* --------------------------------------------------------------------- *)
(* 8. The vocabulary of the properties                                    *)
(* --------------------------------------------------------------------- *)

Import product SheetsProductRepository.

(* lookup in a dict literal *)
Fixpoint assoc {A} (k : string) (l : list (string * A)) : option A :=
  match l with
  | [] => None
  | (k', v) :: r => if String.eqb k' k then Some v else assoc k r
  end.

Section vocabulary.
Context `{R : PyRuntime}.

(* a text whose first character, if any, is not blank *)
Definition head_ok (s : str) : Prop :=
  match s with [] => True | c :: _ => isspace c = false end.

Definition nonneg (o : option Z) : Prop :=
  match o with Some z => 0 <= z | None => True end.

(* What __post_init__ has checked of a Product it returned. *)
Record checked (p : Product) : Prop := {
  chk_product_no : product_no p <> [];
  chk_name : name p <> [];
  chk_store_name : store_name p <> [];
  chk_sale_status : str_in (sale_status p) ALLOWED_SALE_STATUS = true;
  chk_purchase_price : 0 <= purchase_price p;
  chk_sale_price : nonneg (sale_price p);
  chk_shipping_cost : nonneg (shipping_cost p);
}.

(* The fields a round trip is asked to keep. *)
Definition same_record (p q : Product) : Prop :=
  product_no q = product_no p /\ name q = name p /\ store_name q = store_name p
  /\ purchase_date q = purchase_date p /\ purchase_price q = purchase_price p
  /\ sale_status q = sale_status p /\ listed_date q = listed_date p
  /\ sale_date q = sale_date p /\ sale_price q = sale_price p
  /\ sales_channel q = sales_channel p /\ shipping_cost q = shipping_cost p
  /\ is_archived q = is_archived p.

Definition valid_opt (o : option date) : Prop :=
  match o with Some d => valid_date d = true | None => True end.

(* Every date field holds a date of the calendar. *)
Definition calendar (p : Product) : Prop :=
  valid_date (purchase_date p) = true /\ valid_opt (listed_date p)
  /\ valid_opt (sale_date p).

Definition trimmed (s : str) : Prop := strip s = s.

(* The text fields are as from_row would leave them. *)
Definition tidy (p : Product) : Prop :=
  trimmed (product_no p) /\ trimmed (name p) /\ trimmed (store_name p)
  /\ match sales_channel p with
     | Some s => s <> [] /\ trimmed s
     | None => True
     end.

Definition raises_ValueError {A} (r : result A) : Prop :=
  forall e, r = Raise e -> exists msg, e = ValueError msg.

(* The sale-status value of a row map is absent, empty or only blanks. *)
Definition blank_status (row : gmap string PyVal) : Prop :=
  match row !! "sale_status" with
  | None => True
  | Some v => strip (py_str v) = []
  end.

Definition NOT_LISTED : str := u "未出品".

(* The longest prefix of \d characters, and what follows it. *)
Fixpoint span_d (s : str) : str * str :=
  match s with
  | [] => ([], [])
  | c :: r =>
      if is_d c then let '(g, rest) := span_d r in (c :: g, rest)
      else ([], s)
  end.

(* the text does not go on with a digit *)
Definition stops (rest : str) : Prop :=
  match rest with [] => True | c :: _ => is_d c = false end.

(* a continuation that cannot go on when a digit comes next *)
Definition digit_blocked {A} (k : str -> str -> option A) : Prop :=
  forall g c r, is_d c = true -> k g (c :: r) = None.

(* lo to hi characters, all of them \d *)
Definition digits (lo hi : nat) (g : str) : Prop :=
  forallb is_d g = true /\ (lo <= length g <= hi)%nat.

(* int(g) for a group of digits *)
Definition dval (g : str) : Z := default 0 (digits_value 0 g).

(* a year below 100 is put in the 2000s (below 50) or the 1900s *)
Definition century (y : Z) : Z :=
  if y <? 100 then y + (if y <? 50 then 2000 else 1900) else y.

(* year text, "-", month and day on two digits *)
Definition iso (y m d : str) : str :=
  y ++ u "-" ++ pad_int 2 (dval m) ++ u "-" ++ pad_int 2 (dval d).

Definition this_year : str := str_of_int (year py_today).

(* What _to_iso_date returns for a trimmed, non-empty text. *)
Definition iso_of (s : str) : option str :=
  match re_ymd s with
  | Some (g1, g2, g3) => Some (iso g1 g2 g3)
  | None =>
      match re_md s with
      | Some (g1, g2, Some g3) => Some (iso (str_of_int (century (dval g3))) g1 g2)
      | Some (g1, g2, None) => Some (iso this_year g1 g2)
      | None =>
          match re_jp s with
          | Some (g1, g2) => Some (iso this_year g1 g2)
          | None => None
          end
      end
  end.

(* The four shapes of text that are recognised. *)
Definition ymd_shape (s y m d : str) : Prop :=
  digits 4 4 y /\ digits 1 2 m /\ digits 1 2 d
  /\ s = y ++ HYPHEN :: m ++ HYPHEN :: d.

Definition md_shape (s m d : str) : Prop :=
  digits 1 2 m /\ digits 1 2 d /\ s = m ++ SLASH :: d.

Definition mdy_shape (s m d y : str) : Prop :=
  digits 1 2 m /\ digits 1 2 d /\ digits 2 4 y
  /\ s = m ++ SLASH :: d ++ SLASH :: y.

Definition jp_shape (s m d rest : str) : Prop :=
  digits 1 2 m /\ digits 1 2 d /\ s = m ++ TSUKI :: d ++ NICHI :: rest.

Definition recognised (s : str) : Prop :=
  (exists y m d, ymd_shape s y m d) \/ (exists m d, md_shape s m d)
  \/ (exists m d y, mdy_shape s m d y) \/ (exists m d rest, jp_shape s m d rest).

Definition SOLD : str := u "売却済".
Definition LISTED : str := u "出品済".

(* the sale-date cell parses to a date *)
Definition parses_to_date (cell : str) : Prop :=
  exists iso, _to_iso_date (VStr cell) = Ok (Some iso).

(* the sale-price cell parses to a positive integer *)
Definition parses_to_positive (cell : str) : Prop :=
  exists z, cell <> [] /\ py_int_float (remove_char 44%N cell) = Ok z /\ 0 < z.

(* the listed-flag cell is one of the affirmative tokens *)
Definition affirmative (cell : str) : Prop :=
  str_in (py_lower cell) AFFIRMATIVE = true.

(* The text a sheet row shows in the column bound to a field: the cell
   without surrounding blanks, and the empty text when no column is bound
   or the row ends before the column. *)
Definition text_in_row (col : colmap) (row : list str) (key : string) : str :=
  match col_get col key with
  | Some c => strip (nth (Z.to_nat (c - 1)) row [])
  | None => []
  end.

(* The shapes the specification lists: a year after the second slash has
   two or four digits. *)
Definition listed_shape (s : str) : Prop :=
  (exists y m d, ymd_shape s y m d) \/ (exists m d, md_shape s m d)
  \/ (exists m d y, mdy_shape s m d y /\ (length y = 2 \/ length y = 4)%nat)
  \/ (exists m d rest, jp_shape s m d rest).

End vocabulary.

Section repository_vocabulary.
Context `{R : PyRuntime} {W : Type} `{WS : Worksheet W}.

(* the state once the worksheet has been opened *)
Definition opened (σ : state W) : state W := (_open_worksheet σ).2.

(* The first steps of update_product: the number and the cells of the row
   whose product-number cell equals the key. *)
Definition locate_row (σ : state W) (product_no : str) : result (Z * list str) :=
  let all_values := get_all_values (sheet σ) in
  if bool_decide (length all_values < 5)%nat then Raise (KeyError product_no) else
  match col_get (default [] (_jp_col_map σ)) "product_no" with
  | None => Raise (KeyError product_no)
  | Some product_no_col =>
      target ← find_row product_no_col product_no 4 (drop 4 all_values);
      match target with
      | None => Raise (KeyError product_no)
      | Some target_row =>
          match py_getitem all_values (target_row - 1) with
          | None => Raise IndexError
          | Some row_vals => Ok (target_row, row_vals)
          end
      end
  end.

(* The current record's serialized form overlaid with the updates. *)
Definition merged_row (current : Product) (product_no : str)
    (updates : gmap string PyVal) : gmap string PyVal :=
  <["product_no" := VStr product_no]> (dict_update (to_row current) updates).

(* Everything update_product computes before its first write. *)
Definition update_plan (σ : state W) (product_no : str)
    (updates : gmap string PyVal) (expected_revision : str)
  : result (Z * Product * list (Z * PyVal)) :=
  located ← locate_row σ product_no;
  if negb (str_eqb (_row_revision located.2) expected_revision)
  then Raise ExternalUpdateDetectedError else
  let col := default [] (_jp_col_map σ) in
  rec ← jp_record col located.2;
  current ← from_row rec;
  updated ← from_row (merged_row current product_no updates);
  cells ← _apply_updates_to_jp_row col updated (listed_date updated);
  Ok (located.1, updated, cells).

(* The writes of update_product and the re-read that follows. *)
Definition update_commit (plan : Z * Product * list (Z * PyVal)) : M W Product :=
  _ ← write_cells plan.1.1 plan.2;
  rv ← ws_row_values plan.1.1;
  mret (set_revision plan.1.2 (_row_revision rv)).

(* What _find_first_insertable_jp_row returns on an open worksheet. *)
Definition slot_of (σ : state W) : result (option (Z * str)) :=
  let all_values := get_all_values (sheet σ) in
  if bool_decide (length all_values < 5)%nat then Ok None else
  match col_get (default [] (_jp_col_map σ)) "product_no",
        col_get (default [] (_jp_col_map σ)) "name" with
  | Some product_no_col, Some name_col =>
      scan_insertable product_no_col name_col 4 (drop 4 all_values)
  | _, _ => Ok None
  end.

Definition apply_write (w : write) (sh : W) : W :=
  match w with
  | UpdateCell r c v => update_cell r c v sh
  | AppendRow vs => append_row vs sh
  end.

(* the state after the write calls [ws] *)
Definition commit (ws : list write) (σ : state W) : state W :=
  {| sheet := fold_left (fun sh w => apply_write w sh) ws (sheet σ);
     _worksheet := _worksheet σ;
     _jp_col_map := _jp_col_map σ;
     writes := writes σ ++ ws |}.

Definition cell_writes (row : Z) (updates : list (Z * PyVal)) : list write :=
  List.map (fun cv => UpdateCell row cv.1 cv.2) updates.

(* The payload as create_product hands it to from_row. *)
Definition create_data (payload : gmap string PyVal) (product_no : PyVal)
  : gmap string PyVal :=
  setdefault "handling_fee" VNone
    (setdefault "shipping_cost" VNone
      (setdefault "sales_channel" VNone
        (setdefault "sale_price" VNone
          (setdefault "sale_date" VNone
            (setdefault "listed_date" VNone
              (setdefault "sale_status" (VStr (u "未出品"))
                 (<["product_no" := product_no]> payload))))))).

(* the write of the product-number cell in the slot branch *)
Definition number_write (row c : Z) (v : PyVal) : list write :=
  if c =? 0 then [] else [UpdateCell row c v].

(* the re-read at the end of create_product *)
Definition finish (target_row : Z) (product : Product) (σ : state W)
  : result Product * state W :=
  let all_values := get_all_values (sheet σ) in
  if target_row <=? Z.of_nat (length all_values) then
    match py_getitem all_values (target_row - 1) with
    | Some row_vals => (Ok (set_revision product (_row_revision row_vals)), σ)
    | None => (Raise IndexError, σ)
    end
  else (Ok product, σ).

(* the product number create_product settles on when a slot is there *)
Definition chosen_number (payload : gmap string PyVal) (pno : str) : PyVal :=
  if truthy (dict_get payload "product_no" VNone)
  then dict_get payload "product_no" VNone else VStr pno.

(* a column of a bound field other than the product number *)
Definition other_bound (col : colmap) (c : Z) : Prop :=
  exists key, key <> "product_no" /\ col_get col key = Some c.

End repository_vocabulary.

(* ===================================================================== *)
(* 8b. More of the code: definitions                                     *)
(* ===================================================================== *)

(* The keys from_row reads of a row map. *)
Definition FROM_ROW_KEYS : list string :=
  ["product_no"; "name"; "store_name"; "purchase_date"; "purchase_price";
   "sale_status"; "listed_date"; "sale_date"; "sale_price"; "sales_channel";
   "shipping_cost"; "is_archived"; "revision"].

(* what a call raised, if it raised *)
Definition error_of {A} (r : result A) : option exn :=
  match r with Ok _ => None | Raise e => Some e end.

Section layout_vocabulary.
Context `{R : PyRuntime} {W : Type} `{WS : Worksheet W}.

(* _jp_col: the 1-based column of a field, or None *)
Definition _jp_col (key : string) : M W (option Z) :=
  _ ← (fun σ => match _jp_col_map σ with
                | None => _open_worksheet σ
                | Some _ => (Ok tt, σ)
                end);
  ((fun σ => (Ok (match _jp_col_map σ with
                  | Some ((_ :: _) as m) => col_get m key
                  | _ => None
                  end), σ)) : M W (option Z)).

(* a header cell as _configure_sheet_layout compares it *)
Definition header_text (raw_header : str) : str :=
  strip (remove_char 10%N raw_header).

(* The 1-based position, counted from [idx], of the first header cell whose
   text is one of [names]. *)
Fixpoint first_header (names : list str) (idx : Z) (row3 : list str) : option Z :=
  match row3 with
  | [] => None
  | raw_header :: r =>
      if str_in (header_text raw_header) names then Some (idx + 1)
      else first_header names (idx + 1) r
  end.

(* the column the header row gives a field *)
Definition header_column (key : string) (row3 : list str) : option Z :=
  names ← assoc key JP_HEADERS; first_header names 0 row3.

(* No header text is accepted for two fields, and no field is listed
   twice. *)
Fixpoint apart (hs : list (string * list str)) : bool :=
  match hs with
  | [] => true
  | (k, names) :: r =>
      forallb (fun kn => negb (String.eqb kn.1 k)
                         && forallb (fun h => negb (str_in h kn.2)) names) r
      && apart r
  end.

(* a repository whose worksheet has not been opened *)
Definition unopened (σ : state W) : Prop := _worksheet σ = false.

End layout_vocabulary.

Section listing_vocabulary.
Context `{R : PyRuntime}.

(* The cells _record_from_jp_row reads as numbers. *)
Definition NUMERIC_FIELDS : list string :=
  ["sale_price"; "shipping_cost"; "handling_fee"; "purchase_price"].

(* columns are counted from 1 *)
Definition from_one (col : colmap) : Prop :=
  forall key c, col_get col key = Some c -> 1 <= c.

(* The product list_products takes from one sheet row, if any: the row has
   a product number and from_row accepts its record. *)
Definition row_product (col : colmap) (row : list str) : option Product :=
  match jp_record col row with
  | Ok rec =>
      if truthy (dict_get rec "product_no" VNone)
      then match from_row rec with Ok p => Some p | Raise _ => None end
      else None
  | Raise _ => None
  end.

(* One turn of the loop of list_products, the column map at hand. *)
Definition listed_row (col : colmap) (include_archived : bool) (row : list str)
  : result (option Product) :=
  match jp_record col row with
  | Raise (ValueError _) => Ok None
  | Raise e => Raise e
  | Ok rec =>
      if negb (truthy (dict_get rec "product_no" VNone)) then Ok None else
      match from_row rec with
      | Raise (ValueError _) => Ok None
      | Raise e => Raise e
      | Ok p => if negb include_archived && is_archived p then Ok None
                else Ok (Some p)
      end
  end.

Fixpoint listed_rows (col : colmap) (include_archived : bool)
    (rows : list (list str)) : result (list Product) :=
  match rows with
  | [] => Ok []
  | row :: r =>
      o ← listed_row col include_archived row;
      rest ← listed_rows col include_archived r;
      Ok (match o with Some p => p :: rest | None => rest end)
  end.

End listing_vocabulary.

Section number_vocabulary.
Context `{R : PyRuntime} {W : Type} `{WS : Worksheet W}.

(* an ASCII digit *)
Definition ascii_digit (c : char) : Prop := (48 <= c <= 57)%N.

(* The facts about str.isdigit and int() that numbering relies on: ASCII
   digits are digits, and int() reads a zero-padded numeral. *)
Definition reads_padded : Prop :=
  (forall c, ascii_digit c -> py_isdigit c = true)
  /\ (forall n, 0 <= n -> py_int (pad_int 5 n) = Some n).

(* a row whose product-number cell holds [pno] and whose name cell is
   empty *)
Definition slot_row (product_no_col name_col : Z) (row : list str) (pno : str)
  : Prop :=
  cell_at row product_no_col = Ok pno /\ pno <> []
  /\ cell_at row name_col = Ok [].

(* the rows of the sheet from row 5 on *)
Definition data_rows (σ : state W) : list (list str) :=
  drop 4 (get_all_values (sheet σ)).

End number_vocabulary.

Section create_vocabulary.
Context `{R : PyRuntime} {W : Type} `{WS : Worksheet W}.

(* What _next_product_no returns on an open worksheet. *)
Definition next_number (σ : state W) : result str :=
  ps ← listed_rows (default [] (_jp_col_map σ)) true (data_rows σ);
  max_seq ← max_seq_of ps 0;
  Ok (u "P" ++ pad_int 5 (max_seq + 1)).

(* payload.get("product_no") or (slot[1] if slot else
   self._next_product_no()) *)
Definition settled_number (σ : state W) (payload : gmap string PyVal)
    (slot : option (Z * str)) : result PyVal :=
  let given := dict_get payload "product_no" VNone in
  if truthy given then Ok given
  else match slot with
       | Some (_, pno) => Ok (VStr pno)
       | None => n ← next_number σ; Ok (VStr n)
       end.

(* the row the append branch starts from *)
Definition blank_row (col : colmap) : list PyVal :=
  repeat (VStr []) (Z.to_nat (max_col col)).

End create_vocabulary.

(* --------------------------------------------------------------------- *)
(* SheetsProductRepository.list_sales_channels                            *)
(* --------------------------------------------------------------------- *)

(* The loop over col1[1:], with its set of channels already seen. *)
Fixpoint collect_channels (col : list str) (seen : gset str)
    (channels : list str) : list str :=
  match col with
  | [] => channels
  | v :: r =>
      let ch := strip v in
      if negb (bool_decide (ch = [])) && negb (bool_decide (ch ∈ seen))
      then collect_channels r ({[ch]} ∪ seen) (channels ++ [ch])
      else collect_channels r seen channels
  end.

(* [fee_column] is what the spreadsheet gives for column 1 of the worksheet
   手数料リスト: None when there is no such worksheet (WorksheetNotFound). *)
Definition list_sales_channels (fee_column : option (list str)) : list str :=
  match fee_column with
  | None => []
  | Some col1 => collect_channels (drop 1 col1) ∅ []
  end.

(* --------------------------------------------------------------------- *)
(* app.py: the helpers of the page                                        *)
(* --------------------------------------------------------------------- *)

(* needle in hay, for two strings *)
Fixpoint contains (needle hay : str) : bool :=
  startswith needle hay
  || match hay with
     | [] => false
     | _ :: r => contains needle r
     end.

(* a < b for two strings: by code point, a proper prefix first *)
Fixpoint str_lt (a b : str) : bool :=
  match a, b with
  | _, [] => false
  | [], _ :: _ => true
  | x :: a', y :: b' => (x <? y)%N || ((x =? y)%N && str_lt a' b')
  end.

(* a < b for two dates *)
Definition date_lt (a b : date) : bool :=
  (year a <? year b)
  || ((year a =? year b)
      && ((month a <? month b)
          || ((month a =? month b) && (day a <? day b)))).

(* The stable sort behind sorted(): an element goes before the first one
   that is not smaller than it. *)
Fixpoint insert_by {A} (lt : A -> A -> bool) (x : A) (l : list A) : list A :=
  match l with
  | [] => [x]
  | y :: r => if lt y x then y :: insert_by lt x r else x :: y :: r
  end.

Definition sort_by {A} (lt : A -> A -> bool) (l : list A) : list A :=
  foldr (insert_by lt) [] l.

(* sorted(l, key=..., reverse=...): with reverse the list is reversed,
   sorted and reversed again, so that equal keys keep their order. *)
Definition sorted {A} (lt : A -> A -> bool) (reverse : bool) (l : list A)
  : list A :=
  if reverse then rev (sort_by lt (rev l)) else sort_by lt l.

Module app.
Import product.
Section helpers.
Context `{R : PyRuntime}.

Definition _required_text (value : str) (label : string) : result str :=
  let text := strip value in
  if bool_decide (text = []) then Raise (ValueError (label +:+ "は必須です。"))
  else Ok text.

Definition _product_label (product_no name sale_status : str) : str :=
  product_no ++ u " | " ++ name ++ u " | " ++ sale_status.

(* [channels] is what repo.list_sales_channels() returned *)
Definition _channel_options (channels : list str) : list str :=
  fold_left (fun options ch =>
               if str_in ch options then options else options ++ [ch])
            channels [[]].

(* One turn of the loop of _apply_list_filters: whether the product is
   appended. *)
Definition kept (keyword_norm sale_status_filter store_filter
    channel_filter : str) (p : Product) : bool :=
  if negb (bool_decide (sale_status_filter = []))
     && negb (str_eqb (sale_status p) sale_status_filter) then false
  else if negb (bool_decide (store_filter = []))
          && negb (str_eqb (store_name p) store_filter) then false
  else if negb (bool_decide (channel_filter = []))
          && negb (str_eqb (str_or_empty (sales_channel p)) channel_filter)
       then false
  else if negb (bool_decide (keyword_norm = [])) then
    let haystack :=
      py_lower (join (u " ") [product_no p; name p; store_name p;
                              str_or_empty (sales_channel p)]) in
    contains keyword_norm haystack
  else true.

Definition _apply_list_filters (products : list Product)
    (keyword sale_status_filter store_filter channel_filter : str)
  : list Product :=
  let keyword_norm := py_lower (strip keyword) in
  List.filter (kept keyword_norm sale_status_filter store_filter channel_filter)
    products.

(* status_rank.get(status, 99) *)
Definition status_rank (status : str) : Z :=
  if str_eqb status (u "未出品") then 0
  else if str_eqb status (u "出品済") then 1
  else if str_eqb status (u "売却済") then 2
  else 99.

Definition NEWEST_FIRST : str := u "仕入日（新しい順）".
Definition OLDEST_FIRST : str := u "仕入日（古い順）".
Definition DEAREST_FIRST : str := u "仕入額（高い順）".
Definition CHEAPEST_FIRST : str := u "仕入額（安い順）".
Definition BY_STATUS : str := u "販売状態（未出品→出品済→売却済）".
Definition BY_NUMBER : str := u "商品No（昇順）".

Definition _sort_products (products : list Product) (sort_rule : str)
  : list Product :=
  if str_eqb sort_rule NEWEST_FIRST then
    sorted (fun p q => date_lt (purchase_date p) (purchase_date q)) true products
  else if str_eqb sort_rule OLDEST_FIRST then
    sorted (fun p q => date_lt (purchase_date p) (purchase_date q)) false products
  else if str_eqb sort_rule DEAREST_FIRST then
    sorted (fun p q => purchase_price p <? purchase_price q) true products
  else if str_eqb sort_rule CHEAPEST_FIRST then
    sorted (fun p q => purchase_price p <? purchase_price q) false products
  else if str_eqb sort_rule BY_STATUS then
    sorted (fun p q => status_rank (sale_status p) <? status_rank (sale_status q))
      false products
  else if str_eqb sort_rule BY_NUMBER then
    sorted (fun p q => str_lt (product_no p) (product_no q)) false products
  else products.

Definition _importance_label (p : Product) : str :=
  if 10000 <=? purchase_price p then u "高"
  else if str_eqb (sale_status p) (u "出品済") then u "中"
  else u "低".

End helpers.
End app.

Section page_vocabulary.
Import app.

(* The order a sort rule asks of two products, the first one coming
   earlier in the list. *)
Definition rule_order (sort_rule : str) (p q : Product) : Prop :=
  if str_eqb sort_rule NEWEST_FIRST then
    date_lt (purchase_date p) (purchase_date q) = false
  else if str_eqb sort_rule OLDEST_FIRST then
    date_lt (purchase_date q) (purchase_date p) = false
  else if str_eqb sort_rule DEAREST_FIRST then purchase_price q <= purchase_price p
  else if str_eqb sort_rule CHEAPEST_FIRST then purchase_price p <= purchase_price q
  else if str_eqb sort_rule BY_STATUS then
    status_rank (sale_status p) <= status_rank (sale_status q)
  else if str_eqb sort_rule BY_NUMBER then
    str_lt (product_no q) (product_no p) = false
  else True.

(* [lt] compares as a strict order on keys does *)
Definition orders {A} (lt : A -> A -> bool) : Prop :=
  (forall a b, lt a b = true -> lt b a = false)
  /\ (forall a b c, lt b a = false -> lt c b = false -> lt c a = false).

End page_vocabulary.

(* --------------------------------------------------------------------- *)
(* src/services/in_memory_product_repository.py                           *)
(* --------------------------------------------------------------------- *)

Module InMemoryProductRepository.
Import product SheetsProductRepository.

(* The fields of the dataclass, and those without a default. *)
Definition FIELD_NAMES : list string :=
  ["product_no"; "name"; "store_name"; "purchase_date"; "purchase_price";
   "sale_status"; "listed_date"; "sale_date"; "sale_price"; "sales_channel";
   "shipping_cost"; "is_archived"; "revision"; "updated_at"].

Definition REQUIRED_FIELDS : list string :=
  ["product_no"; "name"; "store_name"; "purchase_date"; "purchase_price"].

(* self._products: an insertion-ordered dict keyed by product number, and
   the number of times the clock has been read. *)
Record store := {
  _products : list (str * Product);
  clock_reads : nat;
}.

(* self._products.get(k) *)
Fixpoint products_get (d : list (str * Product)) (k : str) : option Product :=
  match d with
  | [] => None
  | (k', v) :: r => if str_eqb k' k then Some v else products_get r k
  end.

(* self._products[k] = v: a key that is present keeps its place *)
Fixpoint products_set (d : list (str * Product)) (k : str) (v : Product)
  : list (str * Product) :=
  match d with
  | [] => [(k, v)]
  | (k', v') :: r =>
      if str_eqb k' k then (k', v) :: r else (k', v') :: products_set r k v
  end.

Definition with_products (s : store) (d : list (str * Product)) : store :=
  {| _products := d; clock_reads := clock_reads s |}.

Section repository.
Context `{R : PyRuntime}.

(* The readings of datetime.now(timezone.utc), in the order they are
   taken. *)
Variable now : nat -> datetime.

Definition datetime_now (s : store) : datetime * store :=
  (now (clock_reads s),
   {| _products := _products s; clock_reads := S (clock_reads s) |}).

Definition _now_revision (s : store) : str * store :=
  let '(t, s') := datetime_now s in (datetime_isoformat t, s').

(* the loop of _next_product_no over the keys *)
Fixpoint max_seq_of_keys (keys : list str) (max_seq : Z) : result Z :=
  match keys with
  | [] => Ok max_seq
  | product_no :: r =>
      if startswith (u "P") product_no && isdigit (drop 1 product_no)
      then match py_int (drop 1 product_no) with
           | Some n => max_seq_of_keys r (Z.max max_seq n)
           | None => Raise (ValueError "invalid literal for int()")
           end
      else max_seq_of_keys r max_seq
  end.

Definition _next_product_no (s : store) : result str :=
  max_seq ← max_seq_of_keys (List.map fst (_products s)) 0;
  Ok (u "P" ++ pad_int 5 (max_seq + 1)).

Definition list_products (include_archived : bool) (s : store) : list Product :=
  let values := List.map snd (_products s) in
  if include_archived then values
  else List.filter (fun item => negb (is_archived item)) values.

(* a keyword argument of a field annotated str, [dflt] when it is not
   given; None when the value is no str *)
Definition text_arg (kwargs : gmap string PyVal) (key : string) (dflt : str)
  : option str :=
  match kwargs !! key with
  | None => Some dflt
  | Some (VStr s) => Some s
  | Some _ => None
  end.

(* The call Product with the keywords [kwargs] and updated_at=t.  TypeError for a keyword that is no
   field and for a missing field without default.  The record type holds
   text and flag fields of their annotated types only: for an argument of
   another type the call has no outcome here (None). *)
Definition Product_call (kwargs : gmap string PyVal) (t : datetime)
  : option (result Product) :=
  if negb (bool_decide (dom kwargs ⊆ list_to_set FIELD_NAMES))
     || negb (forallb (fun k => bool_decide (is_Some (kwargs !! k)))
                REQUIRED_FIELDS)
  then Some (Raise TypeError)
  else
    product_no ← text_arg kwargs "product_no" [];
    name ← text_arg kwargs "name" [];
    store_name ← text_arg kwargs "store_name" [];
    sale_status ← text_arg kwargs "sale_status" (u "未出品");
    sales_channel ← match kwargs !! "sales_channel" with
                    | None | Some VNone => Some None
                    | Some (VStr s) => Some (Some s)
                    | Some _ => None
                    end;
    is_archived ← match kwargs !! "is_archived" with
                  | None => Some false
                  | Some (VBool b) => Some b
                  | Some _ => None
                  end;
    revision ← text_arg kwargs "revision" [];
    Some (__post_init__
            {| a_product_no := product_no; a_name := name;
               a_store_name := store_name;
               a_purchase_date := dict_get kwargs "purchase_date" VNone;
               a_purchase_price := dict_get kwargs "purchase_price" VNone;
               a_sale_status := sale_status;
               a_listed_date := dict_get kwargs "listed_date" VNone;
               a_sale_date := dict_get kwargs "sale_date" VNone;
               a_sale_price := dict_get kwargs "sale_price" VNone;
               a_sales_channel := sales_channel;
               a_shipping_cost := dict_get kwargs "shipping_cost" VNone;
               a_is_archived := is_archived; a_revision := revision;
               a_updated_at := Some t |}).

(* The argument of setdefault is evaluated first, so _next_product_no runs,
   and may raise, even when the payload brings a product number.  [data]
   stands for the dict without its entry updated_at, which is [t]. *)
Definition create_product (payload : gmap string PyVal) (s : store)
  : option (result Product * store) :=
  match _next_product_no s with
  | Raise e => Some (Raise e, s)
  | Ok n =>
      let data := setdefault "product_no" (VStr n) payload in
      let '(rev, s1) := _now_revision s in
      let data := <["revision" := VStr rev]> data in
      let '(t, s2) := datetime_now s1 in
      match Product_call data t with
      | None => None
      | Some (Raise e) => Some (Raise e, s2)
      | Some (Ok product) =>
          match products_get (_products s2) (product_no product) with
          | Some _ =>
              Some (Raise (ValueError "product_no already exists"), s2)
          | None =>
              Some (Ok product,
                    with_products s2
                      (products_set (_products s2) (product_no product) product))
          end
      end
  end.

(* A dataclass instance is truthy, so [not current] is [current is None].
   The datetime put under updated_at is written as its text: from_row does
   not read that key. *)
Definition update_product (product_no : str) (updates : gmap string PyVal)
    (expected_revision : str) (s : store) : result Product * store :=
  match products_get (_products s) product_no with
  | None => (Raise (KeyError product_no), s)
  | Some current =>
      if negb (str_eqb (revision current) expected_revision)
      then (Raise ExternalUpdateDetectedError, s) else
      let merged := dict_update (to_row current) updates in
      let merged := <["product_no" := VStr product_no]> merged in
      let '(rev, s1) := _now_revision s in
      let merged := <["revision" := VStr rev]> merged in
      let '(t, s2) := datetime_now s1 in
      let merged := <["updated_at" := VStr (datetime_isoformat t)]> merged in
      match from_row merged with
      | Raise e => (Raise e, s2)
      | Ok updated =>
          (Ok updated,
           with_products s2 (products_set (_products s2) product_no updated))
      end
  end.

End repository.
End InMemoryProductRepository.

Section memory_vocabulary.
Import InMemoryProductRepository.
Context `{R : PyRuntime}.
Variable now : nat -> datetime.

(* the store after [n] more readings of the clock *)
Definition ticked (n : nat) (s : store) : store :=
  {| _products := _products s; clock_reads := (n + clock_reads s)%nat |}.

(* the keyword arguments create_product hands to the constructor, beside
   updated_at, when _next_product_no has returned [n] *)
Definition created_data (payload : gmap string PyVal) (n : str) (s : store)
  : gmap string PyVal :=
  <["revision" := VStr (datetime_isoformat (now (clock_reads s)))]>
    (setdefault "product_no" (VStr n) payload).

End memory_vocabulary.

(* ===================================================================== *)
(* Properties                                                             *)
(* ===================================================================== *)

(* --------------------------------------------------------------------- *)
(* 9. The reference runtime satisfies the laws                            *)
(* --------------------------------------------------------------------- *)

Module ReferenceRuntime.
Import Reference.

Lemma text_of_bytes_of (s : string) : text_of (bytes_of s) = s.
Proof.
  unfold text_of, bytes_of. rewrite List.map_map.
  rewrite <- (string_of_list_ascii_of_string s) at 2. f_equal.
  induction (list_ascii_of_string s) as [|a l IH]; simpl; [done|].
  by rewrite IH, ascii_N_embedding.
Qed.

Lemma bytes_of_small (s : string) :
  forallb (fun c => (c <? 256)%N) (bytes_of s) = true.
Proof.
  unfold bytes_of. induction (list_ascii_of_string s) as [|a l IH]; simpl; [done|].
  rewrite IH, andb_true_r. apply N.ltb_lt, N_ascii_bounded.
Qed.

Lemma int_plain_str_of_int (z : Z) : int_plain (str_of_int z) = Some z.
Proof.
  unfold int_plain, str_of_int.
  rewrite bytes_of_small, text_of_bytes_of, NilZero.isi.
  - simpl. by rewrite DecimalZ.of_to.
  - destruct z; simpl; try discriminate.
    intros [= E]. by apply Unsigned.to_uint_nonnil in E.
  - destruct z; simpl; try discriminate.
    intros [= E]. by apply Unsigned.to_uint_nonnil in E.
Qed.

Lemma int_str_of_int (z : Z) : int (str_of_int z) = Some z.
Proof. unfold int. by rewrite int_plain_str_of_int. Qed.

Lemma todecimal_nonspace (c : char) : is_Some (todecimal c) -> isspace c = false.
Proof.
  unfold todecimal. intros [d Hd].
  destruct ((48 <=? c) && (c <=? 57))%N eqn:E; [|discriminate].
  apply andb_true_iff in E as [E1 E2].
  apply N.leb_le in E1, E2.
  unfold isspace.
  repeat match goal with
  | |- context [(?a <=? ?b)%N] => destruct (N.leb_spec a b); try lia
  | |- context [(?a =? ?b)%N] => destruct (N.eqb_spec a b); try lia
  end; reflexivity.
Qed.

Lemma in_range_spec lo n ensure z :
  in_range lo n ensure = true -> lo <= z < lo + n -> ensure z = true.
Proof.
  unfold in_range. rewrite List.forallb_forall. intros H Hz.
  apply H, list_elem_of_In, elem_of_seqZ. lia.
Qed.

Lemma check_year_all : in_range 1 9999 check_year = true.
Proof. vm_compute. reflexivity. Qed.

Lemma month_then_pad (m : Z) (r : str) :
  1 <= m <= 12 -> month_then (pad_int 2 m ++ 45%N :: r) = Some (m, r).
Proof.
  intros Hm.
  assert (m = 1 \/ m = 2 \/ m = 3 \/ m = 4 \/ m = 5 \/ m = 6 \/ m = 7 \/ m = 8
          \/ m = 9 \/ m = 10 \/ m = 11 \/ m = 12) as Hc by lia.
  repeat destruct Hc as [-> | Hc]; try subst m; reflexivity.
Qed.

Lemma check_day_all : in_range 1 31 check_day = true.
Proof. vm_compute. reflexivity. Qed.

Lemma valid_date_bounds (d : date) :
  valid_date d = true ->
  1 <= year d <= 9999 /\ 1 <= month d <= 12 /\ 1 <= day d <= 31.
Proof.
  unfold valid_date, days_in_month. intros H.
  repeat (apply andb_true_iff in H as [H ?]).
  repeat match goal with H : (_ <=? _) = true |- _ => apply Z.leb_le in H end.
  repeat split; try lia.
  repeat match goal with
  | H : context [if ?b then _ else _] |- _ => destruct b
  end; lia.
Qed.

Lemma strptime_isoformat (d : date) :
  valid_date d = true -> strptime_ymd (isoformat d) = Some d.
Proof.
  intros Hv. destruct (valid_date_bounds d Hv) as (Hy & Hm & Hd).
  destruct d as [y m dd]; simpl in *.
  unfold isoformat; simpl year; simpl month; simpl day.
  pose proof (in_range_spec 1 9999 check_year y check_year_all) as Cy.
  pose proof (in_range_spec 1 31 check_day dd check_day_all) as Cd.
  specialize (Cy ltac:(lia)). specialize (Cd ltac:(lia)).
  unfold check_year in Cy.
  destruct (pad_int 4 y) as [|a [|b [|c [|e [|? ?]]]]]; try discriminate.
  destruct (digit2 a b) as [hi|] eqn:E1; [|discriminate].
  destruct (digit2 c e) as [lo|] eqn:E2; [|discriminate].
  apply Z.eqb_eq in Cy.
  change (u "-") with [45%N]. simpl app.
  unfold strptime_ymd. rewrite E1, E2.
  rewrite month_then_pad by lia.
  apply bool_decide_eq_true in Cd. rewrite Cd, Cy, Hv. reflexivity.
Qed.

Lemma lower_ascii_upper (s : str) :
  Forall (fun c => (c < 128)%N) s ->
  lower s = List.map (fun c => if ((65 <=? c) && (c <=? 90))%N
                               then (c + 32)%N else c) s.
Proof. reflexivity. Qed.

Lemma todecimal_cjk (c : char) :
  (19968 <= c <= 40959)%N -> todecimal c = None.
Proof.
  intros Hc. unfold todecimal.
  destruct (N.leb_spec c 57); [lia|]. by rewrite andb_false_r.
Qed.

#[global] Instance runtime : PyRuntime := {|
  py_todecimal := todecimal;
  py_isdigit := isdigit1;
  py_lower := lower;
  py_int := int;
  py_int_float := int_float;
  py_strptime_ymd := strptime_ymd;
  py_sha256_hex := digest_hex;
  py_today := mkdate 2026 3 1;
  py_todecimal_ascii := fun c _ => eq_refl;
  py_todecimal_nonspace := todecimal_nonspace;
  py_todecimal_cjk := todecimal_cjk;
  py_today_year := ltac:(simpl; lia);
  py_lower_ascii_upper := lower_ascii_upper;
  py_int_str_of_int := int_str_of_int;
  py_strptime_isoformat := strptime_isoformat;
|}.

End ReferenceRuntime.

(* Concrete sheets, payloads and records the properties are run on. *)
Module Example.
Import Reference.

Definition headers : list str :=
  [u "商品No"; u "商品名"; u "店舗名"; u "仕入れ日付"; u "仕入額"; u "出品日";
   u "売却日"; u "売上金"; u "販売先"; u "送料"; u "出品済"].

(* a sheet whose row 5 is a slot: a product number and nothing else *)
Definition slot_sheet : grid := [[u "title"]; []; headers; []; [u "P00007"]].

(* a sheet whose row 5 holds a listed coat *)
Definition coat_row : list str :=
  [u "P00007"; u "Coat"; u "Shop"; u "2024-1-2"; u "1,200"; u ""; u ""; u "";
   u ""; u ""; u "○"].

Definition coat_sheet : grid := [[u "title"]; []; headers; []; coat_row].

(* a repository that has not opened its worksheet yet *)
Definition fresh (g : grid) : state grid :=
  {| sheet := g; _worksheet := false; _jp_col_map := None; writes := [] |}.

Definition jacket : gmap string PyVal :=
  list_to_map [("name", VStr (u "Jacket")); ("store_name", VStr (u "Shop A"));
               ("purchase_date", VStr (u "2024-05-01"));
               ("purchase_price", VInt 5000)].

Definition sold_update : gmap string PyVal :=
  list_to_map [("sale_status", VStr (u "売却済")); ("sale_price", VInt 9000)].

Definition bogus_update : gmap string PyVal :=
  list_to_map [("sale_status", VStr (u "bogus"))].

Definition jacket_row : gmap string PyVal :=
  <["product_no" := VStr (u "P00001")]> jacket.

Definition named (n : str) : Product_args :=
  {| a_product_no := u "P00001"; a_name := n;
     a_store_name := u "Shop A"; a_purchase_date := VStr (u "2024-05-01");
     a_purchase_price := VInt 5000; a_sale_status := u "売却済";
     a_listed_date := VNone; a_sale_date := VNone; a_sale_price := VInt 9000;
     a_sales_channel := None; a_shipping_cost := VNone;
     a_is_archived := false; a_revision := []; a_updated_at := None |}.

Definition jacket_args : Product_args := named (u "Jacket").

(* the record the constructor builds from [named n] *)
Definition built (n : str) : Product :=
  {| product_no := u "P00001"; name := n; store_name := u "Shop A";
     purchase_date := mkdate 2024 5 1; purchase_price := 5000;
     sale_status := u "売却済"; listed_date := None; sale_date := None;
     sale_price := Some 9000; sales_channel := None; shipping_cost := None;
     is_archived := false; revision := []; updated_at := None |}.

(* the record read from row 5 of coat_sheet: the empty sales-channel cell
   is handed to from_row as None, whose text is "None" *)
Definition coat_product : Product :=
  {| product_no := u "P00007"; name := u "Coat"; store_name := u "Shop";
     purchase_date := mkdate 2024 1 2; purchase_price := 1200;
     sale_status := u "出品済"; listed_date := None; sale_date := None;
     sale_price := None; sales_channel := Some (u "None");
     shipping_cost := None;
     is_archived := false; revision := _row_revision coat_row;
     updated_at := None |}.

(* the same record with a space before the name *)
Definition spaced_args : Product_args := named (u " Jacket").


(* a sheet with a handling-fee column, its row 5 a listed coat *)
Definition fee_headers : list str := headers ++ [u "手数料"].

Definition fee_coat_sheet : grid :=
  [[u "title"]; []; fee_headers; []; coat_row].

(* the same headers, row 5 an insertable slot *)
Definition fee_slot_sheet : grid :=
  [[u "title"]; []; fee_headers; []; [u "P00007"]].

(* a row whose sale-price cell reads inf *)
Definition inf_row : list str :=
  [u "P00008"; u "Hat"; u "Shop"; u "2024-1-3"; u "800"; u ""; u ""; u "inf"].

Definition inf_sheet : grid :=
  [[u "title"]; []; headers; []; coat_row; inf_row].

(* a payload with no name *)
Definition nameless : gmap string PyVal :=
  list_to_map [("store_name", VStr (u "Shop A"));
               ("purchase_date", VStr (u "2024-05-01"));
               ("purchase_price", VInt 5000)].

(* column 1 of a fee worksheet: a header, then channels with repeats *)
Definition fee_column : list str :=
  [u "販売先"; u "Mercari"; u " Yahoo "; u ""; u "Mercari"; u "Yahoo"].

Definition hat : Product :=
  {| product_no := u "P00002"; name := u "Hat"; store_name := u "Shop B";
     purchase_date := mkdate 2024 6 1; purchase_price := 800;
     sale_status := u "未出品"; listed_date := None; sale_date := None;
     sale_price := None; sales_channel := None; shipping_cost := None;
     is_archived := false; revision := []; updated_at := None |}.

(* a clock that advances by a second at each reading *)
Definition tick (n : nat) : datetime :=
  mkdatetime (mkdate 2026 3 1) 12 0 (Z.of_nat n) 0 (Some 0).

Definition empty_store : InMemoryProductRepository.store :=
  {| InMemoryProductRepository._products := [];
     InMemoryProductRepository.clock_reads := 0 |}.

Definition jeans : gmap string PyVal :=
  list_to_map [("name", VStr (u "Levi's 505"));
               ("store_name", VStr (u "Shibuya"));
               ("purchase_date", VStr (u "2026-02-20"));
               ("purchase_price", VInt 4000);
               ("sale_status", VStr (u "出品済"))].

(* the product the in-memory repository creates from [jeans] *)
Definition jeans_product : Product :=
  {| product_no := u "P00001"; name := u "Levi's 505";
     store_name := u "Shibuya"; purchase_date := mkdate 2026 2 20;
     purchase_price := 4000; sale_status := u "出品済"; listed_date := None;
     sale_date := None; sale_price := None; sales_channel := None;
     shipping_cost := None; is_archived := false;
     revision := u "2026-03-01T12:00:00+00:00"; updated_at := Some (tick 1) |}.

Definition jeans_store : InMemoryProductRepository.store :=
  {| InMemoryProductRepository._products := [(u "P00001", jeans_product)];
     InMemoryProductRepository.clock_reads := 2 |}.

(* the product after [sold_update] *)
Definition sold_jeans : Product :=
  {| product_no := u "P00001"; name := u "Levi's 505";
     store_name := u "Shibuya"; purchase_date := mkdate 2026 2 20;
     purchase_price := 4000; sale_status := u "売却済"; listed_date := None;
     sale_date := None; sale_price := Some 9000; sales_channel := None;
     shipping_cost := None; is_archived := false;
     revision := u "2026-03-01T12:00:02+00:00"; updated_at := None |}.

Definition sold_store : InMemoryProductRepository.store :=
  {| InMemoryProductRepository._products := [(u "P00001", sold_jeans)];
     InMemoryProductRepository.clock_reads := 4 |}.

End Example.

(* --------------------------------------------------------------------- *)
(* 10. The record model and the cell parsers                              *)
(* --------------------------------------------------------------------- *)

Arguments str_in : simpl never.
Arguments py_str : simpl never.
Arguments strip : simpl never.

Ltac bind_inv H :=
  repeat match type of H with
  | (match ?m with Ok _ => _ | Raise _ => _ end) = _ =>
      let E := fresh "E" in destruct m eqn:E; [|discriminate H]
  | (if ?b then _ else _) = _ =>
      let E := fresh "E" in destruct b eqn:E; [|discriminate H]
  end.

Section facts.
Context `{R : PyRuntime}.

Lemma lookup_list_to_map {A} (l : list (string * A)) (k : string) :
  (list_to_map l : gmap string A) !! k = assoc k l.
Proof.
  induction l as [|[k' v] l IH]; simpl; [apply lookup_empty|].
  destruct (String.eqb_spec k' k) as [->|Hne].
  - apply lookup_insert_eq.
  - rewrite lookup_insert_ne by done. apply IH.
Qed.

Lemma lstrip_idemp s : lstrip (lstrip s) = lstrip s.
Proof.
  induction s as [|c s IH]; simpl; [done|].
  destruct (isspace c) eqn:E; [done|]. simpl. by rewrite E.
Qed.

Lemma lstrip_nonspace c s : isspace c = false -> lstrip (c :: s) = c :: s.
Proof. intros E. simpl. by rewrite E. Qed.

Lemma lstrip_head_ok s : head_ok (lstrip s).
Proof.
  induction s as [|c s IH]; simpl; [done|].
  destruct (isspace c) eqn:E; [done|]. simpl. done.
Qed.

Lemma lstrip_fix s : head_ok s -> lstrip s = s.
Proof. destruct s; simpl; [done|]. intros ->. done. Qed.

Lemma head_ok_rev_lstrip_rev s : head_ok s -> head_ok (rev (lstrip (rev s))).
Proof.
  intros H. destruct s as [|c s]; [done|].
  simpl in H.
  (* rev (c::s) = rev s ++ [c]; lstrip of it is a suffix that still ends by c *)
  assert (forall t, exists t', lstrip (t ++ [c]) = t' ++ [c]) as Hs.
  { induction t as [|a t [t' IH]]; simpl.
    - rewrite H. by exists [].
    - destruct (isspace a); [by exists t'|]. by exists (a :: t). }
  simpl rev. destruct (Hs (rev s)) as [t' ->].
  rewrite rev_app_distr. simpl. done.
Qed.

Lemma strip_idemp s : strip (strip s) = strip s.
Proof.
  unfold strip, rstrip.
  pose proof (head_ok_rev_lstrip_rev (lstrip s) (lstrip_head_ok s)) as H.
  rewrite (lstrip_fix _ H). rewrite rev_involutive, lstrip_idemp. done.
Qed.

Lemma strip_nil : strip [] = [].
Proof. reflexivity. Qed.

Lemma negative_false o : negative o = false -> nonneg o.
Proof. destruct o; simpl; [|done]. intros H%Z.ltb_ge. done. Qed.

Lemma ensure_ok b msg x : ensure b msg = Ok x -> b = true.
Proof. by destruct b. Qed.

Lemma post_init_checked a p : __post_init__ a = Ok p -> checked p.
Proof.
  unfold __post_init__, mbind, result_bind. intros H.
  bind_inv H. injection H as <-.
  repeat match goal with
  | E : ensure _ _ = Ok _ |- _ => apply ensure_ok, negb_true_iff in E
  | E : ensure _ _ = Ok _ |- _ => apply ensure_ok in E
  end.
  split; simpl; auto using negative_false.
  - by apply bool_decide_eq_false in E.
  - by apply bool_decide_eq_false in E0.
  - by apply bool_decide_eq_false in E1.
  - by apply Z.ltb_ge.
Qed.

Lemma py_str_VStr s : py_str (VStr s) = s.
Proof. reflexivity. Qed.

Lemma isoformat_not_blank d : is_blank (VStr (isoformat d)) = false.
Proof.
  unfold isoformat. destruct (pad_int 4 (year d)); reflexivity.
Qed.

Lemma to_date_isoformat d name req :
  valid_date d = true ->
  _to_date (VStr (isoformat d)) name req = Ok (Some d).
Proof.
  intros Hv. unfold _to_date. rewrite isoformat_not_blank.
  by rewrite py_strptime_isoformat.
Qed.

Lemma to_date_cell o name :
  valid_opt o -> _to_date (date_cell o) name false = Ok o.
Proof.
  destruct o as [d|]; simpl; intros Hv; [by apply to_date_isoformat|done].
Qed.

Lemma to_int_cell o name : _to_int (int_cell o) name false = Ok o.
Proof. by destruct o. Qed.

Lemma allowed_trimmed s :
  str_in s ALLOWED_SALE_STATUS = true -> strip s = s /\ s <> [].
Proof.
  unfold str_in, ALLOWED_SALE_STATUS, str_eqb. simpl existsb.
  rewrite !orb_true_iff, !bool_decide_eq_true.
  intros [->|[->|[->|?]]]; try done; by vm_compute.
Qed.

Lemma archived_flag b :
  str_in (py_lower (py_str (VBool b))) [u "true"; u "1"; u "yes"] = b.
Proof.
  rewrite py_lower_ascii_upper.
  - by destruct b.
  - destruct b; simpl; repeat constructor.
Qed.

(** C3 (amended): for a record built by the constructor whose date fields
    are dates of the calendar, whose product number, name and store name
    carry no surrounding blanks and whose sales channel is absent or a
    non-empty trimmed text, from_row (to_row p) returns a record equal to p
    in every field except revision and updated_at. *)
Theorem from_row_to_row (a : Product_args) (p : Product) :
  __post_init__ a = Ok p -> calendar p -> tidy p ->
  exists q, from_row (to_row p) = Ok q /\ same_record p q.
Proof.
  intros Hp (Hpd & Hld & Hsd) (Tno & Tname & Tstore & Tch).
  destruct (post_init_checked a p Hp)
    as [Cno Cname Cstore Cst Cpp Csp Csc].
  destruct (allowed_trimmed _ Cst) as [Tst Nst].
  unfold from_row, to_row, dict_get.
  rewrite !lookup_list_to_map. simpl assoc. simpl default.
  unfold __post_init__, mbind, result_bind. simpl.
  rewrite !py_str_VStr, Tno, Tname, Tstore, Tst.
  rewrite !bool_decide_eq_false_2 by done. simpl.
  rewrite to_date_isoformat by done. simpl.
  rewrite !to_date_cell by done.
  rewrite !to_int_cell. rewrite Cst. simpl.
  assert ((purchase_price p <? 0) = false) as -> by (apply Z.ltb_ge; done).
  assert (negative (sale_price p) = false) as ->.
  { destruct (sale_price p); simpl in *; [by apply Z.ltb_ge|done]. }
  assert (negative (shipping_cost p) = false) as ->.
  { destruct (shipping_cost p); simpl in *; [by apply Z.ltb_ge|done]. }
  simpl. eexists. split; [reflexivity|].
  unfold same_record; simpl. repeat split; try done.
  - unfold nonempty, str_or_empty.
    destruct (sales_channel p) as [s|]; [|done].
    destruct Tch as [Hs Ts]. rewrite (bool_decide_eq_false_2 _ Hs), Ts.
    by rewrite (bool_decide_eq_false_2 _ Hs).
  - apply archived_flag.
Qed.

Lemma post_init_fields a p :
  __post_init__ a = Ok p ->
  product_no p = a_product_no a /\ name p = a_name a
  /\ store_name p = a_store_name a /\ sale_status p = a_sale_status a
  /\ sales_channel p = a_sales_channel a /\ is_archived p = a_is_archived a
  /\ revision p = a_revision a.
Proof.
  unfold __post_init__, mbind, result_bind. intros H.
  bind_inv H. injection H as <-. simpl. done.
Qed.

Lemma to_date_raises v f req : raises_ValueError (_to_date v f req).
Proof.
  intros e. unfold _to_date.
  repeat match goal with
  | |- context [if ?b then _ else _] => destruct b
  | |- context [match ?x with _ => _ end] => destruct x
  end; intros [= <-] || discriminate; eauto.
Qed.

Lemma to_int_raises v f req : raises_ValueError (_to_int v f req).
Proof.
  intros e. unfold _to_int.
  repeat match goal with
  | |- context [if ?b then _ else _] => destruct b
  | |- context [match ?x with _ => _ end] => destruct x
  end; intros [= <-] || discriminate; eauto.
Qed.

Lemma required_raises {A} f (o : option A) : raises_ValueError (required f o).
Proof. intros e. destruct o; simpl; intros [= <-] || discriminate; eauto. Qed.

Lemma ensure_raises b msg : raises_ValueError (ensure b msg).
Proof. intros e. destruct b; simpl; intros [= <-] || discriminate; eauto. Qed.

Lemma bind_raises {A B} (m : result A) (k : A -> result B) :
  raises_ValueError m -> (forall a, raises_ValueError (k a)) ->
  raises_ValueError (m ≫= k).
Proof.
  intros Hm Hk e. unfold mbind, result_bind. destruct m; [apply Hk|].
  intros [= <-]. by apply Hm.
Qed.

Lemma post_init_raises a : raises_ValueError (__post_init__ a).
Proof.
  unfold __post_init__.
  repeat (apply bind_raises;
          [first [apply ensure_raises | apply to_date_raises
                 | apply to_int_raises | apply required_raises]|intros ?]).
  intros e. discriminate.
Qed.

Lemma from_row_raises row : raises_ValueError (from_row row).
Proof. apply post_init_raises. Qed.

Lemma post_init_status a :
  str_in (a_sale_status a) ALLOWED_SALE_STATUS = false ->
  exists msg, __post_init__ a = Raise (ValueError msg).
Proof.
  intros Hs. destruct (__post_init__ a) as [p|e] eqn:E.
  - destruct (post_init_checked a p E) as [_ _ _ C _ _ _].
    destruct (post_init_fields a p E) as (_ & _ & _ & F & _).
    congruence.
  - destruct (post_init_raises a e E) as [msg ->]. by exists msg.
Qed.

(** C10 (amended): from_row reads a row map whose sale-status value is
    absent, or has a text that is empty or only blanks, exactly as it reads
    the same map with the status 未出品, and a record it returns has that
    status; a value whose trimmed text is one of the three labels is read
    as that label, blanks around it being dropped; a value whose trimmed
    text is non-empty and none of the three labels makes from_row raise a
    ValueError.  The text of a value is str(value): None reads as the text
    None and is rejected. *)
Theorem sale_status_default_or_reject (row : gmap string PyVal) :
  (blank_status row ->
     from_row row = from_row (<["sale_status" := VStr NOT_LISTED]> row)
     /\ forall p, from_row row = Ok p -> sale_status p = NOT_LISTED)
  /\ (forall v, row !! "sale_status" = Some v ->
        str_in (strip (py_str v)) ALLOWED_SALE_STATUS = true ->
        from_row row
        = from_row (<["sale_status" := VStr (strip (py_str v))]> row)
        /\ forall p, from_row row = Ok p -> sale_status p = strip (py_str v))
  /\ (forall v, row !! "sale_status" = Some v ->
        strip (py_str v) <> [] ->
        str_in (strip (py_str v)) ALLOWED_SALE_STATUS = false ->
        exists msg, from_row row = Raise (ValueError msg))
  /\ (row !! "sale_status" = Some VNone ->
      exists msg, from_row row = Raise (ValueError msg)).
Proof.
  split; [|split; [|split]].
  - intros Hb.
    assert (from_row row = from_row (<["sale_status" := VStr NOT_LISTED]> row)) as E.
    { unfold from_row, dict_get.
      rewrite lookup_insert_eq, !lookup_insert_ne by done. simpl default.
      f_equal. f_equal.
      unfold blank_status in Hb.
      destruct (row !! "sale_status") as [v|]; simpl default; [|done].
      rewrite Hb. reflexivity. }
    split; [exact E|].
    intros p Hp. rewrite E in Hp. unfold from_row in Hp.
    apply post_init_fields in Hp as (_ & _ & _ & -> & _). simpl.
    unfold dict_get. rewrite lookup_insert_eq. reflexivity.
  - intros v Hv Hin. destruct (allowed_trimmed _ Hin) as [Ht Hne].
    assert (from_row row
            = from_row (<["sale_status" := VStr (strip (py_str v))]> row)) as E.
    { unfold from_row, dict_get.
      rewrite lookup_insert_eq, !lookup_insert_ne by done. rewrite Hv.
      simpl default. by rewrite py_str_VStr, Ht. }
    split; [exact E|].
    intros p Hp. unfold from_row in Hp.
    apply post_init_fields in Hp as (_ & _ & _ & -> & _). simpl.
    unfold dict_get. rewrite Hv. simpl default.
    by rewrite (bool_decide_eq_false_2 _ Hne).
  - intros v Hv Hne Hout. unfold from_row. apply post_init_status. simpl.
    unfold dict_get. rewrite Hv. simpl default.
    by rewrite (bool_decide_eq_false_2 _ Hne).
  - intros Hv. unfold from_row. apply post_init_status. simpl.
    unfold dict_get. rewrite Hv. simpl default.
    assert (strip (py_str VNone) = u "None") as -> by (vm_compute; reflexivity).
    by vm_compute.
Qed.

(** C6: the profit of a record without a sale price is absent; with a sale
    price v it is v minus the purchase price minus the shipping cost, an
    absent shipping cost counting as 0. *)
Theorem profit_absent_or_margin (p : Product) :
  (sale_price p = None -> profit p = None)
  /\ (forall v, sale_price p = Some v ->
        profit p = Some (v - purchase_price p - default 0 (shipping_cost p))).
Proof.
  unfold profit. split.
  - by intros ->.
  - intros v ->. do 2 f_equal.
    destruct (shipping_cost p) as [z|]; simpl; [|done].
    destruct (Z.eqb_spec z 0); congruence.
Qed.

(** C8: the row map of a record has the fourteen keys product_no, name,
    store_name, purchase_date, purchase_price, sale_status, listed_date,
    sale_date, sale_price, sales_channel, shipping_cost, is_archived,
    revision and updated_at; it has no handling_fee key, and reading the
    handling_fee attribute of a record raises AttributeError. *)
Theorem to_row_lacks_handling_fee (p : Product) :
  (to_row_items p).*1 =
    ["product_no"; "name"; "store_name"; "purchase_date"; "purchase_price";
     "sale_status"; "listed_date"; "sale_date"; "sale_price"; "sales_channel";
     "shipping_cost"; "is_archived"; "revision"; "updated_at"]
  /\ to_row p !! "handling_fee" = None
  /\ handling_fee p = Raise (AttributeError "handling_fee").
Proof.
  split; [reflexivity|]. split; [|reflexivity].
  unfold to_row. rewrite lookup_list_to_map. reflexivity.
Qed.

Lemma span_d_spec s :
  s = (span_d s).1 ++ (span_d s).2
  /\ forallb is_d (span_d s).1 = true /\ stops (span_d s).2.
Proof.
  induction s as [|c s (IH1 & IH2 & IH3)]; simpl; [done|].
  destruct (is_d c) eqn:E.
  - destruct (span_d s) as [g rest]; simpl in *. rewrite E. by subst.
  - simpl. by rewrite E.
Qed.

Lemma span_d_app g rest :
  forallb is_d g = true -> stops rest -> span_d (g ++ rest) = (g, rest).
Proof.
  induction g as [|c g IH]; simpl.
  - intros _ Hs. destruct rest as [|c r]; simpl in *; [done|]. by rewrite Hs.
  - intros [Hc Hg]%andb_true_iff Hs. by rewrite Hc, IH.
Qed.

Lemma take_drop_span n g rest :
  forallb is_d g = true -> stops rest ->
  (n < length g)%nat ->
  exists c r, drop n (g ++ rest) = c :: r /\ is_d c = true
              /\ length (take n (g ++ rest)) = n.
Proof.
  intros Hg _ Hn.
  destruct (lookup_lt_is_Some_2 g n Hn) as [c Hc].
  exists c, (drop (S n) (g ++ rest)). split; [|split].
  - rewrite <- (drop_S (g ++ rest) c n); [done|].
    by rewrite lookup_app_l.
  - rewrite forallb_forall in Hg. apply Hg, list_elem_of_In.
    by eapply list_elem_of_lookup_2.
  - rewrite length_take, length_app. lia.
Qed.

Lemma take_past_span n g rest :
  forallb is_d g = true -> stops rest -> (length g < n)%nat ->
  bool_decide (length (take n (g ++ rest)) = n)
  && forallb is_d (take n (g ++ rest)) = false.
Proof.
  intros Hg Hs Hn.
  destruct rest as [|c r].
  - rewrite app_nil_r, take_ge by lia.
    rewrite bool_decide_eq_false_2 by lia. done.
  - apply andb_false_iff. right.
    simpl in Hs.
    replace n with (length g + S (n - length g - 1))%nat by lia.
    rewrite take_app_add. simpl.
    rewrite forallb_app. simpl. rewrite Hs. by rewrite andb_false_r.
Qed.

Lemma rep_d_span {A} counts s (k : str -> str -> option A) :
  digit_blocked k ->
  rep_d counts s k =
    if bool_decide (length (span_d s).1 ∈ counts)
    then k (span_d s).1 (span_d s).2 else None.
Proof.
  intros Hk.
  destruct (span_d_spec s) as (Hs & Hg & Hst).
  destruct (span_d s) as [g rest]; simpl in *. subst s.
  induction counts as [|n counts IH]; simpl; [done|].
  destruct (lt_eq_lt_dec n (length g)) as [[Hlt|Heq]|Hgt].
  - destruct (take_drop_span n g rest Hg Hst Hlt) as (c & r & Hd & Hc & Hl).
    rewrite Hd, (Hk _ c r Hc).
    rewrite IH.
    assert (bool_decide (length g ∈ n :: counts)
            = bool_decide (length g ∈ counts)) as ->.
    { apply bool_decide_ext. rewrite elem_of_cons. split; [|by right].
      intros [?|?]; [lia|done]. }
    by destruct (_ && _).
  - subst n. rewrite take_app_length, drop_app_length.
    rewrite bool_decide_eq_true_2 by done. rewrite Hg. simpl.
    rewrite (bool_decide_eq_true_2 (length g ∈ length g :: counts))
      by (by left).
    destruct (k g rest) eqn:Ek; [done|].
    rewrite IH, ?Ek. by destruct (bool_decide _).
  - rewrite take_past_span by done.
    rewrite IH.
    assert (bool_decide (length g ∈ n :: counts)
            = bool_decide (length g ∈ counts)) as ->.
    { apply bool_decide_ext. rewrite elem_of_cons. split; [|by right].
      intros [?|?]; [lia|done]. }
    done.
Qed.

Lemma is_d_ascii c :
  (c < 128)%N -> is_d c = ((48 <=? c) && (c <=? 57))%N.
Proof.
  intros Hc. unfold is_d. rewrite py_todecimal_ascii by done.
  by destruct (_ && _).
Qed.

Lemma is_d_hyphen : is_d HYPHEN = false.
Proof. by rewrite is_d_ascii. Qed.
Lemma is_d_slash : is_d SLASH = false.
Proof. by rewrite is_d_ascii. Qed.
Lemma is_d_newline : is_d 10%N = false.
Proof. by rewrite is_d_ascii. Qed.
Lemma is_d_tsuki : is_d TSUKI = false.
Proof. unfold is_d. rewrite py_todecimal_cjk; [done|]. unfold TSUKI. lia. Qed.
Lemma is_d_nichi : is_d NICHI = false.
Proof. unfold is_d. rewrite py_todecimal_cjk; [done|]. unfold NICHI. lia. Qed.

Lemma lit_blocked {A} c (k : str -> option A) c' r :
  is_d c = false -> is_d c' = true -> lit c (c' :: r) k = None.
Proof.
  intros Hc Hc'. simpl. destruct (N.eqb_spec c' c); [congruence|done].
Qed.

Lemma at_end_blocked c r : is_d c = true -> at_end (c :: r) = false.
Proof.
  intros Hc. unfold at_end. simpl.
  destruct (decide (c :: r = [10%N])) as [[= -> ->]|Hne].
  - by rewrite is_d_newline in Hc.
  - by rewrite bool_decide_eq_false_2.
Qed.

Lemma at_end_stops tail : at_end tail = true -> stops tail.
Proof.
  unfold at_end. rewrite orb_true_iff, !bool_decide_eq_true.
  intros [->| ->]; simpl; [done|apply is_d_newline].
Qed.

Lemma in_21 n : n ∈ [2%nat; 1%nat] <-> (1 <= n <= 2)%nat.
Proof. rewrite !elem_of_cons, elem_of_nil. lia. Qed.
Lemma in_4 n : n ∈ [4%nat] <-> (4 <= n <= 4)%nat.
Proof. rewrite !elem_of_cons, elem_of_nil. lia. Qed.
Lemma in_432 n : n ∈ [4%nat; 3%nat; 2%nat] <-> (2 <= n <= 4)%nat.
Proof. rewrite !elem_of_cons, elem_of_nil. lia. Qed.

Lemma lit_Some {A} c s (k : str -> option A) a :
  lit c s k = Some a <-> exists r, s = c :: r /\ k r = Some a.
Proof.
  destruct s as [|c' r]; simpl.
  - split; [done|]. by intros (? & ? & _).
  - destruct (N.eqb_spec c' c) as [->|Hne].
    + split; [by exists r|]. by intros (? & [= <-] & ?).
    + split; [done|]. intros (? & [= ? ?] & _). done.
Qed.

Ltac blocked :=
  intros ? ? ? ?;
  first [ by apply lit_blocked; auto using is_d_hyphen, is_d_slash, is_d_tsuki, is_d_nichi
        | by erewrite at_end_blocked ].

Lemma rep_d_Some {A} counts s (k : str -> str -> option A) a :
  digit_blocked k ->
  rep_d counts s k = Some a <->
  exists g rest, s = g ++ rest /\ forallb is_d g = true /\ stops rest
                 /\ length g ∈ counts /\ k g rest = Some a.
Proof.
  intros Hk. rewrite rep_d_span by done.
  destruct (span_d_spec s) as (Hs & Hg & Hst).
  split.
  - case_bool_decide; [|done]. intros Ha.
    by exists (span_d s).1, (span_d s).2.
  - intros (g & rest & -> & Hg' & Hst' & Hin & Ha).
    rewrite span_d_app by done. simpl.
    by rewrite bool_decide_eq_true_2.
Qed.

Lemma re_ymd_Some s g1 g2 g3 :
  re_ymd s = Some (g1, g2, g3) <->
  exists tail, s = g1 ++ HYPHEN :: g2 ++ HYPHEN :: g3 ++ tail
    /\ digits 4 4 g1 /\ digits 1 2 g2 /\ digits 1 2 g3 /\ at_end tail = true.
Proof.
  unfold re_ymd, digits.
  rewrite rep_d_Some by blocked.
  setoid_rewrite lit_Some.
  setoid_rewrite rep_d_Some; [|blocked].
  setoid_rewrite lit_Some.
  setoid_rewrite rep_d_Some; [|blocked].
  setoid_rewrite in_21. setoid_rewrite in_4.
  split.
  - intros (a1 & r1 & -> & D1 & _ & L1 & s2 & -> & a2 & r3 & -> & D2 & _ & L2
            & s4 & -> & a3 & r5 & -> & D3 & _ & L3 & H).
    destruct (at_end r5) eqn:E; [|done]. injection H as <- <- <-.
    by exists r5.
  - intros (tail & -> & [D1 L1] & [D2 L2] & [D3 L3] & E).
    exists g1, (HYPHEN :: g2 ++ HYPHEN :: g3 ++ tail).
    repeat split; try done; try apply is_d_hyphen; try lia.
    exists (g2 ++ HYPHEN :: g3 ++ tail). split; [done|].
    exists g2, (HYPHEN :: g3 ++ tail).
    repeat split; try done; try apply is_d_hyphen; try lia.
    exists (g3 ++ tail). split; [done|].
    exists g3, tail.
    repeat split; try done; try lia; [by apply at_end_stops|].
    by rewrite E.
Qed.

Lemma or_else_Some {A} (x y : option A) a :
  match x with Some m => Some m | None => y end = Some a
  <-> x = Some a \/ (x = None /\ y = Some a).
Proof.
  destruct x as [m|]; split.
  - by left.
  - by intros [?|[? _]].
  - by right.
  - by intros [?|[_ ?]].
Qed.

Lemma at_end_cases tail : at_end tail = true <-> tail = [] \/ tail = [10%N].
Proof. unfold at_end. by rewrite orb_true_iff, !bool_decide_eq_true. Qed.

Lemma re_md_Some s g1 g2 og3 :
  re_md s = Some (g1, g2, og3) <->
  digits 1 2 g1 /\ digits 1 2 g2 /\
  exists tail, at_end tail = true /\
    match og3 with
    | Some g3 => digits 2 4 g3 /\ s = g1 ++ SLASH :: g2 ++ SLASH :: g3 ++ tail
    | None => s = g1 ++ SLASH :: g2 ++ tail
    end.
Proof.
  unfold re_md, digits.
  rewrite rep_d_Some by blocked.
  setoid_rewrite lit_Some.
  setoid_rewrite rep_d_Some.
  2:{ intros ? ? ? Hc. rewrite lit_blocked by auto using is_d_slash.
      by rewrite at_end_blocked. }
  setoid_rewrite or_else_Some.
  setoid_rewrite lit_Some.
  setoid_rewrite rep_d_Some; [|blocked].
  setoid_rewrite in_21. setoid_rewrite in_432.
  split.
  - intros (a1 & r1 & -> & D1 & _ & L1 & s2 & -> & a2 & r3 & -> & D2 & _ & L2
            & H).
    destruct H as [(s4 & -> & a3 & r5 & -> & D3 & _ & L3 & H)|[_ H]].
    + destruct (at_end r5) eqn:E; [|done]. injection H as <- <- <-.
      split; [done|]. split; [done|]. exists r5. auto.
    + destruct (at_end r3) eqn:E; [|done]. injection H as <- <- <-.
      split; [done|]. split; [done|]. by exists r3.
  - intros ([D1 L1] & [D2 L2] & tail & E & H).
    destruct og3 as [g3|].
    + destruct H as [[D3 L3] ->].
      exists g1, (SLASH :: g2 ++ SLASH :: g3 ++ tail).
      repeat split; try done; try apply is_d_slash; try lia.
      exists (g2 ++ SLASH :: g3 ++ tail). split; [done|].
      exists g2, (SLASH :: g3 ++ tail).
      repeat split; try done; try apply is_d_slash; try lia.
      left. exists (g3 ++ tail). split; [done|].
      exists g3, tail. repeat split; try done; try lia; [by apply at_end_stops|].
      by rewrite E.
    + subst s.
      exists g1, (SLASH :: g2 ++ tail).
      repeat split; try done; try apply is_d_slash; try lia.
      exists (g2 ++ tail). split; [done|].
      exists g2, tail. repeat split; try done; try lia; [by apply at_end_stops|].
      right. rewrite E. split; [|done].
      apply at_end_cases in E as [-> | ->]; reflexivity.
Qed.

Lemma re_jp_Some s g1 g2 :
  re_jp s = Some (g1, g2) <->
  digits 1 2 g1 /\ digits 1 2 g2 /\
  exists rest, s = g1 ++ TSUKI :: g2 ++ NICHI :: rest.
Proof.
  unfold re_jp, digits.
  rewrite rep_d_Some by blocked.
  setoid_rewrite lit_Some.
  setoid_rewrite rep_d_Some; [|blocked].
  setoid_rewrite lit_Some.
  setoid_rewrite in_21.
  split.
  - intros (a1 & r1 & -> & D1 & _ & L1 & s2 & -> & a2 & r3 & -> & D2 & _ & L2
            & rest & -> & [= <- <-]).
    split; [done|]. split; [done|]. by exists rest.
  - intros ([D1 L1] & [D2 L2] & rest & ->).
    exists g1, (TSUKI :: g2 ++ NICHI :: rest).
    repeat split; try done; try apply is_d_tsuki; try lia.
    exists (g2 ++ NICHI :: rest). split; [done|].
    exists g2, (NICHI :: rest).
    repeat split; try done; try apply is_d_nichi; try lia.
    by exists rest.
Qed.

Lemma digits_value_total g acc :
  forallb is_d g = true -> is_Some (digits_value acc g).
Proof.
  revert acc. induction g as [|c g IH]; simpl; intros acc; [by eexists|].
  intros [Hc Hg]%andb_true_iff. unfold is_d in Hc.
  destruct (py_todecimal c); [|done]. by apply IH.
Qed.

Lemma int_group_digits lo hi g :
  digits (S lo) hi g -> int_group g = Ok (dval g).
Proof.
  intros [Hd Hl]. unfold int_group, dval.
  destruct g as [|c g]; [simpl in Hl; lia|].
  destruct (digits_value_total (c :: g) 0 Hd) as [z ->]. done.
Qed.

Lemma strip_last t c : last (strip t) = Some c -> isspace c = false.
Proof.
  unfold strip, rstrip. intros [l Hl]%last_Some.
  pose proof (lstrip_head_ok (rev (lstrip t))) as H.
  apply (f_equal (@rev char)) in Hl.
  rewrite rev_involutive, rev_app_distr in Hl. simpl in Hl.
  by rewrite Hl in H.
Qed.

Lemma strip_tail_end t front tail :
  strip t = front ++ tail -> at_end tail = true -> tail = [].
Proof.
  intros Hs [->| ->]%at_end_cases; [done|].
  pose proof (strip_last t 10%N) as H. rewrite Hs, last_snoc in H.
  by specialize (H eq_refl).
Qed.

Lemma span_unique g c r g' c' r' :
  forallb is_d g = true -> is_d c = false ->
  forallb is_d g' = true -> is_d c' = false ->
  g ++ c :: r = g' ++ c' :: r' -> g = g' /\ c = c' /\ r = r'.
Proof.
  intros Hg Hc Hg' Hc' E.
  pose proof (span_d_app g (c :: r) Hg Hc) as S1.
  pose proof (span_d_app g' (c' :: r') Hg' Hc') as S2.
  rewrite E, S2 in S1. by injection S1 as -> -> ->.
Qed.

Lemma to_iso_date_eval t :
  _to_iso_date (VStr t)
  = Ok (if bool_decide (strip t = []) then None else iso_of (strip t)).
Proof.
  unfold _to_iso_date, iso_of. rewrite py_str_VStr.
  destruct t as [|c t]; [reflexivity|]. simpl is_blank. cbv iota.
  destruct (decide (strip (c :: t) = [])) as [E|E];
    [by rewrite !bool_decide_eq_true_2 by done
    |rewrite !bool_decide_eq_false_2 by done].
  destruct (re_ymd _) as [[[g1 g2] g3]|] eqn:E1.
  { apply re_ymd_Some in E1 as (tail & _ & D1 & D2 & D3 & _).
    by rewrite (int_group_digits _ _ _ D2), (int_group_digits _ _ _ D3). }
  destruct (re_md _) as [[[g1 g2] og3]|] eqn:E2.
  { apply re_md_Some in E2 as (D1 & D2 & tail & _ & D3).
    rewrite (int_group_digits _ _ _ D1), (int_group_digits _ _ _ D2).
    destruct og3 as [g3|].
    - destruct D3 as [D3 _]. by rewrite (int_group_digits _ _ _ D3).
    - simpl. pose proof py_today_year as Hy.
      destruct (Z.ltb_spec (year py_today) 100); [lia|done]. }
  destruct (re_jp _) as [[g1 g2]|] eqn:E3; [|done].
  apply re_jp_Some in E3 as (D1 & D2 & _).
  by rewrite (int_group_digits _ _ _ D1), (int_group_digits _ _ _ D2).
Qed.

Lemma shape_nonempty s g c r lo hi :
  digits (S lo) hi g -> s = g ++ c :: r -> s <> [].
Proof. intros _ ->. by destruct g. Qed.

Lemma re_ymd_shape s y m d :
  ymd_shape s y m d -> re_ymd s = Some (y, m, d).
Proof.
  intros (D1 & D2 & D3 & ->). apply re_ymd_Some. exists [].
  by rewrite app_nil_r.
Qed.

Lemma re_ymd_None s g c r :
  digits 1 2 g -> is_d c = false -> s = g ++ c :: r -> re_ymd s = None.
Proof.
  intros [D L] Hc ->.
  destruct (re_ymd _) as [[[g1 g2] g3]|] eqn:E; [|done].
  apply re_ymd_Some in E as (tail & E & [D1 L1] & _).
  apply span_unique in E as (-> & _); auto using is_d_hyphen. lia.
Qed.

Lemma re_md_None s g r :
  digits 1 2 g -> s = g ++ TSUKI :: r -> re_md s = None.
Proof.
  intros [D L] ->.
  destruct (re_md _) as [[[g1 g2] og3]|] eqn:E; [|done].
  apply re_md_Some in E as ([D1 L1] & _ & tail & _ & E).
  destruct og3 as [g3|]; [destruct E as [_ E]|];
    apply span_unique in E as (_ & E & _);
    auto using is_d_slash, is_d_tsuki; discriminate.
Qed.

Lemma to_iso_date_any v :
  _to_iso_date v
  = if is_blank v then Ok None else _to_iso_date (VStr (py_str v)).
Proof.
  unfold _to_iso_date. destruct (is_blank v) eqn:E; [done|].
  rewrite py_str_VStr.
  destruct (py_str v) as [|c r] eqn:Es; [|done]. reflexivity.
Qed.

Lemma iso_of_unrecognised t :
  ~ recognised (strip t) -> iso_of (strip t) = None.
Proof.
  intros Hn. unfold iso_of.
  destruct (re_ymd _) as [[[g1 g2] g3]|] eqn:E1.
  { exfalso. apply Hn. left. exists g1, g2, g3.
    apply re_ymd_Some in E1 as (tail & E & D1 & D2 & D3 & Ht).
    assert (tail = []) as ->.
    { eapply (strip_tail_end t (g1 ++ HYPHEN :: g2 ++ HYPHEN :: g3)); [|done].
      rewrite E. by repeat (rewrite <- app_assoc; simpl). }
    rewrite app_nil_r in E. done. }
  destruct (re_md _) as [[[g1 g2] og3]|] eqn:E2.
  { exfalso. apply Hn. right.
    apply re_md_Some in E2 as (D1 & D2 & tail & Ht & E).
    destruct og3 as [g3|].
    - right. left. exists g1, g2, g3. destruct E as [D3 E].
      assert (tail = []) as ->.
      { eapply (strip_tail_end t (g1 ++ SLASH :: g2 ++ SLASH :: g3)); [|done].
        rewrite E. by repeat (rewrite <- app_assoc; simpl). }
      rewrite app_nil_r in E. done.
    - left. exists g1, g2.
      assert (tail = []) as ->.
      { eapply (strip_tail_end t (g1 ++ SLASH :: g2)); [|done].
        rewrite E. by repeat (rewrite <- app_assoc; simpl). }
      rewrite app_nil_r in E. done. }
  destruct (re_jp _) as [[g1 g2]|] eqn:E3; [|done].
  exfalso. apply Hn. right. right. right.
  apply re_jp_Some in E3 as (D1 & D2 & rest & E).
  by exists g1, g2, rest.
Qed.

(* What _to_iso_date returns, shape by shape: it never raises.  On the
   trimmed text it maps YYYY-M-D to the year as written and month and day
   on two digits; M/D to the current year; M/D/Y with a year of two to four
   digits to the year plus 2000 when below 50, plus 1900 when from 50 to
   99, and as it is from 100 on; M月D日 followed by any text to the current
   year; None and every other text to an absent value. *)
Lemma to_iso_date_cases (t : str) :
  (forall v, exists r, _to_iso_date v = Ok r)
  /\ _to_iso_date VNone = Ok None
  /\ (forall y m d, ymd_shape (strip t) y m d ->
        _to_iso_date (VStr t) = Ok (Some (iso y m d)))
  /\ (forall m d, md_shape (strip t) m d ->
        _to_iso_date (VStr t) = Ok (Some (iso this_year m d)))
  /\ (forall m d y, mdy_shape (strip t) m d y ->
        _to_iso_date (VStr t)
        = Ok (Some (iso (str_of_int (century (dval y))) m d)))
  /\ (forall m d rest, jp_shape (strip t) m d rest ->
        _to_iso_date (VStr t) = Ok (Some (iso this_year m d)))
  /\ (~ recognised (strip t) -> _to_iso_date (VStr t) = Ok None).
Proof.
  split; [|split; [reflexivity|]].
  { intros v. rewrite to_iso_date_any. destruct (is_blank v); [by eexists|].
    rewrite to_iso_date_eval. by eexists. }
  rewrite to_iso_date_eval.
  repeat split.
  - intros y m d Hs. pose proof Hs as (D1 & _ & _ & E).
    rewrite bool_decide_eq_false_2 by apply (shape_nonempty _ _ _ _ 3 4 D1 E).
    unfold iso_of. by rewrite (re_ymd_shape _ _ _ _ Hs).
  - intros m d (D1 & D2 & E).
    rewrite bool_decide_eq_false_2 by apply (shape_nonempty _ _ _ _ 0 2 D1 E).
    unfold iso_of.
    rewrite (re_ymd_None _ m SLASH d) by auto using is_d_slash.
    assert (re_md (strip t) = Some (m, d, None)) as ->; [|done].
    apply re_md_Some. split; [done|]. split; [done|]. exists [].
    split; [done|]. by rewrite app_nil_r.
  - intros m d y (D1 & D2 & D3 & E).
    rewrite bool_decide_eq_false_2 by apply (shape_nonempty _ _ _ _ 0 2 D1 E).
    unfold iso_of.
    rewrite (re_ymd_None _ m SLASH (d ++ SLASH :: y)) by auto using is_d_slash.
    assert (re_md (strip t) = Some (m, d, Some y)) as ->; [|done].
    apply re_md_Some. split; [done|]. split; [done|]. exists [].
    split; [done|]. by rewrite app_nil_r.
  - intros m d rest (D1 & D2 & E).
    rewrite bool_decide_eq_false_2 by apply (shape_nonempty _ _ _ _ 0 2 D1 E).
    unfold iso_of.
    rewrite (re_ymd_None _ m TSUKI (d ++ NICHI :: rest)) by auto using is_d_tsuki.
    rewrite (re_md_None _ m (d ++ NICHI :: rest)) by done.
    assert (re_jp (strip t) = Some (m, d)) as ->; [|done].
    apply re_jp_Some. split; [done|]. split; [done|]. by exists rest.
  - intros Hn. case_bool_decide; [done|]. by rewrite iso_of_unrecognised.
Qed.

Lemma str_of_int_three z : 100 <= z < 1000 -> length (str_of_int z) = 3%nat.
Proof.
  intros Hz.
  assert (forallb (fun n => Nat.eqb (length (str_of_int (Z.of_nat n + 100))) 3)
            (seq 0 900) = true) as H by (vm_compute; reflexivity).
  rewrite forallb_forall in H.
  specialize (H (Z.to_nat (z - 100))).
  replace (Z.of_nat (Z.to_nat (z - 100)) + 100) with z in H by lia.
  apply Nat.eqb_eq, H, in_seq. lia.
Qed.

(** C5: _to_iso_date does not always give the YYYY-MM-DD form its
    docstring promises: a slash date M/D/Y whose year has the value 100 to
    999 (three digits, or four with a leading zero) is accepted, and the
    text returned begins with that year written on three digits. *)
Theorem three_digit_year_unpadded (t m d y : str) :
  mdy_shape (strip t) m d y ->
  100 <= dval y < 1000 ->
  _to_iso_date (VStr t)
  = Ok (Some (str_of_int (dval y) ++ u "-" ++ pad_int 2 (dval m)
              ++ u "-" ++ pad_int 2 (dval d)))
  /\ length (str_of_int (dval y)) = 3%nat.
Proof.
  intros Hs Hy. split; [|by apply str_of_int_three].
  destruct (to_iso_date_cases t) as (_ & _ & _ & _ & Hmdy & _).
  rewrite (Hmdy m d y Hs). unfold century.
  by rewrite (proj2 (Z.ltb_ge (dval y) 100)) by lia.
Qed.

Lemma str_of_int_nonempty z : str_of_int z <> [].
Proof.
  unfold str_of_int, bytes_of.
  destruct z as [|p|p]; simpl; try done.
  pose proof (Unsigned.to_uint_nonnil p) as H.
  unfold NilZero.string_of_uint.
  destruct (Pos.to_uint p); simpl; done.
Qed.

Lemma iso_nonempty y m d : iso y m d <> [].
Proof. unfold iso. by destruct y. Qed.

Lemma to_iso_date_nonempty t s : _to_iso_date (VStr t) = Ok (Some s) -> s <> [].
Proof.
  rewrite to_iso_date_eval. case_bool_decide; [done|].
  unfold iso_of. intros [= Hs].
  repeat match type of Hs with
  | match ?x with _ => _ end = _ => destruct x
  end; try discriminate; injection Hs as <-; apply iso_nonempty.
Qed.

Lemma date_truthy t o :
  _to_iso_date (VStr t) = Ok o ->
  match o with Some (_ :: _) => true | _ => false end = true <-> parses_to_date t.
Proof.
  intros H. unfold parses_to_date. rewrite H. split.
  - destruct o as [[|c s]|]; try done. by exists (c :: s).
  - intros [s [= ->]]. apply to_iso_date_nonempty in H. by destruct s.
Qed.

Lemma price_positive t s o :
  _to_int_str (VStr t) = Ok s -> int_if_text s = Ok o ->
  positive_price o = true <-> parses_to_positive t.
Proof.
  unfold _to_int_str, int_if_text, parses_to_positive.
  rewrite py_str_VStr.
  destruct t as [|c t]; simpl is_blank; cbv iota.
  { intros [= <-]. simpl. intros [= <-]. simpl. split; [done|].
    by intros (z & ? & _). }
  destruct (py_int_float _) as [z|e] eqn:E.
  - intros [= <-]. rewrite bool_decide_eq_false_2 by apply str_of_int_nonempty.
    rewrite py_int_str_of_int. intros [= <-]. simpl. split.
    + intros Hz%Z.ltb_lt. by exists z.
    + intros (z' & _ & [= <-] & Hz). by apply Z.ltb_lt.
  - intros Hs Ho. split.
    + destruct e; try discriminate; injection Hs as <-;
        simpl in Ho; injection Ho as <-; done.
    + by intros (z & _ & ? & _).
Qed.

Lemma cell_trimmed col row key c : _cell col row key = Ok c -> strip c = c.
Proof.
  unfold _cell. destruct (col_get col key); [|by intros [= <-]].
  destruct (_ <? _); [by intros [= <-]|].
  destruct (py_getitem _ _); [|done]. intros [= <-]. apply strip_idemp.
Qed.

Lemma derived_status_kept (st : str) (row : gmap string PyVal) p :
  st ∈ [SOLD; LISTED; NOT_LISTED] ->
  row !! "sale_status" = Some (VStr st) ->
  from_row row = Ok p -> sale_status p = st.
Proof.
  intros Hst Hrow Hp. unfold from_row in Hp.
  apply post_init_fields in Hp as (_ & _ & _ & -> & _). simpl.
  unfold dict_get. rewrite Hrow. simpl default. rewrite py_str_VStr.
  rewrite !elem_of_cons, elem_of_nil in Hst.
  destruct Hst as [->|[->|[->|[]]]]; reflexivity.
Qed.

(* The status in the record map, in terms of what _cell returns for the
   sale-date, sale-price and listed-flag keys. *)
Lemma derived_status_of_cells (col : colmap) (row : list str)
    (rec : gmap string PyVal) :
  jp_record col row = Ok rec ->
  exists dcell pcell fcell st,
    _cell col row "sale_date" = Ok dcell
    /\ _cell col row "sale_price" = Ok pcell
    /\ _cell col row "listed_flag" = Ok fcell
    /\ rec !! "sale_status" = Some (VStr st)
    /\ (forall p, from_row rec = Ok p -> sale_status p = st)
    /\ (parses_to_date dcell \/ parses_to_positive pcell -> st = SOLD)
    /\ (~ (parses_to_date dcell \/ parses_to_positive pcell) ->
        affirmative fcell -> st = LISTED)
    /\ (~ (parses_to_date dcell \/ parses_to_positive pcell) ->
        ~ affirmative fcell -> st = NOT_LISTED).
Proof.
  unfold jp_record, mbind, result_bind. intros H.
  bind_inv H. injection H as <-.
  match goal with
  | E : _cell col row "sale_date" = Ok ?x |- _ => rename x into dcell
  end.
  match goal with
  | E : _cell col row "sale_price" = Ok ?x |- _ => rename x into pcell
  end.
  match goal with
  | E : _cell col row "listed_flag" = Ok ?x |- _ => rename x into fcell
  end.
  match goal with
  | |- context [derive_sale_status ?sd ?sp ?lf] =>
      exists dcell, pcell, fcell, (derive_sale_status sd sp lf);
      assert (match sd with Some (_ :: _) => true | _ => false end = true
              <-> parses_to_date dcell) as Hd by (by apply date_truthy);
      assert (positive_price sp = true <-> parses_to_positive pcell)
        as Hp by (by eapply price_positive);
      assert (lf = fcell) as Hf by (by eapply cell_trimmed);
      set (st := derive_sale_status sd sp lf);
      assert (st ∈ [SOLD; LISTED; NOT_LISTED]
              /\ (parses_to_date dcell \/ parses_to_positive pcell
                  -> st = SOLD)
              /\ (~ (parses_to_date dcell \/ parses_to_positive pcell)
                  -> affirmative fcell -> st = LISTED)
              /\ (~ (parses_to_date dcell \/ parses_to_positive pcell)
                  -> ~ affirmative fcell -> st = NOT_LISTED))
        as (Hin & H1 & H2 & H3)
  end.
  { subst st. unfold derive_sale_status, affirmative. rewrite Hf.
    rewrite <- Hd, <- Hp, <- orb_true_iff. rewrite !elem_of_cons.
    destruct (_ || _).
    - split; [by left|]. split; [done|]. split; intros []; done.
    - destruct (str_in (py_lower fcell) AFFIRMATIVE).
      + split; [by right; left|]. split; [done|]. split; [done|]. by intros _ [].
      + split; [by right; right; left|]. split; [done|]. split; done. }
  split; [done|]. split; [done|]. split; [done|].
  match goal with
  | |- ?m !! _ = _ /\ _ =>
      assert (m !! "sale_status" = Some (VStr st)) as Hl
        by (repeat (rewrite lookup_insert_ne by done); apply lookup_insert_eq)
  end.
  split; [exact Hl|]. split; [|done].
  intros p Hp'. by eapply derived_status_kept.
Qed.

(* _cell reads the row: with columns counted from 1 it returns the text of
   the row in the column bound to the key. *)
Lemma cell_reads_row col row key :
  from_one col -> _cell col row key = Ok (text_in_row col row key).
Proof.
  intros Hone. unfold _cell, text_in_row.
  destruct (col_get col key) as [c|] eqn:Ec; [|done].
  apply Hone in Ec.
  destruct (Z.ltb_spec (Z.of_nat (length row)) c) as [Hlt|Hge].
  - rewrite nth_overflow by lia. by rewrite strip_nil.
  - unfold py_getitem. rewrite (proj2 (Z.leb_le 0 (c - 1))) by lia.
    destruct (lookup_lt_is_Some_2 row (Z.to_nat (c - 1))) as [v Hv]; [lia|].
    rewrite Hv. by rewrite (nth_lookup_Some _ _ _ _ Hv).
Qed.

(** C4: the record map _record_from_jp_row builds from a sheet row, with
    columns counted from 1, carries a sale status, kept by from_row, that
    is decided by three cells of the row, each read in the column bound to
    its field and trimmed (empty when the column is unbound or the row is
    too short): 売却済 when the sale-date cell parses to a date or the
    sale-price cell parses to a positive integer; otherwise 出品済 when the
    listed-flag cell is one of the affirmative tokens; otherwise 未出品. *)
Theorem sale_status_precedence (col : colmap) (row : list str)
    (rec : gmap string PyVal) :
  from_one col ->
  jp_record col row = Ok rec ->
  exists st,
    rec !! "sale_status" = Some (VStr st)
    /\ (forall p, from_row rec = Ok p -> sale_status p = st)
    /\ (parses_to_date (text_in_row col row "sale_date")
        \/ parses_to_positive (text_in_row col row "sale_price") -> st = SOLD)
    /\ (~ (parses_to_date (text_in_row col row "sale_date")
           \/ parses_to_positive (text_in_row col row "sale_price")) ->
        affirmative (text_in_row col row "listed_flag") -> st = LISTED)
    /\ (~ (parses_to_date (text_in_row col row "sale_date")
           \/ parses_to_positive (text_in_row col row "sale_price")) ->
        ~ affirmative (text_in_row col row "listed_flag") -> st = NOT_LISTED).
Proof.
  intros Hone H.
  destruct (derived_status_of_cells col row rec H)
    as (dcell & pcell & fcell & st & Hd & Hp & Hf & Hst & Hkept & H1 & H2 & H3).
  rewrite (cell_reads_row _ _ _ Hone) in Hd.
  rewrite (cell_reads_row _ _ _ Hone) in Hp.
  rewrite (cell_reads_row _ _ _ Hone) in Hf.
  injection Hd as <-. injection Hp as <-. injection Hf as <-.
  exists st. split; [done|]. split; [done|]. split; [done|]. split; done.
Qed.

End facts.

(* --------------------------------------------------------------------- *)
(* 11. The repository operations                                          *)
(* --------------------------------------------------------------------- *)

Section repository_facts.
Context `{R : PyRuntime} {W : Type} `{WS : Worksheet W}.

Lemma open_worksheet_spec σ :
  _open_worksheet σ = (Ok tt, opened σ)
  /\ sheet (opened σ) = sheet σ /\ writes (opened σ) = writes σ
  /\ _worksheet (opened σ) = true.
Proof.
  unfold opened, _open_worksheet, _configure_sheet_layout.
  destruct σ as [sh [|] m w]; simpl; done.
Qed.

Lemma open_worksheet_opened σ :
  _worksheet σ = true -> _open_worksheet σ = (Ok tt, σ).
Proof. unfold _open_worksheet. by intros ->. Qed.

Lemma opened_opened σ : opened (opened σ) = opened σ.
Proof.
  unfold opened at 1. rewrite open_worksheet_opened; [done|].
  apply open_worksheet_spec.
Qed.

Lemma bind_run {A B} (m : M W A) (k : A -> M W B) σ :
  (m ≫= k) σ = match m σ with
               | (Ok a, σ') => k a σ'
               | (Raise e, σ') => (Raise e, σ')
               end.
Proof. reflexivity. Qed.

Lemma bind_lift {A B} (r : result A) (k : A -> M W B) σ :
  (lift r ≫= k) σ = match r with Ok a => k a σ | Raise e => (Raise e, σ) end.
Proof. rewrite bind_run. unfold lift. by destruct r. Qed.

Lemma record_from_jp_row_run n row σ :
  _worksheet σ = true ->
  _record_from_jp_row n row σ
  = (jp_record (default [] (_jp_col_map σ)) row, σ).
Proof.
  intros Ho. unfold _record_from_jp_row. rewrite !bind_run.
  destruct (_jp_col_map σ) eqn:E.
  - unfold the_col_map.
    rewrite bind_run. simpl. rewrite E. simpl. unfold lift.
    by destruct (jp_record _ _).
  - rewrite open_worksheet_opened by done.
    rewrite bind_run. simpl. rewrite E. simpl. unfold lift.
    by destruct (jp_record _ _).
Qed.

Lemma update_product_plan product_no updates expected σ :
  update_product product_no updates expected σ
  = match update_plan (opened σ) product_no updates expected with
    | Ok plan => update_commit plan (opened σ)
    | Raise e => (Raise e, opened σ)
    end.
Proof.
  destruct (open_worksheet_spec σ) as (Ho & _ & _ & Hw).
  unfold update_product, update_plan, locate_row, update_commit, merged_row.
  unfold mbind, M_bind, result_bind, ws_get_all_values, the_col_map, lift, raise.
  rewrite Ho. cbv beta iota.
  case_bool_decide; [done|].
  destruct (col_get _ "product_no") as [c|]; [|done].
  destruct (find_row _ _ _ _) as [[t|]|e]; try done.
  destruct (py_getitem _ _) as [rv|]; [|done].
  cbv beta iota. simpl snd. simpl fst.
  destruct (negb _); [done|].
  rewrite record_from_jp_row_run by done.
  destruct (jp_record _ _) as [rec|e]; [|done].
  destruct (from_row rec) as [current|e]; [|done].
  destruct (from_row _) as [updated|e]; [|done].
  destruct (_apply_updates_to_jp_row _ _ _) as [cells|e]; [|done].
  reflexivity.
Qed.

(** C1: update_product on a row whose revision token differs from the
    expected revision raises ExternalUpdateDetectedError and ends in the
    state reached by opening the worksheet, whose write log and sheet are
    those of the start: no cell is written.  The comparison comes before any
    write: whenever update_product ends with a longer write log, the row was
    located and its token equalled the expected revision. *)
Theorem stale_revision_rejected (σ : state W) (product_no : str)
    (updates : gmap string PyVal) (expected_revision : str) :
  (forall target_row row_vals,
     locate_row (opened σ) product_no = Ok (target_row, row_vals) ->
     _row_revision row_vals <> expected_revision ->
     update_product product_no updates expected_revision σ
       = (Raise ExternalUpdateDetectedError, opened σ)
     /\ writes (opened σ) = writes σ /\ sheet (opened σ) = sheet σ)
  /\ (forall res σ',
        update_product product_no updates expected_revision σ = (res, σ') ->
        writes σ' <> writes σ ->
        exists target_row row_vals,
          locate_row (opened σ) product_no = Ok (target_row, row_vals)
          /\ _row_revision row_vals = expected_revision).
Proof.
  destruct (open_worksheet_spec σ) as (_ & Hs & Hw & _).
  split.
  - intros t rv Hl Hne. split; [|done].
    rewrite update_product_plan. unfold update_plan. rewrite Hl. simpl.
    unfold str_eqb. by rewrite bool_decide_eq_false_2.
  - intros res σ' Hu Hneq. rewrite update_product_plan in Hu.
    unfold update_plan in Hu.
    destruct (locate_row _ _) as [[t rv]|e]; simpl in Hu.
    + exists t, rv. split; [done|].
      unfold str_eqb in Hu. case_bool_decide; [done|].
      simpl in Hu. injection Hu as _ <-. congruence.
    + injection Hu as _ <-. congruence.
Qed.

(** C7: when the located row has the expected revision and from_row
    rejects the current record's row map overlaid with the updates,
    update_product raises that error, a ValueError, and ends in the state
    reached by opening the worksheet: the write log and the sheet are those
    of the start. *)
Theorem invalid_merge_aborts (σ : state W) (product_no : str)
    (updates : gmap string PyVal) (target_row : Z) (row_vals : list str)
    (rec : gmap string PyVal) (current : Product) (e : exn) :
  locate_row (opened σ) product_no = Ok (target_row, row_vals) ->
  jp_record (default [] (_jp_col_map (opened σ))) row_vals = Ok rec ->
  from_row rec = Ok current ->
  from_row (merged_row current product_no updates) = Raise e ->
  update_product product_no updates (_row_revision row_vals) σ
    = (Raise e, opened σ)
  /\ (exists msg, e = ValueError msg)
  /\ writes (opened σ) = writes σ /\ sheet (opened σ) = sheet σ.
Proof.
  intros Hl Hrec Hcur Hm.
  destruct (open_worksheet_spec σ) as (_ & Hs & Hw & _).
  split; [|split; [by eapply from_row_raises|done]].
  rewrite update_product_plan. unfold update_plan, mbind, result_bind.
  rewrite Hl. cbv beta iota zeta. simpl snd.
  unfold str_eqb. rewrite bool_decide_eq_true_2 by done. simpl negb.
  cbv beta iota. by rewrite Hrec, Hcur, Hm.
Qed.

Lemma find_insertable_run σ :
  _find_first_insertable_jp_row σ = (slot_of (opened σ), opened σ).
Proof.
  destruct (open_worksheet_spec σ) as (Ho & _).
  unfold _find_first_insertable_jp_row, slot_of.
  unfold mbind, M_bind, ws_get_all_values, the_col_map, lift, mret, M_ret.
  rewrite Ho. cbv beta iota. case_bool_decide; [done|].
  destruct (col_get _ "product_no"); [|done].
  destruct (col_get _ "name"); done.
Qed.

Lemma commit_nil σ : commit [] σ = σ.
Proof. destruct σ. unfold commit. simpl. by rewrite app_nil_r. Qed.

Lemma commit_app ws1 ws2 σ : commit ws2 (commit ws1 σ) = commit (ws1 ++ ws2) σ.
Proof. unfold commit. simpl. by rewrite fold_left_app, app_assoc. Qed.

Lemma write_cells_run row updates σ :
  write_cells row updates σ = (Ok tt, commit (cell_writes row updates) σ).
Proof.
  revert σ. induction updates as [|[c v] r IH]; intros σ; simpl.
  - by rewrite commit_nil.
  - unfold mbind, M_bind. unfold ws_update_cell at 1.
    rewrite IH. f_equal.
    change (UpdateCell row c v :: cell_writes row r)
      with ([UpdateCell row c v] ++ cell_writes row r).
    by rewrite <- commit_app.
Qed.

Lemma slot_of_bound σ slot :
  slot_of σ = Ok (Some slot) ->
  exists c n, col_get (default [] (_jp_col_map σ)) "product_no" = Some c
    /\ col_get (default [] (_jp_col_map σ)) "name" = Some n
    /\ scan_insertable c n 4 (drop 4 (get_all_values (sheet σ))) = Ok (Some slot).
Proof.
  unfold slot_of. case_bool_decide; [done|].
  destruct (col_get _ "product_no") as [c|]; [|done].
  destruct (col_get _ "name") as [n|]; [|done].
  intros Hscan. by exists c, n.
Qed.

Lemma cell_at_trimmed row c x : cell_at row c = Ok x -> strip x = x.
Proof.
  unfold cell_at. destruct (_ <=? _).
  - destruct (py_getitem _ _); [|done]. intros [= <-]. apply strip_idemp.
  - intros [= <-]. apply strip_idemp.
Qed.

Lemma scan_insertable_trimmed c n i rows r pno :
  scan_insertable c n i rows = Ok (Some (r, pno)) -> strip pno = pno /\ pno <> [].
Proof.
  revert i. induction rows as [|row rows IH]; intros i; simpl; [done|].
  unfold mbind, result_bind.
  destruct (cell_at row c) as [x|] eqn:Ex; [|done].
  destruct (cell_at row n) as [y|] eqn:Ey; [|done].
  destruct (negb _ && _) eqn:E.
  - intros [= <- <-]. split; [by eapply cell_at_trimmed|].
    apply andb_true_iff in E as [E _]. apply negb_true_iff in E.
    by apply bool_decide_eq_false in E.
  - apply IH.
Qed.

Lemma setdefault_ne k v d k' :
  k <> k' -> setdefault k v d !! k' = d !! k'.
Proof.
  intros Hne. unfold setdefault. destruct (d !! k); [done|].
  by rewrite lookup_insert_ne.
Qed.

Lemma create_data_product_no payload v :
  create_data payload v !! "product_no" = Some v.
Proof.
  unfold create_data. rewrite !setdefault_ne by done. apply lookup_insert_eq.
Qed.

Lemma create_product_slot payload σ row pno c :
  slot_of (opened σ) = Ok (Some (row, pno)) ->
  col_get (default [] (_jp_col_map (opened σ))) "product_no" = Some c ->
  let v := chosen_number payload pno in
  let col := default [] (_jp_col_map (opened σ)) in
  create_product payload σ =
    match from_row (create_data payload v) with
    | Raise e => (Raise e, opened σ)
    | Ok product =>
        let σ2 := commit (number_write row c v) (opened σ) in
        match _apply_updates_to_jp_row col product (listed_if_listed product) with
        | Raise e => (Raise e, σ2)
        | Ok updates => finish row product (commit (cell_writes row updates) σ2)
        end
    end.
Proof.
  intros Hslot Hc. cbv zeta.
  destruct (open_worksheet_spec σ) as (_ & _ & _ & Hw).
  unfold create_product, chosen_number, create_data.
  unfold mbind at 1, M_bind at 1. rewrite find_insertable_run, Hslot.
  unfold mbind at 1, M_bind at 1.
  destruct (truthy _); unfold mret at 1, M_ret at 1;
  ( unfold mbind at 1, M_bind at 1, lift at 1;
    destruct (from_row _) as [product|e]; [|done];
    unfold mbind at 1, M_bind at 1; rewrite (open_worksheet_opened _ Hw);
    unfold mbind at 1, M_bind at 1;
    rewrite find_insertable_run, opened_opened, Hslot;
    unfold mbind at 1, M_bind at 1;
    unfold mbind at 1, M_bind at 1, the_col_map at 1;
    rewrite Hc;
    unfold mbind at 1, M_bind at 1;
    match goal with
    | |- context [(if c =? 0 then mret () else ws_update_cell row c ?v) _] =>
        assert ((if c =? 0 then mret () else ws_update_cell row c v) (opened σ)
                = (Ok tt, commit (number_write row c v) (opened σ))) as ->
          by (unfold number_write; destruct (c =? 0);
              [by rewrite commit_nil|reflexivity])
    end;
    unfold mbind at 1, M_bind at 1, lift at 1;
    destruct (_apply_updates_to_jp_row _ product _) as [updates|e]; [|done];
    rewrite write_cells_run;
    unfold mbind at 1, M_bind at 1, ws_get_all_values at 1;
    unfold finish; destruct (_ <=? _); [|done];
    by destruct (py_getitem _ _) ).
Qed.

Lemma finish_product row product σ p σ' :
  finish row product σ = (Ok p, σ') ->
  σ' = σ /\ (p = product \/ exists rev, p = set_revision product rev).
Proof.
  unfold finish. destruct (_ <=? _).
  - destruct (py_getitem _ _) as [rv|]; [|done].
    intros [= <- <-]. split; [done|]. right. by eexists.
  - intros [= <- <-]. split; [done|]. by left.
Qed.

(* What a successful create_product did when a slot was there. *)
Lemma create_product_slot_inv payload σ row pno c p σ' :
  slot_of (opened σ) = Ok (Some (row, pno)) ->
  col_get (default [] (_jp_col_map (opened σ))) "product_no" = Some c ->
  create_product payload σ = (Ok p, σ') ->
  exists product updates,
    from_row (create_data payload (chosen_number payload pno)) = Ok product
    /\ _apply_updates_to_jp_row (default [] (_jp_col_map (opened σ))) product
         (listed_if_listed product) = Ok updates
    /\ σ' = commit (cell_writes row updates)
              (commit (number_write row c (chosen_number payload pno)) (opened σ))
    /\ (p = product \/ exists rev, p = set_revision product rev).
Proof.
  intros Hslot Hc. rewrite (create_product_slot _ _ _ _ _ Hslot Hc). cbv zeta.
  destruct (from_row _) as [product|e] eqn:Hfrom; [|done].
  destruct (_apply_updates_to_jp_row _ _ _) as [updates|e] eqn:Hupd; [|done].
  intros [-> Hp]%finish_product. by exists product, updates.
Qed.

Lemma created_number σ payload row pno p σ' :
  slot_of (opened σ) = Ok (Some (row, pno)) ->
  create_product payload σ = (Ok p, σ') ->
  product_no p = strip (py_str (chosen_number payload pno)).
Proof.
  intros Hslot Hcreate.
  destruct (slot_of_bound _ _ Hslot) as (c & n & Hc & _ & Hscan).
  destruct (create_product_slot_inv _ _ _ _ _ _ _ Hslot Hc Hcreate)
    as (product & updates & Hfrom & _ & _ & Hp).
  assert (product_no p = product_no product) as ->
    by (by destruct Hp as [->|[rev ->]]).
  unfold from_row in Hfrom. apply post_init_fields in Hfrom as (-> & _).
  simpl. unfold dict_get. by rewrite create_data_product_no.
Qed.

(** C2 (amended): when create_product finds an insertable slot and returns
    a record, the record's product number is the trimmed text of the number
    create_product settles on, which is the payload's product_no when that
    is truthy and the slot's number otherwise; so a payload with no product
    number (absent, None or empty) gets the slot's existing number. *)
Theorem slot_number_reused (σ : state W) (payload : gmap string PyVal)
    (row : Z) (pno : str) (p : Product) (σ' : state W) :
  slot_of (opened σ) = Ok (Some (row, pno)) ->
  create_product payload σ = (Ok p, σ') ->
  product_no p = strip (py_str (chosen_number payload pno))
  /\ (truthy (dict_get payload "product_no" VNone) = false ->
      product_no p = pno).
Proof.
  intros Hslot Hcreate.
  pose proof (created_number _ _ _ _ _ _ Hslot Hcreate) as Hno.
  split; [done|]. intros Hf. rewrite Hno.
  unfold chosen_number. rewrite Hf, py_str_VStr.
  destruct (slot_of_bound _ _ Hslot) as (c & n & _ & _ & Hscan).
  by apply scan_insertable_trimmed in Hscan as [? _].
Qed.

Lemma dict_set_Forall (P : Z * PyVal -> Prop) d k v :
  Forall P d -> P (k, v) -> Forall P (dict_set d k v).
Proof.
  intros Hd Hk. induction Hd as [|[k' v'] d Hx Hd IH]; simpl.
  - by constructor.
  - destruct (k' =? k); by constructor.
Qed.

Lemma set_if_bound_other col key v updates :
  key <> "product_no" ->
  Forall (fun cv => other_bound col cv.1) updates ->
  Forall (fun cv => other_bound col cv.1) (set_if_bound col key v updates).
Proof.
  intros Hk Hu. unfold set_if_bound.
  destruct (col_get col key) as [c|] eqn:E; [|done].
  destruct (c =? 0); [done|].
  apply dict_set_Forall; [done|]. by exists key.
Qed.

Lemma apply_updates_other col p listed updates :
  _apply_updates_to_jp_row col p listed = Ok updates ->
  Forall (fun cv => other_bound col cv.1) updates.
Proof.
  unfold _apply_updates_to_jp_row, mbind, result_bind.
  destruct (bound col "handling_fee"); [done|].
  intros [= <-].
  repeat (apply set_if_bound_other; [done|]). constructor.
Qed.

(** C9 (amended): a create_product call that fills an insertable slot
    writes the product-number cell of the slot row once, first, with the
    number it settled on (whose trimmed text is the record's product
    number), and then only cells of that row in columns bound to the other
    fields. *)
Theorem slot_fill_writes (σ : state W) (payload : gmap string PyVal)
    (row : Z) (pno : str) (c : Z) (p : Product) (σ' : state W) :
  slot_of (opened σ) = Ok (Some (row, pno)) ->
  col_get (default [] (_jp_col_map (opened σ))) "product_no" = Some c ->
  c <> 0 ->
  create_product payload σ = (Ok p, σ') ->
  exists updates,
    _apply_updates_to_jp_row (default [] (_jp_col_map (opened σ))) p
      (listed_if_listed p) = Ok updates
    /\ writes σ' = writes σ
                   ++ UpdateCell row c (chosen_number payload pno)
                   :: cell_writes row updates
    /\ strip (py_str (chosen_number payload pno)) = product_no p
    /\ Forall (fun cv => other_bound (default [] (_jp_col_map (opened σ))) cv.1)
         updates.
Proof.
  intros Hslot Hc Hc0 Hcreate.
  pose proof (created_number _ _ _ _ _ _ Hslot Hcreate) as Hno.
  destruct (create_product_slot_inv _ _ _ _ _ _ _ Hslot Hc Hcreate)
    as (product & updates & Hfrom & Hupd & -> & Hp).
  destruct (open_worksheet_spec σ) as (_ & _ & Hw & _).
  exists updates. split; [|split; [|split]].
  - by destruct Hp as [->|[rev ->]].
  - simpl. rewrite Hw. unfold number_write.
    destruct (Z.eqb_spec c 0); [done|]. by rewrite <- app_assoc.
  - done.
  - by eapply apply_updates_other.
Qed.

End repository_facts.
(* --------------------------------------------------------------------- *)
(* 12. The properties on concrete sheets and records                      *)
(* --------------------------------------------------------------------- *)

Lemma succeeds_value {A} (d : A) (r : result A) :
  succeeds r = true -> r = Ok (value_or d r).
Proof. by destruct r. Qed.

Lemma succeeds_Ok {A} (r : result A) :
  succeeds r = true -> exists a, r = Ok a.
Proof. destruct r as [a|e]; [by exists a|done]. Qed.

Lemma fails_Raise {A} (r : result A) :
  succeeds r = false -> exists e, r = Raise e.
Proof. destruct r as [a|e]; [done|by exists e]. Qed.

Section concrete.
Import Reference Example.

(** Counterexample to C2 as stated: row 5 is an insertable slot holding
    P00007, the payload asks for X1, and the returned record is numbered
    X1. *)
Lemma caller_number_overrides_slot :
  slot_of (opened (fresh slot_sheet)) = Ok (Some (5, u "P00007"))
  /\ exists p σ',
       create_product (<["product_no" := VStr (u "X1")]> jacket)
         (fresh slot_sheet) = (Ok p, σ')
       /\ product_no p = u "X1" /\ product_no p <> u "P00007".
Proof.
  split; [vm_compute; reflexivity|].
  vm_compute. eexists _, _. split; [reflexivity|]. split; [reflexivity|].
  discriminate.
Qed.

Lemma slot_number_reused_witness :
  slot_of (opened (fresh slot_sheet)) = Ok (Some (5, u "P00007"))
  /\ truthy (dict_get jacket "product_no" VNone) = false
  /\ exists p σ',
       create_product jacket (fresh slot_sheet) = (Ok p, σ')
       /\ product_no p = u "P00007".
Proof.
  assert (slot_of (opened (fresh slot_sheet)) = Ok (Some (5, u "P00007")))
    as Hslot by (vm_compute; reflexivity).
  assert (exists p σ', create_product jacket (fresh slot_sheet) = (Ok p, σ'))
    as (p & σ' & E) by (vm_compute; by eexists _, _).
  split; [exact Hslot|]. split; [reflexivity|].
  exists p, σ'. split; [exact E|].
  exact (proj2 (slot_number_reused _ _ _ _ _ _ Hslot E) eq_refl).
Defined.

(** Counterexample to C9 as stated: filling the slot of row 5 writes the
    product-number cell (column 1) of that row. *)
Lemma slot_number_cell_written :
  slot_of (opened (fresh slot_sheet)) = Ok (Some (5, u "P00007"))
  /\ col_get (default [] (_jp_col_map (opened (fresh slot_sheet)))) "product_no"
     = Some 1
  /\ exists p σ',
       create_product jacket (fresh slot_sheet) = (Ok p, σ')
       /\ UpdateCell 5 1 (VStr (u "P00007")) ∈ writes σ'.
Proof.
  split; [vm_compute; reflexivity|]. split; [vm_compute; reflexivity|].
  vm_compute. eexists _, _. split; [reflexivity|]. apply list_elem_of_here.
Qed.

Lemma slot_fill_writes_witness :
  slot_of (opened (fresh slot_sheet)) = Ok (Some (5, u "P00007"))
  /\ col_get (default [] (_jp_col_map (opened (fresh slot_sheet)))) "product_no"
     = Some 1
  /\ 1 <> 0
  /\ exists p σ' updates,
       create_product jacket (fresh slot_sheet) = (Ok p, σ')
       /\ writes σ' = UpdateCell 5 1 (VStr (u "P00007")) :: cell_writes 5 updates.
Proof.
  assert (slot_of (opened (fresh slot_sheet)) = Ok (Some (5, u "P00007")))
    as Hslot by (vm_compute; reflexivity).
  assert (col_get (default [] (_jp_col_map (opened (fresh slot_sheet))))
            "product_no" = Some 1) as Hcol by (vm_compute; reflexivity).
  assert (exists p σ', create_product jacket (fresh slot_sheet) = (Ok p, σ'))
    as (p & σ' & E) by (vm_compute; by eexists _, _).
  split; [exact Hslot|]. split; [exact Hcol|]. split; [lia|].
  destruct (slot_fill_writes _ _ _ _ _ _ _ Hslot Hcol ltac:(lia) E)
    as (updates & _ & Hw & _).
  exists p, σ', updates. split; [exact E|]. exact Hw.
Defined.

(** Counterexample to C3 as stated: a record built with the name " Jacket"
    comes back from from_row (to_row ...) with the name "Jacket". *)
Lemma round_trip_trims_name :
  exists p, __post_init__ spaced_args = Ok p /\ calendar p
    /\ ~ (exists q, from_row (to_row p) = Ok q /\ same_record p q).
Proof.
  exists (built (u " Jacket")). split; [vm_compute; reflexivity|].
  split; [by repeat split|].
  intros (q & Hq & _ & Hn & _). vm_compute in Hq. injection Hq as <-.
  discriminate Hn.
Qed.

Lemma from_row_to_row_witness :
  exists p, __post_init__ jacket_args = Ok p /\ calendar p /\ tidy p
    /\ exists q, from_row (to_row p) = Ok q /\ same_record p q.
Proof.
  assert (__post_init__ jacket_args = Ok (built (u "Jacket"))) as E
    by (vm_compute; reflexivity).
  assert (calendar (built (u "Jacket"))) as Hc by (by repeat split).
  assert (tidy (built (u "Jacket"))) as Ht by (by repeat split).
  exists (built (u "Jacket")).
  split; [exact E|]. split; [exact Hc|]. split; [exact Ht|].
  exact (from_row_to_row jacket_args _ E Hc Ht).
Defined.

(* A year of three digits after the second slash is none of the shapes the
   specification lists, yet the text is not mapped to an absent value. *)
Lemma three_digit_year_accepted :
  strip (u "1/2/123") = u "1/2/123" /\ ~ listed_shape (u "1/2/123")
  /\ _to_iso_date (VStr (u "1/2/123")) = Ok (Some (u "123-01-02")).
Proof.
  split; [reflexivity|]. split; [|reflexivity].
  assert (forall g c r, digits 1 2 g -> is_d c = false ->
            u "1/2/123" = g ++ c :: r ->
            g = u "1" /\ c = SLASH /\ r = u "2/123") as Hfirst.
  { intros g c r [D _] Hc E. symmetry in E.
    apply (span_unique g c r (u "1") SLASH (u "2/123")) in E; done. }
  intros [(y & m & d & [D _] & _ & _ & E)
         |[(m & d & D1 & [D2 _] & E)
          |[(m & d & y & (D1 & D2 & [D3 L3] & E) & Hl)
           |(m & d & rest & D1 & _ & E)]]].
  - symmetry in E.
    apply (span_unique y HYPHEN _ (u "1") SLASH (u "2/123")) in E; try done.
    by destruct E as (_ & ? & _).
  - apply Hfirst in E as (_ & _ & ->); [|done..]. discriminate D2.
  - apply Hfirst in E as (_ & _ & E); [|done..].
    symmetry in E. change (u "2/123") with (u "2" ++ SLASH :: u "123") in E.
    apply span_unique in E as (_ & _ & <-); try done; [|by destruct D2].
    simpl in Hl. lia.
  - apply Hfirst in E as (_ & ? & _); [done|done|].
    unfold is_d. by rewrite py_todecimal_cjk.
Qed.

Lemma to_iso_date_two_digit_year :
  mdy_shape (strip (u " 3/4/49 ")) (u "3") (u "4") (u "49")
  /\ _to_iso_date (VStr (u " 3/4/49 ")) = Ok (Some (u "2049-03-04")).
Proof.
  assert (mdy_shape (strip (u " 3/4/49 ")) (u "3") (u "4") (u "49")) as Hs
    by (repeat split; simpl; lia).
  split; [exact Hs|].
  exact (proj1 (proj2 (proj2 (proj2 (proj2
           (to_iso_date_cases (u " 3/4/49 ")))))) (u "3") (u "4") (u "49") Hs).
Defined.

Lemma profit_absent_or_margin_witness :
  exists p, __post_init__ jacket_args = Ok p /\ sale_price p = Some 9000
    /\ profit p = Some 4000.
Proof.
  exists (built (u "Jacket")). split; [vm_compute; reflexivity|].
  assert (sale_price (built (u "Jacket")) = Some 9000) as Hs by reflexivity.
  split; [exact Hs|].
  exact (proj2 (profit_absent_or_margin (built (u "Jacket"))) 9000 Hs).
Defined.

Lemma stale_revision_rejected_witness :
  locate_row (opened (fresh coat_sheet)) (u "P00007") = Ok (5, coat_row)
  /\ _row_revision coat_row <> u "stale"
  /\ update_product (u "P00007") sold_update (u "stale") (fresh coat_sheet)
     = (Raise ExternalUpdateDetectedError, opened (fresh coat_sheet))
  /\ writes (opened (fresh coat_sheet)) = [].
Proof.
  assert (locate_row (opened (fresh coat_sheet)) (u "P00007") = Ok (5, coat_row))
    as Hl by (vm_compute; reflexivity).
  assert (_row_revision coat_row <> u "stale") as Hr
    by (vm_compute; discriminate).
  split; [exact Hl|]. split; [exact Hr|].
  destruct (proj1 (stale_revision_rejected (fresh coat_sheet) (u "P00007")
                     sold_update (u "stale")) 5 coat_row Hl Hr)
    as (Hu & Hw & _).
  split; [exact Hu|exact Hw].
Defined.

Lemma invalid_merge_aborts_witness :
  exists msg,
    update_product (u "P00007") bogus_update (_row_revision coat_row)
      (fresh coat_sheet)
    = (Raise (ValueError msg), opened (fresh coat_sheet))
    /\ writes (opened (fresh coat_sheet)) = [].
Proof.
  assert (locate_row (opened (fresh coat_sheet)) (u "P00007") = Ok (5, coat_row))
    as Hl by (vm_compute; reflexivity).
  assert (succeeds (jp_record
            (default [] (_jp_col_map (opened (fresh coat_sheet)))) coat_row)
          = true) as Hrec by (vm_compute; reflexivity).
  apply (succeeds_value ∅) in Hrec.
  assert (from_row (value_or ∅ (jp_record
            (default [] (_jp_col_map (opened (fresh coat_sheet)))) coat_row))
          = Ok coat_product) as Hcur by (vm_compute; reflexivity).
  assert (succeeds (from_row (merged_row coat_product (u "P00007") bogus_update))
          = false) as Hm by (vm_compute; reflexivity).
  apply fails_Raise in Hm as [e Hm].
  destruct (invalid_merge_aborts _ _ _ _ _ _ _ _ Hl Hrec Hcur Hm)
    as (Hu & [msg ->] & Hw & _).
  exists msg. split; [exact Hu|exact Hw].
Defined.

Lemma three_digit_year_unpadded_witness :
  mdy_shape (strip (u "1/2/123")) (u "1") (u "2") (u "123")
  /\ 100 <= dval (u "123") < 1000
  /\ _to_iso_date (VStr (u "1/2/123")) = Ok (Some (u "123-01-02"))
  /\ _to_date (VStr (u "123-01-02")) "listed_date" false
     = Raise (ValueError "listed_date must be YYYY-MM-DD").
Proof.
  assert (mdy_shape (strip (u "1/2/123")) (u "1") (u "2") (u "123")) as Hs
    by (repeat split; simpl; lia).
  assert (100 <= dval (u "123") < 1000) as Hy
    by (vm_compute; split; [discriminate|reflexivity]).
  split; [exact Hs|]. split; [exact Hy|]. split; [|vm_compute; reflexivity].
  exact (proj1 (three_digit_year_unpadded (u "1/2/123") (u "1") (u "2")
                  (u "123") Hs Hy)).
Defined.

(** Counterexample to C10 as stated: the value " 出品済 " is not empty and is
    none of the three labels, yet from_row accepts the row and reads the
    status 出品済; and a row map without a sale status is not accepted for
    that alone: from_row raises on the empty map. *)
Lemma padded_status_accepted :
  u " 出品済 " <> []
  /\ str_in (u " 出品済 ") ALLOWED_SALE_STATUS = false
  /\ (exists p, from_row (<["sale_status" := VStr (u " 出品済 ")]> jacket_row)
                = Ok p /\ sale_status p = LISTED)
  /\ (∅ : gmap string PyVal) !! "sale_status" = None
  /\ exists msg, from_row ∅ = Raise (ValueError msg).
Proof.
  split; [discriminate|]. split; [vm_compute; reflexivity|]. split.
  - assert (succeeds (from_row
              (<["sale_status" := VStr (u " 出品済 ")]> jacket_row)) = true)
      as Hs by (vm_compute; reflexivity).
    apply succeeds_Ok in Hs as [p E]. exists p. split; [exact E|].
    assert (sale_status (value_or (built []) (from_row
              (<["sale_status" := VStr (u " 出品済 ")]> jacket_row))) = LISTED)
      as Hl by (vm_compute; reflexivity).
    rewrite E in Hl. exact Hl.
  - split; [reflexivity|].
    destruct (from_row ∅) as [p|e] eqn:E.
    + assert (succeeds (from_row ∅) = false) as Hf by (vm_compute; reflexivity).
      rewrite E in Hf. discriminate Hf.
    + destruct (from_row_raises _ _ E) as [msg ->]. by exists msg.
Qed.

Lemma sale_status_default_or_reject_witness :
  blank_status (<["sale_status" := VStr (u "  ")]> jacket_row)
  /\ (exists p, from_row (<["sale_status" := VStr (u "  ")]> jacket_row) = Ok p
               /\ sale_status p = NOT_LISTED)
  /\ (exists p, from_row (<["sale_status" := VStr (u " 出品済 ")]> jacket_row)
                = Ok p /\ sale_status p = LISTED)
  /\ (exists msg, from_row (<["sale_status" := VStr (u "bogus")]> jacket_row)
                  = Raise (ValueError msg))
  /\ (exists msg, from_row (<["sale_status" := VNone]> jacket_row)
                  = Raise (ValueError msg)).
Proof.
  assert (blank_status (<["sale_status" := VStr (u "  ")]> jacket_row)) as Hb
    by (vm_compute; reflexivity).
  assert (succeeds (from_row (<["sale_status" := VStr (u "  ")]> jacket_row))
          = true) as Hs by (vm_compute; reflexivity).
  apply succeeds_Ok in Hs as [p E].
  assert (succeeds (from_row (<["sale_status" := VStr (u " 出品済 ")]> jacket_row))
          = true) as Hs' by (vm_compute; reflexivity).
  apply succeeds_Ok in Hs' as [q E'].
  assert (str_in (strip (py_str (VStr (u " 出品済 ")))) ALLOWED_SALE_STATUS
          = true) as Hin by (vm_compute; reflexivity).
  assert (strip (py_str (VStr (u " 出品済 "))) = LISTED) as Hl
    by (vm_compute; reflexivity).
  split; [exact Hb|]. split; [|split; [|split]].
  - exists p. split; [exact E|].
    exact (proj2 (proj1 (sale_status_default_or_reject _) Hb) p E).
  - exists q. split; [exact E'|]. rewrite <- Hl.
    exact (proj2 (proj1 (proj2 (sale_status_default_or_reject _))
                   (VStr (u " 出品済 ")) (lookup_insert_eq _ _ _) Hin) q E').
  - apply (proj1 (proj2 (proj2 (sale_status_default_or_reject
                    (<["sale_status" := VStr (u "bogus")]> jacket_row))))
             (VStr (u "bogus"))); by vm_compute.
  - exact (proj2 (proj2 (proj2 (sale_status_default_or_reject
                    (<["sale_status" := VNone]> jacket_row))))
             (lookup_insert_eq _ _ _)).
Defined.

End concrete.

(* ===================================================================== *)
(* 13. More of the code: properties                                      *)
(* ===================================================================== *)

Section record_facts.
Context `{R : PyRuntime}.

(** X2: a record from_row returns has a non-empty product number, name and
    store name without surrounding blanks, one of the three status labels,
    prices and shipping cost that are not negative, a sales channel that is
    absent or a non-empty trimmed text, a trimmed revision and no
    updated_at. *)
Theorem from_row_record_valid (row : gmap string PyVal) (p : Product) :
  from_row row = Ok p ->
  checked p /\ tidy p /\ trimmed (revision p) /\ updated_at p = None.
Proof.
  intros H. split; [by eapply post_init_checked|].
  pose proof H as F. unfold from_row in F.
  apply post_init_fields in F as (Fno & Fname & Fstore & _ & Fch & _ & Frev).
  simpl in *.
  assert (updated_at p = None) as Hu.
  { unfold from_row, __post_init__, mbind, result_bind in H.
    bind_inv H. by injection H as <-. }
  split; [|split; [|done]].
  - unfold tidy, trimmed. rewrite Fno, Fname, Fstore, Fch.
    rewrite !strip_idemp. repeat split.
    unfold nonempty. case_bool_decide; [done|]. split; [done|apply strip_idemp].
  - unfold trimmed. rewrite Frev. apply strip_idemp.
Qed.

(** X3: from_row reads thirteen keys of the row map and no other: setting
    or deleting any other key, such as handling_fee or updated_at, changes
    neither the record it returns nor the error it raises. *)
Theorem from_row_ignores_other_keys (row : gmap string PyVal) (k : string)
    (v : PyVal) :
  k ∉ FROM_ROW_KEYS ->
  from_row (<[k := v]> row) = from_row row
  /\ from_row (delete k row) = from_row row.
Proof.
  unfold FROM_ROW_KEYS. rewrite !not_elem_of_cons. intros Hk.
  destruct Hk as (?&?&?&?&?&?&?&?&?&?&?&?&?&_).
  unfold from_row, dict_get.
  split.
  - by rewrite !lookup_insert_ne by done.
  - by rewrite !lookup_delete_ne by done.
Qed.

(** X4: the field converters read back what to_row writes: _to_date gives d
    for the date d and for its ISO text when d is a date of the calendar,
    and _to_int gives z for the integer z and for its decimal text. *)
Theorem converters_read_back (d : date) (z : Z) (f : string) (req : bool) :
  valid_date d = true ->
  _to_date (VDate d) f req = Ok (Some d)
  /\ _to_date (VStr (isoformat d)) f req = Ok (Some d)
  /\ _to_int (VInt z) f req = Ok (Some z)
  /\ _to_int (VStr (str_of_int z)) f req = Ok (Some z).
Proof.
  intros Hv. split; [reflexivity|]. split; [by apply to_date_isoformat|].
  split; [reflexivity|].
  unfold _to_int.
  assert (is_blank (VStr (str_of_int z)) = false) as ->.
  { pose proof (str_of_int_nonempty z). simpl. by destruct (str_of_int z). }
  by rewrite py_int_str_of_int.
Qed.

End record_facts.

Section layout_facts.
Context `{R : PyRuntime} {W : Type} `{WS : Worksheet W}.

Lemma col_get_app m k c key :
  col_get (m ++ [(k, c)]) key
  = match col_get m key with
    | Some c' => Some c'
    | None => if bool_decide (k = key) then Some c else None
    end.
Proof.
  induction m as [|[k' c'] m IH]; simpl; [done|].
  destruct (bool_decide (k' = key)); [done|exact IH].
Qed.

Lemma assoc_head {A} k (v : A) r key :
  assoc key ((k, v) :: r) = if bool_decide (k = key) then Some v else assoc key r.
Proof.
  simpl. destruct (String.eqb_spec k key); by case_bool_decide.
Qed.

Lemma apart_tail k names r key names' h :
  apart ((k, names) :: r) = true -> assoc key r = Some names' ->
  k <> key /\ (str_in h names = true -> str_in h names' = false).
Proof.
  simpl. intros [Hall _]%andb_true_iff. rewrite forallb_forall in Hall.
  intros Ha.
  assert (In (key, names') r) as Hin.
  { clear Hall. induction r as [|[k' v] r IH]; [done|].
    rewrite assoc_head in Ha. case_bool_decide.
    - injection Ha as ->. subst. by left.
    - right. by apply IH. }
  apply Hall in Hin. simpl in Hin.
  apply andb_true_iff in Hin as [Hk Hn]. split.
  - apply negb_true_iff in Hk. intros ->. by rewrite String.eqb_refl in Hk.
  - intros Hh. rewrite forallb_forall in Hn.
    unfold str_in in Hh. apply existsb_exists in Hh as (x & Hx & Hhx).
    unfold str_eqb in Hhx. apply bool_decide_eq_true in Hhx as <-.
    apply Hn in Hx. by apply negb_true_iff in Hx.
Qed.

Lemma apart_cons k names r : apart ((k, names) :: r) = true -> apart r = true.
Proof. simpl. by intros [_ ?]%andb_true_iff. Qed.

Lemma bind_header_get h idx hs m key :
  apart hs = true ->
  col_get (bind_header h idx hs m) key
  = match col_get m key with
    | Some c => Some c
    | None =>
        match assoc key hs with
        | Some names => if str_in h names then Some (idx + 1) else None
        | None => None
        end
    end.
Proof.
  induction hs as [|[k names] r IH]; intros Hap; simpl bind_header.
  - simpl. by destruct (col_get m key).
  - specialize (IH (apart_cons _ _ _ Hap)). rewrite assoc_head.
    destruct (col_get m k) as [c|] eqn:Ek.
    + rewrite IH. destruct (bool_decide_reflect (k = key)) as [<-|Hne]; [|done].
      by rewrite Ek.
    + destruct (str_in h names) eqn:Eh.
      * rewrite col_get_app. destruct (col_get m key) as [c|]; [done|].
        destruct (bool_decide_reflect (k = key)) as [<-|Hne]; [by rewrite Eh|].
        destruct (assoc key r) as [names'|] eqn:Ea; [|done].
        destruct (apart_tail _ _ _ _ _ h Hap Ea) as [_ Hd].
        by rewrite (Hd Eh).
      * rewrite IH. destruct (bool_decide_reflect (k = key)) as [<-|Hne]; [|done].
        rewrite Ek, Eh.
        destruct (assoc k r) as [names'|] eqn:Ea; [|done].
        by destruct (apart_tail _ _ _ _ _ h Hap Ea) as [? _].
Qed.

Lemma bind_headers_get idx row3 m key :
  col_get (bind_headers idx row3 m) key
  = match col_get m key with
    | Some c => Some c
    | None => names ← assoc key JP_HEADERS; first_header names idx row3
    end.
Proof.
  assert (apart JP_HEADERS = true) as Hap by (vm_compute; reflexivity).
  revert idx m. induction row3 as [|raw r IH]; intros idx m;
    cbn [bind_headers].
  - destruct (col_get m key); [done|]. by destruct (assoc key JP_HEADERS).
  - rewrite IH, (bind_header_get _ _ _ _ _ Hap).
    destruct (col_get m key) as [c|]; [done|].
    fold (header_text raw).
    destruct (assoc key JP_HEADERS) as [names|]; [|done].
    cbn [mbind option_bind first_header].
    by destruct (str_in (header_text raw) names).
Qed.

Lemma opened_unopened σ :
  unopened σ ->
  _jp_col_map (opened σ) = Some (bind_headers 0 (row_values (sheet σ) 3) []).
Proof.
  unfold unopened, opened, _open_worksheet, _configure_sheet_layout.
  by intros ->.
Qed.

Lemma opened_header_column σ key :
  unopened σ ->
  col_get (default [] (_jp_col_map (opened σ))) key
  = header_column key (row_values (sheet σ) 3).
Proof.
  intros Hu. rewrite (opened_unopened _ Hu). simpl default.
  by rewrite bind_headers_get.
Qed.

(** X5: the first time the worksheet is opened, each field is bound to the
    first cell of header row 3 whose text, without line breaks and
    surrounding blanks, is one of the field's header names; a later cell
    with the same header is ignored, and a field with no such cell stays
    unbound.  _jp_col, called before anything else, opens the worksheet and
    returns that column. *)
Theorem column_map_first_header (σ : state W) (key : string) :
  unopened σ ->
  col_get (default [] (_jp_col_map (opened σ))) key
    = header_column key (row_values (sheet σ) 3)
  /\ (_jp_col_map σ = None ->
      _jp_col key σ
      = (Ok (header_column key (row_values (sheet σ) 3)), opened σ)).
Proof.
  intros Hu. split; [by apply opened_header_column|].
  intros Hm. unfold _jp_col. rewrite bind_run, Hm.
  destruct (open_worksheet_spec σ) as (-> & _).
  rewrite <- (opened_header_column _ key Hu).
  by destruct (_jp_col_map (opened σ)) as [[|kc m]|].
Qed.

Lemma first_header_spec names idx row3 c :
  first_header names idx row3 = Some c ->
  idx < c <= idx + Z.of_nat (length row3)
  /\ exists raw, row3 !! Z.to_nat (c - idx - 1) = Some raw
       /\ str_in (header_text raw) names = true.
Proof.
  revert idx. induction row3 as [|raw r IH]; intros idx; simpl; [done|].
  destruct (str_in (header_text raw) names) eqn:E.
  - intros [= <-]. split; [lia|]. exists raw.
    replace (idx + 1 - idx - 1) with 0 by lia. done.
  - intros H. apply IH in H as (Hb & raw' & Hl & Hin). split; [lia|].
    exists raw'. split; [|done].
    replace (Z.to_nat (c - idx - 1)) with (S (Z.to_nat (c - (idx + 1) - 1)))
      by lia.
    done.
Qed.

Lemma assoc_apart hs k1 k2 n1 n2 h :
  apart hs = true -> assoc k1 hs = Some n1 -> assoc k2 hs = Some n2 ->
  str_in h n1 = true -> str_in h n2 = true -> k1 = k2.
Proof.
  induction hs as [|[k names] r IH]; [done|]. intros Hap.
  rewrite !assoc_head. intros H1 H2 I1 I2.
  destruct (bool_decide_reflect (k = k1)) as [E1|E1];
    destruct (bool_decide_reflect (k = k2)) as [E2|E2].
  - congruence.
  - injection H1 as ->.
    destruct (apart_tail _ _ _ _ _ h Hap H2) as [_ Hd]. by rewrite Hd in I2.
  - injection H2 as ->.
    destruct (apart_tail _ _ _ _ _ h Hap H1) as [_ Hd]. by rewrite Hd in I1.
  - by apply IH; [eapply apart_cons|..].
Qed.

(** X6: a column the opened worksheet binds to a field lies inside header
    row 3, counting from 1, and the header cell there carries one of the
    field's names; no column is bound to two fields. *)
Theorem column_map_sound (σ : state W) (key : string) (c : Z) :
  unopened σ ->
  col_get (default [] (_jp_col_map (opened σ))) key = Some c ->
  1 <= c <= Z.of_nat (length (row_values (sheet σ) 3))
  /\ (exists names raw,
        assoc key JP_HEADERS = Some names
        /\ row_values (sheet σ) 3 !! Z.to_nat (c - 1) = Some raw
        /\ str_in (header_text raw) names = true)
  /\ (forall key', col_get (default [] (_jp_col_map (opened σ))) key' = Some c ->
        key' = key).
Proof.
  intros Hu Hc.
  assert (forall k x, col_get (default [] (_jp_col_map (opened σ))) k = Some x ->
            exists names raw, assoc k JP_HEADERS = Some names
              /\ 1 <= x <= Z.of_nat (length (row_values (sheet σ) 3))
              /\ row_values (sheet σ) 3 !! Z.to_nat (x - 1) = Some raw
              /\ str_in (header_text raw) names = true) as Hall.
  { intros k x Hk. rewrite (opened_header_column _ _ Hu) in Hk.
    unfold header_column in Hk.
    destruct (assoc k JP_HEADERS) as [names|]; [|done]. simpl in Hk.
    apply first_header_spec in Hk as (Hb & raw & Hl & Hin).
    exists names, raw. replace (x - 0 - 1) with (x - 1) in Hl by lia.
    repeat split; try done; lia. }
  destruct (Hall _ _ Hc) as (names & raw & Ha & Hb & Hl & Hin).
  split; [done|]. split; [by exists names, raw|].
  intros key' Hc'.
  destruct (Hall _ _ Hc') as (names' & raw' & Ha' & _ & Hl' & Hin').
  rewrite Hl in Hl'. injection Hl' as <-.
  eapply (assoc_apart JP_HEADERS); [vm_compute; reflexivity|done..].
Qed.

End layout_facts.

Section listing_facts.
Context `{R : PyRuntime} {W : Type} `{WS : Worksheet W}.

Lemma opened_from_one σ :
  unopened σ -> from_one (default [] (_jp_col_map (opened σ))).
Proof.
  intros Hu key c Hc. rewrite (opened_unopened _ Hu) in Hc. simpl default in Hc.
  rewrite bind_headers_get in Hc. cbn [col_get] in Hc.
  destruct (assoc key JP_HEADERS) as [names|]; [|done].
  cbn [mbind option_bind] in Hc.
  apply first_header_spec in Hc as [Hb _]. lia.
Qed.

Lemma cell_from_one col row key :
  from_one col -> exists x, _cell col row key = Ok x.
Proof.
  intros Hc. unfold _cell. destruct (col_get col key) as [idx|] eqn:E;
    [|by eexists].
  apply Hc in E. destruct (Z.ltb_spec (Z.of_nat (length row)) idx);
    [by eexists|].
  unfold py_getitem. rewrite (proj2 (Z.leb_le 0 (idx - 1))) by lia.
  destruct (lookup_lt_is_Some_2 row (Z.to_nat (idx - 1))) as [v ->]; [lia|].
  by eexists.
Qed.

Lemma to_iso_date_returns v : exists r, _to_iso_date v = Ok r.
Proof.
  rewrite to_iso_date_any. destruct (is_blank v); [by eexists|].
  rewrite to_iso_date_eval. by eexists.
Qed.

(* what _to_int_str returns is empty or the text of an integer; what it
   raises is what int(float(...)) raised outside ValueError and TypeError *)
Lemma to_int_str_cases c :
  match _to_int_str (VStr c) with
  | Ok s => s = [] \/ exists z, s = str_of_int z
  | Raise e => c <> [] /\ py_int_float (remove_char 44%N c) = Raise e
               /\ (forall msg, e <> ValueError msg) /\ e <> TypeError
  end.
Proof.
  unfold _to_int_str. rewrite py_str_VStr.
  destruct c as [|a c]; [by left|]. simpl is_blank. cbv iota.
  destruct (py_int_float _) as [z|e]; [right; by exists z|].
  destruct e; try (by left); by repeat split.
Qed.

Lemma int_if_text_returns s :
  s = [] \/ (exists z, s = str_of_int z) -> exists o, int_if_text s = Ok o.
Proof.
  unfold int_if_text. intros [->|[z ->]]; [by eexists|].
  rewrite bool_decide_eq_false_2 by apply str_of_int_nonempty.
  rewrite py_int_str_of_int. by eexists.
Qed.

(* a numeric cell is read, or int(float(...)) raises on it *)
Lemma numeric_cell col row key :
  from_one col -> key ∈ NUMERIC_FIELDS ->
  (exists c s, _cell col row key = Ok c /\ _to_int_str (VStr c) = Ok s
               /\ exists o, int_if_text s = Ok o)
  \/ (exists c e, _cell col row key = Ok c /\ _to_int_str (VStr c) = Raise e
        /\ c <> [] /\ py_int_float (remove_char 44%N c) = Raise e
        /\ (forall msg, e <> ValueError msg) /\ e <> TypeError).
Proof.
  intros Hc Hk. destruct (cell_from_one col row key Hc) as [c Ec].
  pose proof (to_int_str_cases c) as H.
  destruct (_to_int_str (VStr c)) as [s|e] eqn:Es.
  - left. exists c, s. split; [done|]. split; [done|].
    by apply int_if_text_returns.
  - right. exists c, e. by destruct H as (?&?&?&?).
Qed.

(** X7: with columns counted from 1, the only errors _record_from_jp_row
    raises are those int(float(...)) raises, other than ValueError and
    TypeError, on the non-empty text of the sale-price, shipping-cost,
    handling-fee or purchase-price cell; it never raises ValueError, so the
    except clause of list_products never skips a row for it. *)
Theorem record_from_row_errors (col : colmap) (row : list str) (e : exn) :
  from_one col ->
  jp_record col row = Raise e ->
  exists key c,
    key ∈ NUMERIC_FIELDS /\ _cell col row key = Ok c /\ c <> []
    /\ py_int_float (remove_char 44%N c) = Raise e
    /\ (forall msg, e <> ValueError msg) /\ e <> TypeError.
Proof.
  intros Hc H. unfold jp_record, mbind, result_bind in H.
  cbv beta zeta in H.
  assert (forall key, key ∈ NUMERIC_FIELDS ->
            (exists c s o, _cell col row key = Ok c
                           /\ _to_int_str (VStr c) = Ok s /\ int_if_text s = Ok o)
            \/ exists c e', _cell col row key = Ok c
                  /\ _to_int_str (VStr c) = Raise e'
                  /\ (_to_int_str (VStr c) = Raise e -> exists key c,
                        key ∈ NUMERIC_FIELDS /\ _cell col row key = Ok c /\ c <> []
                        /\ py_int_float (remove_char 44%N c) = Raise e
                        /\ (forall msg, e <> ValueError msg) /\ e <> TypeError))
    as Hnum.
  { intros key Hk.
    destruct (numeric_cell col row key Hc Hk)
      as [(c & s & Ec & Es & o & Eo)|(c & e' & Ec & Es & Hne & Hf & Hv & Ht)].
    - left. by exists c, s, o.
    - right. exists c, e'. split; [done|]. split; [done|].
      rewrite Es. intros [= ->]. by exists key, c. }
  assert (forall key, exists c d, _cell col row key = Ok c
                                  /\ _to_iso_date (VStr c) = Ok d) as Hdate.
  { intros key. destruct (cell_from_one col row key Hc) as [c Ec].
    destruct (to_iso_date_returns (VStr c)) as [d Ed]. by exists c, d. }
  destruct (Hdate "purchase_date") as (c1 & d1 & C1 & E1).
  rewrite C1 in H. cbv beta iota in H. rewrite E1 in H. cbv beta iota in H.
  destruct (Hdate "listed_date") as (c2 & d2 & C2 & E2).
  rewrite C2 in H. cbv beta iota in H. rewrite E2 in H. cbv beta iota in H.
  destruct (Hdate "sale_date") as (c3 & d3 & C3 & E3).
  rewrite C3 in H. cbv beta iota in H. rewrite E3 in H. cbv beta iota in H.
  destruct (Hnum "sale_price") as [(c4 & s4 & o4 & C4 & E4 & F4)
                              |(c4 & e4 & C4 & E4 & F4)];
    [unfold NUMERIC_FIELDS; set_solver| |];
    rewrite C4 in H; cbv beta iota in H; rewrite E4 in H; cbv beta iota in H;
    [rewrite F4 in H; cbv beta iota in H|apply F4; congruence].
  destruct (Hnum "shipping_cost") as [(c5 & s5 & o5 & C5 & E5 & F5)
                              |(c5 & e5 & C5 & E5 & F5)];
    [unfold NUMERIC_FIELDS; set_solver| |];
    rewrite C5 in H; cbv beta iota in H; rewrite E5 in H; cbv beta iota in H;
    [rewrite F5 in H; cbv beta iota in H|apply F5; congruence].
  destruct (Hnum "handling_fee") as [(c6 & s6 & o6 & C6 & E6 & F6)
                              |(c6 & e6 & C6 & E6 & F6)];
    [unfold NUMERIC_FIELDS; set_solver| |];
    rewrite C6 in H; cbv beta iota in H; rewrite E6 in H; cbv beta iota in H;
    [rewrite F6 in H; cbv beta iota in H|apply F6; congruence].
  destruct (cell_from_one col row "listed_flag" Hc) as [c7 C7].
  rewrite C7 in H. cbv beta iota in H.
  destruct (cell_from_one col row "product_no" Hc) as [c8 C8].
  rewrite C8 in H. cbv beta iota in H.
  destruct (cell_from_one col row "name" Hc) as [c9 C9].
  rewrite C9 in H. cbv beta iota in H.
  destruct (cell_from_one col row "store_name" Hc) as [c10 C10].
  rewrite C10 in H. cbv beta iota in H.
  destruct (Hnum "purchase_price") as [(c11 & s11 & o11 & C11 & E11 & F11)
                              |(c11 & e11 & C11 & E11 & F11)];
    [unfold NUMERIC_FIELDS; set_solver| |];
    rewrite C11 in H; cbv beta iota in H; rewrite E11 in H; cbv beta iota in H;
    [|apply F11; congruence].
  destruct (cell_from_one col row "sales_channel" Hc) as [c12 C12].
  rewrite C12 in H. cbv beta iota in H.
  discriminate H.
Qed.

Lemma jp_record_keys col row rec :
  jp_record col row = Ok rec ->
  rec !! "is_archived" = None
  /\ exists c, _cell col row "product_no" = Ok c
               /\ rec !! "product_no" = Some (VStr c).
Proof.
  unfold jp_record, mbind, result_bind. intros H.
  bind_inv H. injection H as <-. split.
  - rewrite !lookup_insert_ne by done. apply lookup_empty.
  - eexists. split; [reflexivity|]. apply lookup_insert_eq.
Qed.

Lemma record_not_archived col row rec p :
  jp_record col row = Ok rec -> from_row rec = Ok p -> is_archived p = false.
Proof.
  intros [Ha _]%jp_record_keys Hp. unfold from_row in Hp.
  apply post_init_fields in Hp as (_ & _ & _ & _ & _ & -> & _). simpl.
  unfold dict_get. rewrite Ha. simpl default. rewrite py_str_VStr.
  rewrite py_lower_ascii_upper by constructor. reflexivity.
Qed.

Lemma listed_row_any col b row :
  listed_row col b row = listed_row col true row.
Proof.
  unfold listed_row. destruct (jp_record col row) as [rec|e] eqn:E; [|done].
  destruct (negb _); [done|].
  destruct (from_row rec) as [p|e] eqn:Ep; [|done].
  rewrite (record_not_archived _ _ _ _ E Ep). by destruct b.
Qed.

Lemma listed_rows_any col b rows :
  listed_rows col b rows = listed_rows col true rows.
Proof.
  induction rows as [|row r IH]; simpl; [done|].
  by rewrite listed_row_any, IH.
Qed.

Lemma list_row_run b i row σ :
  _worksheet σ = true ->
  list_row b i row σ = (listed_row (default [] (_jp_col_map σ)) b row, σ).
Proof.
  intros Ho. unfold list_row, except_ValueError, listed_row.
  rewrite bind_run, record_from_jp_row_run by done.
  destruct (jp_record _ row) as [rec|e]; [|by destruct e].
  destruct (negb (truthy _)); [done|].
  rewrite bind_lift. destruct (from_row rec) as [p|e]; [|by destruct e].
  by destruct (negb b && is_archived p).
Qed.

Lemma list_rows_run b i rows σ :
  _worksheet σ = true ->
  list_rows b i rows σ = (listed_rows (default [] (_jp_col_map σ)) b rows, σ).
Proof.
  intros Ho. revert i. induction rows as [|row r IH]; intros i; simpl; [done|].
  rewrite bind_run, list_row_run by done.
  destruct (listed_row _ b row) as [o|e]; [|done]. simpl.
  rewrite bind_run, IH.
  by destruct (listed_rows _ b r).
Qed.

Lemma list_products_run b σ :
  list_products b σ
  = (listed_rows (default [] (_jp_col_map (opened σ))) b
       (drop 4 (get_all_values (sheet σ))), opened σ).
Proof.
  destruct (open_worksheet_spec σ) as (Ho & Hs & _ & Hw).
  unfold list_products, mbind, M_bind, ws_get_all_values, mret, M_ret.
  rewrite Ho. cbv beta iota. rewrite Hs.
  case_bool_decide as Hlen.
  - rewrite drop_ge by lia. done.
  - by rewrite list_rows_run.
Qed.

(** X8: list_products reads and never writes: whatever it returns or
    raises, it leaves the repository as opening the worksheet leaves it,
    with the write log and the sheet of the start. *)
Theorem list_products_reads_only (b : bool) (σ σ' : state W)
    (res : result (list Product)) :
  list_products b σ = (res, σ') ->
  σ' = opened σ /\ writes σ' = writes σ /\ sheet σ' = sheet σ.
Proof.
  rewrite list_products_run. intros [= _ <-].
  destruct (open_worksheet_spec σ) as (_ & Hs & Hw & _). done.
Qed.

(** X9: the include_archived flag of list_products has no effect: a record
    built from a sheet row has no is_archived key, so no product read from
    the sheet is archived and none is filtered out. *)
Theorem include_archived_has_no_effect (σ : state W) :
  list_products false σ = list_products true σ.
Proof. by rewrite !list_products_run, listed_rows_any. Qed.

Lemma listed_rows_products col b rows ps :
  listed_rows col b rows = Ok ps -> ps = omap (row_product col) rows.
Proof.
  revert ps. induction rows as [|row r IH]; intros ps; cbn [listed_rows].
  - by intros [= <-].
  - unfold mbind at 1 2, result_bind.
    destruct (listed_row col b row) as [o|e] eqn:Er; [|done].
    destruct (listed_rows col b r) as [rest|e] eqn:Es; [|done].
    intros [= <-]. specialize (IH rest eq_refl). subst rest.
    change (omap (row_product col) (row :: r))
      with (match row_product col row with
            | Some p => p :: omap (row_product col) r
            | None => omap (row_product col) r
            end).
    unfold listed_row in Er. unfold row_product.
    destruct (jp_record col row) as [rec|e] eqn:E.
    + destruct (truthy _); simpl in Er; [|by injection Er as <-].
      destruct (from_row rec) as [p|e] eqn:Ep.
      * rewrite (record_not_archived _ _ _ _ E Ep), andb_false_r in Er.
        by injection Er as <-.
      * destruct e; try done. by injection Er as <-.
    + destruct e; try done. by injection Er as <-.
Qed.

(** X10: when list_products returns, its list is, in sheet order, the
    records of the rows from row 5 on that have a product number and that
    from_row accepts; the other rows are passed over. *)
Theorem list_products_rows (b : bool) (σ σ' : state W) (ps : list Product) :
  list_products b σ = (Ok ps, σ') ->
  ps = omap (row_product (default [] (_jp_col_map (opened σ))))
         (drop 4 (get_all_values (sheet σ))).
Proof.
  rewrite list_products_run. intros [= H _].
  by eapply listed_rows_products.
Qed.

Lemma listed_rows_fails col b rows row e :
  row ∈ rows -> jp_record col row = Raise e ->
  (forall msg, e <> ValueError msg) ->
  exists e', listed_rows col b rows = Raise e'.
Proof.
  intros Hin Hrec Hne. induction rows as [|row' r IH]; [by inversion Hin|].
  simpl. unfold mbind, result_bind.
  destruct (listed_row col b row') as [o|e'] eqn:Er; [|by eexists].
  apply elem_of_cons in Hin as [<-|Hin].
  - unfold listed_row in Er. rewrite Hrec in Er.
    destruct e; try done. by destruct (Hne msg).
  - destruct (IH Hin) as [e'' ->]. by eexists.
Qed.

(** X11: one row is enough to fail the whole listing: when the record of a
    row from row 5 on raises an error that is no ValueError, as
    int(float(...)) does on an infinite sale price, list_products raises
    instead of returning the other rows. *)
Theorem list_products_fails_on_row (b : bool) (σ : state W) (row : list str)
    (e : exn) :
  row ∈ drop 4 (get_all_values (sheet σ)) ->
  jp_record (default [] (_jp_col_map (opened σ))) row = Raise e ->
  (forall msg, e <> ValueError msg) ->
  exists e', list_products b σ = (Raise e', opened σ).
Proof.
  intros Hin Hrec Hne. rewrite list_products_run.
  destruct (listed_rows_fails _ b _ _ _ Hin Hrec Hne) as [e' ->].
  by exists e'.
Qed.

End listing_facts.

Section number_facts.
Context `{R : PyRuntime} {W : Type} `{WS : Worksheet W}.

Lemma string_of_uint_digits d :
  Forall ascii_digit (bytes_of (NilEmpty.string_of_uint d)).
Proof.
  unfold bytes_of.
  induction d; simpl; constructor; try done; unfold ascii_digit; simpl; lia.
Qed.

Lemma str_of_int_digits z : 0 <= z -> Forall ascii_digit (str_of_int z).
Proof.
  intros Hz. unfold str_of_int. destruct z as [|p|p]; [| |lia].
  - simpl. unfold bytes_of. simpl. constructor; [|constructor].
    unfold ascii_digit. simpl. lia.
  - simpl. unfold NilZero.string_of_uint.
    pose proof (string_of_uint_digits (Pos.to_uint p)) as H.
    destruct (Pos.to_uint p) eqn:E; try exact H.
    by destruct (Unsigned.to_uint_nonnil p).
Qed.

Lemma pad_int_digits w z : 0 <= z -> Forall ascii_digit (pad_int w z).
Proof.
  intros Hz. unfold pad_int. rewrite (proj2 (Z.ltb_ge z 0)) by lia.
  apply Forall_app. split; [|by apply str_of_int_digits].
  apply Forall_forall. intros c Hc%list_elem_of_In%repeat_spec. subst.
  unfold ascii_digit. lia.
Qed.

Lemma pad_int_nonempty w z : pad_int w z <> [].
Proof.
  unfold pad_int. pose proof (str_of_int_nonempty z).
  pose proof (str_of_int_nonempty (- z)).
  destruct (z <? 0); [done|].
  destruct (repeat _ _); simpl; [done|done].
Qed.

Lemma isdigit_padded w z :
  reads_padded -> 0 <= z -> isdigit (pad_int w z) = true.
Proof.
  intros [Hd _] Hz. unfold isdigit.
  rewrite bool_decide_eq_false_2 by apply pad_int_nonempty. simpl.
  apply forallb_forall. intros c Hc%list_elem_of_In.
  apply Hd. pose proof (pad_int_digits w z Hz) as H.
  by eapply Forall_forall in H.
Qed.

Lemma max_seq_of_spec ps m M :
  max_seq_of ps m = Ok M ->
  m <= M
  /\ forall p k, p ∈ ps ->
       startswith (u "P") (product_no p) = true ->
       isdigit (drop 1 (product_no p)) = true ->
       py_int (drop 1 (product_no p)) = Some k -> k <= M.
Proof.
  revert m. induction ps as [|p ps IH]; intros m; cbn [max_seq_of].
  - intros [= <-]. split; [lia|]. intros p k Hp. by inversion Hp.
  - destruct (startswith (u "P") (product_no p)
              && isdigit (drop 1 (product_no p))) eqn:E.
    + destruct (py_int (drop 1 (product_no p))) as [n|] eqn:En; [|done].
      intros H. apply IH in H as [Hm Hall]. split; [lia|].
      intros q k [->|Hq]%elem_of_cons Hs Hd Hk.
      * rewrite En in Hk. injection Hk as <-. lia.
      * by eapply Hall.
    + intros H. apply IH in H as [Hm Hall]. split; [lia|].
      intros q k [->|Hq]%elem_of_cons Hs Hd Hk.
      * by rewrite Hs, Hd in E.
      * by eapply Hall.
Qed.

Lemma next_product_no_run σ :
  _next_product_no σ
  = (ps ← listed_rows (default [] (_jp_col_map (opened σ))) true (data_rows σ);
     max_seq ← max_seq_of ps 0;
     Ok (u "P" ++ pad_int 5 (max_seq + 1)), opened σ).
Proof.
  unfold _next_product_no. rewrite bind_run, list_products_run.
  fold (data_rows σ).
  destruct (listed_rows _ _ _) as [ps|e]; [|done]. simpl.
  rewrite bind_lift. by destruct (max_seq_of ps 0).
Qed.

(** X12: the number _next_product_no returns is P followed by a count of
    five digits or more, and it is the number of no product that
    list_products lists, provided str.isdigit accepts the ASCII digits and
    int() reads a zero-padded numeral. *)
Theorem next_product_no_is_fresh (σ σ' : state W) (n : str) :
  reads_padded ->
  _next_product_no σ = (Ok n, σ') ->
  exists ps max_seq,
    list_products true σ = (Ok ps, σ')
    /\ 0 <= max_seq /\ n = u "P" ++ pad_int 5 (max_seq + 1)
    /\ Forall (fun p => product_no p <> n) ps.
Proof.
  intros Hr. rewrite next_product_no_run, list_products_run.
  fold (data_rows σ).
  destruct (listed_rows _ _ _) as [ps|e]; [|done]. simpl.
  destruct (max_seq_of ps 0) as [M|e] eqn:EM; [|done]. simpl.
  intros [= <- <-]. exists ps, M.
  apply max_seq_of_spec in EM as [HM Hall].
  split; [done|]. split; [done|]. split; [done|].
  apply Forall_forall. intros p Hp Heq.
  assert (M + 1 <= M); [|lia].
  apply (Hall p (M + 1) Hp).
  - by rewrite Heq.
  - rewrite Heq. simpl drop. apply isdigit_padded; [done|lia].
  - rewrite Heq. simpl drop. apply Hr. lia.
Qed.

End number_facts.

Section lookup_facts.
Context `{R : PyRuntime} {W : Type} `{WS : Worksheet W}.

Lemma scan_insertable_spec pc nc i rows r pno :
  scan_insertable pc nc i rows = Ok (Some (r, pno)) ->
  exists k row,
    rows !! k = Some row /\ r = i + Z.of_nat k + 1 /\ slot_row pc nc row pno
    /\ forall k' row' q, (k' < k)%nat -> rows !! k' = Some row' ->
         ~ slot_row pc nc row' q.
Proof.
  revert i. induction rows as [|row rows IH]; intros i; cbn [scan_insertable];
    [done|].
  unfold mbind, result_bind.
  destruct (cell_at row pc) as [x|] eqn:Ex; [|done].
  destruct (cell_at row nc) as [y|] eqn:Ey; [|done]. cbv beta iota.
  destruct (negb _ && _) eqn:E.
  - intros [= <- <-]. exists 0%nat, row. split; [done|]. split; [lia|].
    apply andb_true_iff in E as [E1 E2]. apply negb_true_iff in E1.
    apply bool_decide_eq_false in E1. apply bool_decide_eq_true in E2.
    subst y. split; [done|]. intros k' ? ? Hk. lia.
  - intros H. apply IH in H as (k & row' & Hl & Hr & Hs & Hfirst).
    exists (S k), row'. split; [done|]. split; [lia|]. split; [done|].
    intros [|k'] row'' q Hk Hl'.
    + injection Hl' as <-. intros (Hx & Hne & Hy).
      rewrite Ex in Hx. rewrite Ey in Hy. injection Hx as ->.
      injection Hy as ->.
      rewrite bool_decide_eq_false_2, bool_decide_eq_true_2 in E by done.
      done.
    + apply (Hfirst k'); [lia|done].
Qed.

Lemma scan_insertable_none pc nc i rows row q :
  scan_insertable pc nc i rows = Ok None -> row ∈ rows ->
  ~ slot_row pc nc row q.
Proof.
  revert i. induction rows as [|row' rows IH]; intros i; cbn [scan_insertable].
  - intros _ Hin. by inversion Hin.
  - unfold mbind, result_bind.
    destruct (cell_at row' pc) as [x|] eqn:Ex; [|done].
    destruct (cell_at row' nc) as [y|] eqn:Ey; [|done]. cbv beta iota.
    destruct (negb _ && _) eqn:E;
      [done|].
    intros H [->|Hin]%elem_of_cons; [|by eapply IH].
    intros (Hx & Hne & Hy). rewrite Ex in Hx. rewrite Ey in Hy.
    injection Hx as ->. injection Hy as ->.
    rewrite bool_decide_eq_false_2, bool_decide_eq_true_2 in E by done.
    done.
Qed.

(** X13: the slot _find_first_insertable_jp_row returns is the first row,
    from row 5 on, whose product-number cell is not blank and whose name
    cell is blank, with the trimmed text of its product-number cell; it
    returns None, the two columns bound, only when no such row is there.
    The call writes nothing. *)
Theorem first_insertable_row (σ σ' : state W) (slot : option (Z * str)) :
  _find_first_insertable_jp_row σ = (Ok slot, σ') ->
  σ' = opened σ
  /\ match slot with
     | Some (r, pno) =>
         exists pc nc row,
           col_get (default [] (_jp_col_map σ')) "product_no" = Some pc
           /\ col_get (default [] (_jp_col_map σ')) "name" = Some nc
           /\ 5 <= r
           /\ data_rows σ' !! Z.to_nat (r - 5) = Some row
           /\ slot_row pc nc row pno
           /\ forall r' row' q, 5 <= r' < r ->
                data_rows σ' !! Z.to_nat (r' - 5) = Some row' ->
                ~ slot_row pc nc row' q
     | None =>
         forall pc nc row q,
           col_get (default [] (_jp_col_map σ')) "product_no" = Some pc ->
           col_get (default [] (_jp_col_map σ')) "name" = Some nc ->
           row ∈ data_rows σ' -> ~ slot_row pc nc row q
     end.
Proof.
  rewrite find_insertable_run. intros [= Hslot <-]. split; [done|].
  unfold data_rows. unfold slot_of in Hslot.
  destruct slot as [[r pno]|].
  - case_bool_decide; [done|].
    destruct (col_get _ "product_no") as [pc|]; [|done].
    destruct (col_get _ "name") as [nc|]; [|done].
    apply scan_insertable_spec in Hslot as (k & row & Hl & -> & Hs & Hfirst).
    exists pc, nc, row. split; [done|]. split; [done|]. split; [lia|].
    split; [by replace (Z.to_nat (4 + Z.of_nat k + 1 - 5)) with k by lia|].
    split; [done|]. intros r' row' q Hr' Hl'.
    apply (Hfirst (Z.to_nat (r' - 5))); [lia|done].
  - intros pc nc row q Hpc Hnc Hin.
    case_bool_decide as Hlen.
    + rewrite drop_ge in Hin by lia. by inversion Hin.
    + rewrite Hpc, Hnc in Hslot. by eapply scan_insertable_none.
Qed.

Lemma find_row_some c pn i rows r :
  find_row c pn i rows = Ok (Some r) ->
  exists k row, rows !! k = Some row /\ r = i + Z.of_nat k + 1
                /\ cell_at row c = Ok pn.
Proof.
  revert i. induction rows as [|row rows IH]; intros i; cbn [find_row]; [done|].
  unfold mbind, result_bind.
  destruct (cell_at row c) as [x|] eqn:Ex; [|done]. cbv beta iota.
  unfold str_eqb. case_bool_decide as E.
  - intros [= <-]. exists 0%nat, row. subst. split; [done|]. split; [lia|done].
  - intros H. apply IH in H as (k & row' & Hl & -> & Hc).
    exists (S k), row'. split; [done|]. split; [lia|done].
Qed.

Lemma find_row_none c pn i rows :
  1 <= c -> (forall row, row ∈ rows -> cell_at row c <> Ok pn) ->
  find_row c pn i rows = Ok None.
Proof.
  intros Hc. revert i. induction rows as [|row rows IH]; intros i Hall;
    cbn [find_row]; [done|].
  unfold mbind, result_bind.
  assert (exists x, cell_at row c = Ok x) as [x Ex].
  { unfold cell_at. destruct (Z.leb_spec c (Z.of_nat (length row)));
      [|by eexists].
    unfold py_getitem. rewrite (proj2 (Z.leb_le 0 (c - 1))) by lia.
    destruct (lookup_lt_is_Some_2 row (Z.to_nat (c - 1))) as [v ->]; [lia|].
    by eexists. }
  rewrite Ex. cbv beta iota. unfold str_eqb. case_bool_decide as E.
  - subst x. destruct (Hall row); [by left|done].
  - apply IH. intros row' Hin. apply Hall. by right.
Qed.

(** X14: update_product raises KeyError and writes nothing when no row from
    row 5 on has the product number as the trimmed text of its
    product-number cell: the sheet has fewer than five rows, the
    product-number column is unbound, or no cell matches. *)
Theorem update_unknown_product (σ : state W) (product_no : str)
    (updates : gmap string PyVal) (expected_revision : str) :
  from_one (default [] (_jp_col_map (opened σ))) ->
  (forall c row,
     col_get (default [] (_jp_col_map (opened σ))) "product_no" = Some c ->
     row ∈ data_rows σ -> cell_at row c <> Ok product_no) ->
  update_product product_no updates expected_revision σ
    = (Raise (KeyError product_no), opened σ)
  /\ writes (opened σ) = writes σ /\ sheet (opened σ) = sheet σ.
Proof.
  intros Hone Hno.
  destruct (open_worksheet_spec σ) as (_ & Hs & Hw & _).
  split; [|done].
  rewrite update_product_plan. unfold update_plan, locate_row.
  unfold mbind, result_bind. rewrite Hs. unfold data_rows in Hno.
  case_bool_decide; [done|].
  destruct (col_get _ "product_no") as [c|] eqn:Ec; [|done]. cbv beta.
  rewrite (find_row_none c product_no 4 (drop 4 (get_all_values (sheet σ))));
    [done|by eapply Hone|].
  intros row Hin. by apply Hno.
Qed.

(** X15: when update_product returns, the row it located from row 5 on had
    the expected revision; the record carries the product number asked
    for; the writes are cell updates in that row alone, in columns bound to
    fields other than the product number; and the record's revision is the
    token of the row as read back through row_values after the writes. *)
Theorem update_product_returns (σ σ' : state W) (product_no : str)
    (updates : gmap string PyVal) (expected_revision : str) (p : Product) :
  update_product product_no updates expected_revision σ = (Ok p, σ') ->
  exists row rv cells,
    locate_row (opened σ) product_no = Ok (row, rv)
    /\ 5 <= row /\ _row_revision rv = expected_revision
    /\ product.product_no p = product_no
    /\ writes σ' = writes σ ++ cell_writes row cells
    /\ Forall (fun cv => other_bound (default [] (_jp_col_map (opened σ))) cv.1)
         cells
    /\ revision p = _row_revision (row_values (sheet σ') row).
Proof.
  destruct (open_worksheet_spec σ) as (_ & Hs & Hw & _).
  rewrite update_product_plan. unfold update_plan.
  destruct (locate_row (opened σ) product_no) as [[row rv]|e] eqn:El; [|done].
  cbn [mbind result_bind]. cbv beta iota. cbn [fst snd].
  unfold str_eqb. case_bool_decide as Erev; [|done]. cbn [negb].
  unfold mbind, result_bind.
  destruct (jp_record _ rv) as [rec|e] eqn:Erec; [|done].
  destruct (from_row rec) as [current|e] eqn:Ecur; [|done].
  destruct (from_row (merged_row _ _ _)) as [updated|e] eqn:Eup; [|done].
  destruct (_apply_updates_to_jp_row _ updated _) as [cells|e] eqn:Ecells;
    [|done].
  unfold update_commit. cbn [fst snd].
  unfold mbind, M_bind. rewrite write_cells_run.
  unfold ws_row_values, mret, M_ret. intros [= <- <-].
  exists row, rv, cells. split; [done|].
  assert (5 <= row /\ strip product_no = product_no) as [Hrow Htrim].
  { unfold locate_row in El. case_bool_decide; [done|].
    destruct (col_get _ "product_no") as [c|]; [|done].
    unfold mbind, result_bind in El.
    destruct (find_row _ _ _ _) as [[t|]|] eqn:Ef; try done.
    destruct (py_getitem _ _); [|done]. injection El as <- <-.
    apply find_row_some in Ef as (k & r & _ & -> & Hc).
    split; [lia|]. by eapply cell_at_trimmed. }
  split; [done|]. split; [done|]. split.
  { unfold set_revision. cbn [product.product_no].
    unfold from_row in Eup. apply post_init_fields in Eup as (-> & _).
    cbn [a_product_no]. unfold dict_get, merged_row.
    rewrite lookup_insert_eq. simpl default. by rewrite py_str_VStr. }
  split; [by rewrite <- Hw|]. split; [by eapply apply_updates_other|].
  reflexivity.
Qed.

End lookup_facts.

Section create_facts.
Context `{R : PyRuntime} {W : Type} `{WS : Worksheet W}.

Lemma data_rows_opened σ : data_rows (opened σ) = data_rows σ.
Proof.
  unfold data_rows. by destruct (open_worksheet_spec σ) as (_ & -> & _).
Qed.

Lemma next_product_no_opened σ :
  _next_product_no σ = (next_number (opened σ), opened σ).
Proof.
  rewrite next_product_no_run. unfold next_number.
  by rewrite data_rows_opened.
Qed.

Lemma create_product_append payload σ :
  slot_of (opened σ) = Ok None ->
  let col := default [] (_jp_col_map (opened σ)) in
  create_product payload σ =
    match settled_number (opened σ) payload None with
    | Raise e => (Raise e, opened σ)
    | Ok v =>
        match from_row (create_data payload v) with
        | Raise e => (Raise e, opened σ)
        | Ok product =>
            match fill_row col v product (blank_row col) with
            | Raise e => (Raise e, opened σ)
            | Ok row_data =>
                let σ2 := commit [AppendRow row_data] (opened σ) in
                finish (Z.of_nat (length (get_all_values (sheet σ2))))
                  product σ2
            end
        end
    end.
Proof.
  intros Hslot. cbv zeta.
  destruct (open_worksheet_spec σ) as (_ & _ & _ & Hw).
  unfold create_product, settled_number, create_data, blank_row.
  unfold mbind at 1, M_bind at 1. rewrite find_insertable_run, Hslot.
  unfold mbind at 1, M_bind at 1.
  assert (forall v σ1, σ1 = opened σ ->
    (product ← lift (from_row
        (setdefault "handling_fee" VNone
          (setdefault "shipping_cost" VNone
            (setdefault "sales_channel" VNone
              (setdefault "sale_price" VNone
                (setdefault "sale_date" VNone
                  (setdefault "listed_date" VNone
                    (setdefault "sale_status" (VStr (u "未出品"))
                      (<["product_no" := v]> payload))))))))) ;
     _ ← _open_worksheet;
     slot ← _find_first_insertable_jp_row;
     _ ← match slot with
         | Some (insert_row, _) =>
             col ← the_col_map;
             _ ← match col_get col "product_no" with
                 | Some product_no_col =>
                     if product_no_col =? 0 then mret tt
                     else ws_update_cell insert_row product_no_col v
                 | None => mret tt
                 end;
             updates ← lift (_apply_updates_to_jp_row col product
                               (listed_if_listed product));
             write_cells insert_row updates
         | None =>
             col ← the_col_map;
             let row_data := repeat (VStr []) (Z.to_nat (max_col col)) in
             row_data ← lift (fill_row col v product row_data);
             ws_append_row row_data
         end;
     all_values ← ws_get_all_values;
     let target_row := match slot with
                       | Some (r, _) => r
                       | None => Z.of_nat (length all_values)
                       end in
     if target_row <=? Z.of_nat (length all_values) then
       match py_getitem all_values (target_row - 1) with
       | Some row_vals => mret (set_revision product (_row_revision row_vals))
       | None => raise IndexError
       end
     else mret product) σ1
    = match from_row (create_data payload v) with
      | Raise e => (Raise e, opened σ)
      | Ok product =>
          match fill_row (default [] (_jp_col_map (opened σ))) v product
                  (repeat (VStr []) (Z.to_nat
                     (max_col (default [] (_jp_col_map (opened σ)))))) with
          | Raise e => (Raise e, opened σ)
          | Ok row_data =>
              finish (Z.of_nat (length (get_all_values
                        (sheet (commit [AppendRow row_data] (opened σ))))))
                product (commit [AppendRow row_data] (opened σ))
          end
      end) as Hrest.
  { intros v σ1 ->. unfold create_data.
    unfold mbind at 1, M_bind at 1, lift at 1.
    destruct (from_row _) as [product|e]; [|done].
    unfold mbind at 1, M_bind at 1. rewrite (open_worksheet_opened _ Hw).
    unfold mbind at 1, M_bind at 1.
    rewrite find_insertable_run, opened_opened, Hslot.
    unfold mbind at 1, M_bind at 1.
    unfold mbind at 1, M_bind at 1, the_col_map at 1.
    unfold mbind at 1, M_bind at 1, lift at 1.
    destruct (fill_row _ _ _ _) as [row_data|e]; [|done].
    unfold ws_append_row at 1.
    unfold mbind at 1, M_bind at 1, ws_get_all_values at 1.
    unfold finish, commit. cbn [sheet fold_left apply_write].
    rewrite Z.leb_refl.
    by destruct (py_getitem _ _). }
  destruct (truthy (dict_get payload "product_no" VNone)).
  - unfold mret at 1, M_ret at 1. by apply Hrest.
  - unfold mbind at 1, M_bind at 1. rewrite next_product_no_opened.
    rewrite opened_opened.
    destruct (next_number (opened σ)) as [n|e]; [|done].
    unfold mret at 1, M_ret at 1. cbn [mbind result_bind]. by apply Hrest.
Qed.

Lemma create_product_run payload σ slot :
  slot_of (opened σ) = Ok slot ->
  forall e,
    (settled_number (opened σ) payload slot = Raise e
     \/ exists v, settled_number (opened σ) payload slot = Ok v
                  /\ from_row (create_data payload v) = Raise e) ->
    create_product payload σ = (Raise e, opened σ).
Proof.
  intros Hslot e Hfail. destruct slot as [[row pno]|].
  - destruct (slot_of_bound _ _ Hslot) as (c & n & Hc & _).
    rewrite (create_product_slot _ _ _ _ _ Hslot Hc). cbv zeta.
    unfold settled_number in Hfail. fold (chosen_number payload pno) in Hfail.
    assert ((if truthy (dict_get payload "product_no" VNone)
             then Ok (dict_get payload "product_no" VNone)
             else Ok (VStr pno)) = Ok (chosen_number payload pno)) as Hv
      by (unfold chosen_number; by destruct (truthy _)).
    cbv zeta in Hfail. rewrite Hv in Hfail.
    destruct Hfail as [?|(v & [= <-] & ->)]; done.
  - rewrite (create_product_append _ _ Hslot). cbv zeta.
    destruct Hfail as [->|(v & -> & ->)]; done.
Qed.

(** X16: create_product validates before it writes: when the data built
    from the payload and the number settled on (the payload's, else the
    slot's, else the next number) is rejected by from_row, or no number can
    be settled on, create_product raises that error and the write log and
    the sheet are those of the start. *)
Theorem create_invalid_writes_nothing (σ : state W)
    (payload : gmap string PyVal) (slot : option (Z * str)) (e : exn) :
  slot_of (opened σ) = Ok slot ->
  (settled_number (opened σ) payload slot = Raise e
   \/ exists v, settled_number (opened σ) payload slot = Ok v
                /\ from_row (create_data payload v) = Raise e) ->
  create_product payload σ = (Raise e, opened σ)
  /\ writes (opened σ) = writes σ /\ sheet (opened σ) = sheet σ.
Proof.
  intros Hslot Hfail. split; [by eapply create_product_run|].
  by destruct (open_worksheet_spec σ) as (_ & ? & ? & _).
Qed.

Lemma fill_row_length items v p data data' :
  fill_row items v p data = Ok data' -> length data' = length data.
Proof.
  revert data. induction items as [|[k c] r IH]; intros data; cbn [fill_row].
  - by intros [= <-].
  - unfold mbind, result_bind.
    destruct (append_value k v p) as [[x|]|e]; [| |done].
    + destruct (py_setitem data (c - 1) x) as [d|] eqn:Es; [|done].
      intros H%IH. rewrite H. unfold py_setitem in Es.
      repeat match type of Es with
      | (if ?b then _ else _) = _ => destruct b
      end; try done; injection Es as <-; apply length_insert.
    + apply IH.
Qed.

(** X17: with no insertable slot, a create_product call that returns has
    issued one append_row and no other write; the appended row has as many
    cells as the highest bound column (ten when no column is bound), and
    the record carries the trimmed text of the number settled on: the
    payload's, else the next number. *)
Theorem create_appends_one_row (σ σ' : state W) (payload : gmap string PyVal)
    (p : Product) :
  slot_of (opened σ) = Ok None ->
  create_product payload σ = (Ok p, σ') ->
  exists v row_data,
    settled_number (opened σ) payload None = Ok v
    /\ writes σ' = writes σ ++ [AppendRow row_data]
    /\ length row_data
       = Z.to_nat (max_col (default [] (_jp_col_map (opened σ))))
    /\ product_no p = strip (py_str v).
Proof.
  intros Hslot. rewrite (create_product_append _ _ Hslot). cbv zeta.
  destruct (open_worksheet_spec σ) as (_ & _ & Hw & _).
  destruct (settled_number _ _ _) as [v|e]; [|done].
  destruct (from_row _) as [product|e] eqn:Hfrom; [|done].
  destruct (fill_row _ _ _ _) as [row_data|e] eqn:Hfill; [|done].
  intros [-> Hp]%finish_product. exists v, row_data.
  split; [done|]. split; [by cbn [commit writes]; rewrite Hw|].
  split.
  { apply fill_row_length in Hfill. rewrite Hfill. unfold blank_row.
    apply repeat_length. }
  assert (product_no p = product_no product) as ->
    by (by destruct Hp as [->|[rev ->]]).
  unfold from_row in Hfrom. apply post_init_fields in Hfrom as (-> & _).
  cbn [a_product_no]. unfold dict_get. by rewrite create_data_product_no.
Qed.

Lemma apply_updates_fee col p listed :
  bound col "handling_fee" = true ->
  _apply_updates_to_jp_row col p listed = Raise (AttributeError "handling_fee").
Proof. intros Hb. unfold _apply_updates_to_jp_row. by rewrite Hb. Qed.

(** X18: on a sheet whose header row binds the handling-fee column,
    update_product never returns and never writes: it raises, and when the
    row is found with the expected revision and the merged record is
    valid, what it raises is the AttributeError of reading
    product.handling_fee. *)
Theorem handling_fee_column_blocks_update (σ σ' : state W) (product_no : str)
    (updates : gmap string PyVal) (expected_revision : str)
    (res : result Product) :
  bound (default [] (_jp_col_map (opened σ))) "handling_fee" = true ->
  update_product product_no updates expected_revision σ = (res, σ') ->
  σ' = opened σ /\ writes σ' = writes σ
  /\ (exists e, res = Raise e)
  /\ (forall row rv rec current updated,
        locate_row (opened σ) product_no = Ok (row, rv) ->
        _row_revision rv = expected_revision ->
        jp_record (default [] (_jp_col_map (opened σ))) rv = Ok rec ->
        from_row rec = Ok current ->
        from_row (merged_row current product_no updates) = Ok updated ->
        res = Raise (AttributeError "handling_fee")).
Proof.
  intros Hb. destruct (open_worksheet_spec σ) as (_ & _ & Hw & _).
  rewrite update_product_plan.
  assert (forall plan, update_plan (opened σ) product_no updates
                         expected_revision = Ok plan -> False) as Hno.
  { intros plan. unfold update_plan, mbind, result_bind.
    destruct (locate_row _ _) as [[row rv]|]; [|done]. cbn [fst snd].
    destruct (negb _); [done|].
    destruct (jp_record _ _); [|done]. destruct (from_row _); [|done].
    destruct (from_row _); [|done].
    by rewrite apply_updates_fee. }
  destruct (update_plan _ _ _ _) as [plan|e] eqn:Ep; [by destruct (Hno plan)|].
  intros [= <- <-]. split; [done|]. split; [done|]. split; [by exists e|].
  intros row rv rec current updated Hl Hrev Hrec Hcur Hup.
  unfold update_plan, mbind, result_bind in Ep. rewrite Hl in Ep.
  cbn [fst snd] in Ep. unfold str_eqb in Ep.
  rewrite bool_decide_eq_true_2 in Ep by done. cbn [negb] in Ep.
  rewrite Hrec, Hcur, Hup, apply_updates_fee in Ep by done.
  by injection Ep as <-.
Qed.

Lemma fill_row_fee col v p data c :
  col_get col "handling_fee" = Some c ->
  exists e, fill_row col v p data = Raise e.
Proof.
  revert data. induction col as [|[k c'] r IH]; intros data; [done|].
  cbn [col_get fill_row]. unfold mbind, result_bind.
  destruct (bool_decide_reflect (k = "handling_fee")) as [->|Hne].
  - intros _. by eexists.
  - intros Hc.
    destruct (append_value k v p) as [[x|]|e]; [| |by eexists].
    + destruct (py_setitem _ _ _); [by apply IH|by eexists].
    + by apply IH.
Qed.

(** X19: on a sheet whose header row binds the handling-fee column,
    create_product never returns a record; when it fills an insertable slot
    and the payload is valid, it has already written the product-number
    cell of the slot row when it raises the AttributeError of reading
    product.handling_fee, and that one write stays. *)
Theorem handling_fee_column_breaks_create (σ : state W)
    (payload : gmap string PyVal) :
  bound (default [] (_jp_col_map (opened σ))) "handling_fee" = true ->
  (forall p σ', create_product payload σ <> (Ok p, σ'))
  /\ (forall row pno c product,
        slot_of (opened σ) = Ok (Some (row, pno)) ->
        col_get (default [] (_jp_col_map (opened σ))) "product_no" = Some c ->
        from_row (create_data payload (chosen_number payload pno)) = Ok product ->
        create_product payload σ
        = (Raise (AttributeError "handling_fee"),
           commit (number_write row c (chosen_number payload pno)) (opened σ))).
Proof.
  intros Hb. split.
  - intros p σ' Hc.
    assert (exists slot, slot_of (opened σ) = Ok slot) as [[[row pno]|] Hslot].
    { unfold create_product in Hc. unfold mbind at 1, M_bind at 1 in Hc.
      rewrite find_insertable_run in Hc.
      destruct (slot_of (opened σ)) as [slot|]; [by exists slot|done]. }
    + destruct (slot_of_bound _ _ Hslot) as (c & n & Hcol & _).
      rewrite (create_product_slot _ _ _ _ _ Hslot Hcol) in Hc. cbv zeta in Hc.
      destruct (from_row _); [|done].
      by rewrite apply_updates_fee in Hc.
    + rewrite (create_product_append _ _ Hslot) in Hc. cbv zeta in Hc.
      destruct (settled_number _ _ _) as [v|]; [|done].
      destruct (from_row _) as [product|]; [|done].
      unfold bound in Hb.
      destruct (col_get _ "handling_fee") as [c|] eqn:Ef; [|done].
      destruct (fill_row_fee _ v product
                  (blank_row (default [] (_jp_col_map (opened σ)))) c Ef)
        as [e He].
      by rewrite He in Hc.
  - intros row pno c product Hslot Hcol Hfrom.
    rewrite (create_product_slot _ _ _ _ _ Hslot Hcol). cbv zeta.
    by rewrite Hfrom, apply_updates_fee.
Qed.

End create_facts.

Section channel_facts.

Lemma collect_channels_spec col seen channels :
  (forall x, x ∈ seen <-> x ∈ channels) -> NoDup channels ->
  NoDup (collect_channels col seen channels)
  /\ forall ch, ch ∈ collect_channels col seen channels
       <-> ch ∈ channels \/ (ch <> [] /\ exists v, v ∈ col /\ strip v = ch).
Proof.
  revert seen channels. induction col as [|v r IH]; intros seen channels Hs Hn;
    cbn [collect_channels].
  - split; [done|]. intros ch. split; [by left|].
    intros [?|(_ & v & Hv & _)]; [done|by inversion Hv].
  - cbv zeta. destruct (bool_decide_reflect (strip v = [])) as [He|He];
      cbn [negb andb].
    + destruct (IH seen channels Hs Hn) as [Hnd Hin]. split; [done|].
      intros ch. rewrite Hin. split.
      * intros [?|(Hne & w & Hw & Hch)]; [by left|]. right. split; [done|].
        exists w. split; [by right|done].
      * intros [?|(Hne & w & [->|Hw]%elem_of_cons & Hch)]; [by left| |].
        -- congruence.
        -- right. split; [done|]. by exists w.
    + destruct (bool_decide_reflect (strip v ∈ seen)) as [Hin|Hin];
        cbn [negb].
      * destruct (IH seen channels Hs Hn) as [Hnd Hmem]. split; [done|].
        intros ch. rewrite Hmem. split.
        -- intros [?|(Hne & w & Hw & Hch)]; [by left|]. right. split; [done|].
           exists w. split; [by right|done].
        -- intros [?|(Hne & w & [->|Hw]%elem_of_cons & Hch)]; [by left| |].
           ++ left. subst ch. by apply Hs.
           ++ right. split; [done|]. by exists w.
      * destruct (IH ({[strip v]} ∪ seen) (channels ++ [strip v])) as [Hnd Hmem].
        { intros x. rewrite elem_of_union, elem_of_singleton, elem_of_app,
            list_elem_of_singleton, Hs. tauto. }
        { apply NoDup_app. split; [done|]. split; [|apply NoDup_singleton].
          intros x Hx ->%list_elem_of_singleton. apply Hin. by apply Hs. }
        split; [done|]. intros ch. rewrite Hmem, elem_of_app,
          list_elem_of_singleton. split.
        -- intros [[?| ->]|(Hne & w & Hw & Hch)].
           ++ by left.
           ++ right. split; [done|]. exists v. split; [by left|done].
           ++ right. split; [done|]. exists w. split; [by right|done].
        -- intros [?|(Hne & w & [->|Hw]%elem_of_cons & Hch)].
           ++ left. by left.
           ++ left. by right.
           ++ right. split; [done|]. by exists w.
Qed.

Lemma list_sales_channels_spec (fee_column : option (list str)) :
  NoDup (list_sales_channels fee_column)
  /\ (forall ch, ch ∈ list_sales_channels fee_column
        <-> ch <> [] /\ exists col1 v, fee_column = Some col1
                          /\ v ∈ drop 1 col1 /\ strip v = ch).
Proof.
  split.
  - destruct fee_column as [col1|]; [|apply NoDup_nil_2].
    apply collect_channels_spec; [|apply NoDup_nil_2].
    intros x. rewrite elem_of_empty. split; [done|]. by intros ?%elem_of_nil.
  - intros ch. destruct fee_column as [col1|]; cbn [list_sales_channels].
    + destruct (collect_channels_spec (drop 1 col1) ∅ []) as [_ Hmem].
      { intros x. rewrite elem_of_empty. split; [done|].
        by intros ?%elem_of_nil. }
      { apply NoDup_nil_2. }
      rewrite Hmem. split.
      * intros [?%elem_of_nil|(Hne & v & Hv & Hch)]; [done|].
        split; [done|]. by exists col1, v.
      * intros (Hne & c & v & [= <-] & Hv & Hch). right. split; [done|].
        by exists v.
    + split; [by intros ?%elem_of_nil|]. by intros (_ & c & v & ? & _).
Qed.

(** X20: list_sales_channels returns no channel twice; a text is in its
    list exactly when it is not empty and is the trimmed text of a cell of
    column 1 of the fee worksheet below the first, header cell; and with no
    fee worksheet the list is empty. *)
Theorem list_sales_channels_distinct (fee_column : option (list str)) :
  NoDup (list_sales_channels fee_column)
  /\ (forall ch, ch ∈ list_sales_channels fee_column
        <-> ch <> [] /\ exists col1 v, fee_column = Some col1
                          /\ v ∈ drop 1 col1 /\ strip v = ch)
  /\ list_sales_channels None = [].
Proof.
  destruct (list_sales_channels_spec fee_column) as [Hn Hmem].
  split; [done|]. split; [done|]. reflexivity.
Qed.

End channel_facts.

Section page_facts.
Import app.
Context `{R : PyRuntime}.

Lemma channel_options_fold chs options :
  NoDup (options ++ chs) ->
  fold_left (fun options ch =>
               if str_in ch options then options else options ++ [ch])
    chs options = options ++ chs.
Proof.
  revert options. induction chs as [|ch r IH]; intros options Hn;
    cbn [fold_left]; [by rewrite app_nil_r|].
  assert (str_in ch options = false) as ->.
  { apply NoDup_app in Hn as (_ & Hd & _).
    destruct (str_in ch options) eqn:E; [|done].
    unfold str_in in E. apply existsb_exists in E as (x & Hx & Hch).
    unfold str_eqb in Hch. apply bool_decide_eq_true in Hch as <-.
    apply list_elem_of_In in Hx. destruct (Hd ch Hx). by left. }
  rewrite IH; rewrite <- app_assoc; done.
Qed.

(** X21: the options _channel_options builds from the list of
    list_sales_channels are the empty choice followed by that list
    unchanged: nothing is dropped and nothing is repeated. *)
Theorem channel_options_of_channels (fee_column : option (list str)) :
  _channel_options (list_sales_channels fee_column)
    = [] :: list_sales_channels fee_column
  /\ NoDup (_channel_options (list_sales_channels fee_column)).
Proof.
  destruct (list_sales_channels_spec fee_column) as (Hn & Hmem).
  assert (NoDup ([[]] ++ list_sales_channels fee_column)) as Hnd.
  { apply NoDup_app. split; [apply NoDup_singleton|]. split; [|done].
    intros x ->%list_elem_of_singleton Hin. apply Hmem in Hin as [? _]. done. }
  unfold _channel_options. rewrite channel_options_fold by done.
  split; [done|]. exact Hnd.
Qed.

(** X22: _required_text returns the trimmed text when it is not empty and
    raises ValueError when the text is empty or only blanks; a text it
    returned is returned unchanged when given again. *)
Theorem required_text_trims (value : str) (label : string) :
  (strip value = [] ->
     _required_text value label = Raise (ValueError (label +:+ "は必須です。")))
  /\ (strip value <> [] ->
        _required_text value label = Ok (strip value)
        /\ forall label', _required_text (strip value) label' = Ok (strip value)).
Proof.
  unfold _required_text. split.
  - intros ->. done.
  - intros Hne. rewrite strip_idemp. by rewrite bool_decide_eq_false_2.
Qed.

Lemma filter_sublist {A} (f : A -> bool) l : sublist (List.filter f l) l.
Proof.
  induction l as [|x l IH]; cbn [List.filter]; [constructor|].
  destruct (f x); by constructor.
Qed.

Lemma filter_filter {A} (f : A -> bool) l :
  List.filter f (List.filter f l) = List.filter f l.
Proof.
  induction l as [|x l IH]; cbn [List.filter]; [done|].
  destruct (f x) eqn:E; [|done]. cbn [List.filter]. by rewrite E, IH.
Qed.

(** X23: _apply_list_filters keeps a sub-list of the products in their
    order; every product kept has the status, the store and the sales
    channel asked for by a filter that is not empty; with no filter and no
    keyword every product is kept; and filtering the result again with the
    same arguments changes nothing. *)
Theorem apply_list_filters_selects (products : list Product)
    (keyword status store channel : str) :
  sublist (_apply_list_filters products keyword status store channel) products
  /\ (forall p, p ∈ _apply_list_filters products keyword status store channel ->
        (status <> [] -> sale_status p = status)
        /\ (store <> [] -> store_name p = store)
        /\ (channel <> [] -> str_or_empty (sales_channel p) = channel))
  /\ _apply_list_filters products [] [] [] [] = products
  /\ _apply_list_filters
       (_apply_list_filters products keyword status store channel)
       keyword status store channel
     = _apply_list_filters products keyword status store channel.
Proof.
  unfold _apply_list_filters. cbv zeta.
  split; [apply filter_sublist|]. split; [|split; [|apply filter_filter]].
  - intros p Hp%list_elem_of_In%filter_In. destruct Hp as [_ Hk].
    unfold kept, str_eqb in Hk.
    repeat split; intros Hne;
      rewrite (bool_decide_eq_false_2 _ Hne) in Hk; cbn [negb andb] in Hk.
    + by case_bool_decide.
    + destruct (negb _ && _); [done|]. by case_bool_decide.
    + destruct (negb _ && _); [done|]. destruct (negb _ && _); [done|].
      by case_bool_decide.
  - rewrite strip_nil, py_lower_ascii_upper by constructor. cbn [List.map].
    induction products as [|p ps IH]; [done|].
    cbn [List.filter]. rewrite IH. reflexivity.
Qed.

End page_facts.

Section sorting_facts.
Import app.
Context `{R : PyRuntime}.

Lemma insert_by_perm {A} (lt : A -> A -> bool) x l :
  Permutation (insert_by lt x l) (x :: l).
Proof.
  induction l as [|y r IH]; cbn [insert_by]; [done|].
  destruct (lt y x); [|done].
  rewrite IH. apply perm_swap.
Qed.

Lemma sort_by_perm {A} (lt : A -> A -> bool) l : Permutation (sort_by lt l) l.
Proof.
  induction l as [|x l IH]; cbn [sort_by foldr]; [done|].
  fold (sort_by lt l). by rewrite insert_by_perm, IH.
Qed.

Lemma sorted_perm {A} (lt : A -> A -> bool) reverse l :
  Permutation (sorted lt reverse l) l.
Proof.
  unfold sorted. destruct reverse; [|apply sort_by_perm].
  by rewrite <- Permutation_rev, sort_by_perm, <- Permutation_rev.
Qed.

Lemma insert_by_sorted {A} (lt : A -> A -> bool) x l :
  orders lt ->
  StronglySorted (fun a b => lt b a = false) l ->
  StronglySorted (fun a b => lt b a = false) (insert_by lt x l).
Proof.
  intros [Hasym Htrans] Hs. induction Hs as [|y r Hs IH Hy]; cbn [insert_by].
  - by repeat constructor.
  - destruct (lt y x) eqn:E.
    + constructor; [done|].
      apply List.Forall_forall. intros z Hz.
      apply (Permutation_in _ (insert_by_perm lt x r)) in Hz.
      destruct Hz as [<-|Hz]; [by apply Hasym|].
      rewrite List.Forall_forall in Hy. by apply Hy.
    + constructor; [by constructor|]. constructor; [done|].
      eapply Forall_impl; [exact Hy|]. intros z Hz. by eapply Htrans.
Qed.

Lemma sort_by_sorted {A} (lt : A -> A -> bool) l :
  orders lt -> StronglySorted (fun a b => lt b a = false) (sort_by lt l).
Proof.
  intros Ho. induction l as [|x l IH]; cbn [sort_by foldr]; [constructor|].
  by apply insert_by_sorted.
Qed.

Lemma StronglySorted_snoc {A} (P : A -> A -> Prop) l x :
  StronglySorted P l -> Forall (fun a => P a x) l -> StronglySorted P (l ++ [x]).
Proof.
  induction 1 as [|y r Hs IH Hy]; cbn [app]; intros Hx.
  - by repeat constructor.
  - apply Forall_cons in Hx as [Hyx Hx]. constructor; [by apply IH|].
    apply Forall_app. split; [done|]. by constructor.
Qed.

Lemma StronglySorted_rev {A} (P : A -> A -> Prop) l :
  StronglySorted P l -> StronglySorted (fun a b => P b a) (rev l).
Proof.
  induction 1 as [|x l Hs IH Hx]; cbn [rev]; [constructor|].
  apply StronglySorted_snoc; [done|]. by apply Forall_rev.
Qed.

Lemma StronglySorted_weaken {A} (P Q : A -> A -> Prop) l :
  (forall a b, P a b -> Q a b) -> StronglySorted P l -> StronglySorted Q l.
Proof.
  intros Hpq. induction 1 as [|x l Hs IH Hx]; constructor; [done|].
  eapply Forall_impl; [exact Hx|]. intros z. apply Hpq.
Qed.

Lemma sorted_ascending {A} (lt : A -> A -> bool) l :
  orders lt -> StronglySorted (fun a b => lt b a = false) (sorted lt false l).
Proof. apply sort_by_sorted. Qed.

Lemma sorted_descending {A} (lt : A -> A -> bool) l :
  orders lt -> StronglySorted (fun a b => lt a b = false) (sorted lt true l).
Proof.
  intros Ho. unfold sorted.
  apply (StronglySorted_rev (fun a b => lt b a = false)).
  by apply sort_by_sorted.
Qed.

Lemma orders_Z {A} (key : A -> Z) : orders (fun p q => key p <? key q).
Proof. split; intros *; rewrite ?Z.ltb_lt, ?Z.ltb_ge; lia. Qed.

Lemma date_lt_spec a b :
  date_lt a b = true
  <-> year a < year b
      \/ (year a = year b
          /\ (month a < month b \/ (month a = month b /\ day a < day b))).
Proof.
  unfold date_lt.
  rewrite !orb_true_iff, !andb_true_iff, !orb_true_iff, !andb_true_iff,
    !Z.ltb_lt, !Z.eqb_eq. tauto.
Qed.

Lemma orders_date {A} (key : A -> date) :
  orders (fun p q => date_lt (key p) (key q)).
Proof.
  split; intros *; rewrite <- ?not_true_iff_false, !date_lt_spec; lia.
Qed.

Lemma str_lt_asym a b : str_lt a b = true -> str_lt b a = false.
Proof.
  revert b. induction a as [|x a IH]; intros [|y b]; cbn [str_lt]; try done.
  rewrite orb_true_iff, andb_true_iff, N.ltb_lt, N.eqb_eq.
  intros [Hlt|[-> Hs]].
  - rewrite (proj2 (N.ltb_ge y x)) by lia.
    rewrite (proj2 (N.eqb_neq y x)) by lia. done.
  - rewrite N.ltb_irrefl, N.eqb_refl. cbn [orb andb]. by apply IH.
Qed.

Lemma str_lt_trans a b c :
  str_lt b a = false -> str_lt c b = false -> str_lt c a = false.
Proof.
  revert b c. induction a as [|x a IH]; intros [|y b] [|z c]; cbn [str_lt];
    try done.
  rewrite !orb_false_iff, !andb_false_iff, !N.ltb_ge, !N.eqb_neq.
  intros [H1 H1'] [H2 H2']. split; [lia|].
  destruct (N.eq_dec z x) as [->|]; [|by left]. right.
  assert (y = x) as -> by lia.
  destruct H1' as [?|H1']; [done|]. destruct H2' as [?|H2']; [done|].
  by eapply IH.
Qed.

Lemma orders_str {A} (key : A -> str) :
  orders (fun p q => str_lt (key p) (key q)).
Proof.
  split; intros *; [apply str_lt_asym|apply str_lt_trans].
Qed.

Lemma StronglySorted_True {A} (l : list A) :
  StronglySorted (fun _ _ => True) l.
Proof.
  induction l; constructor; [done|]. by apply Forall_true.
Qed.

(** X24: _sort_products returns the same products rearranged, and in the
    order its rule names: purchase dates falling or rising, purchase prices
    falling or rising, status rank rising (an unknown status last), product
    numbers rising as texts; a rule it does not know leaves the list as it
    is. *)
Theorem sort_products_orders (products : list Product) (sort_rule : str) :
  Permutation (_sort_products products sort_rule) products
  /\ StronglySorted (rule_order sort_rule) (_sort_products products sort_rule)
  /\ (sort_rule ∉ [NEWEST_FIRST; OLDEST_FIRST; DEAREST_FIRST; CHEAPEST_FIRST;
                   BY_STATUS; BY_NUMBER] ->
      _sort_products products sort_rule = products).
Proof.
  split; [|split].
  - unfold _sort_products.
    destruct (str_eqb sort_rule NEWEST_FIRST); [apply sorted_perm|].
    destruct (str_eqb sort_rule OLDEST_FIRST); [apply sorted_perm|].
    destruct (str_eqb sort_rule DEAREST_FIRST); [apply sorted_perm|].
    destruct (str_eqb sort_rule CHEAPEST_FIRST); [apply sorted_perm|].
    destruct (str_eqb sort_rule BY_STATUS); [apply sorted_perm|].
    destruct (str_eqb sort_rule BY_NUMBER); [apply sorted_perm|]. done.
  - unfold _sort_products, rule_order.
    destruct (str_eqb sort_rule NEWEST_FIRST).
    { apply (sorted_descending _ products), orders_date. }
    destruct (str_eqb sort_rule OLDEST_FIRST).
    { apply (sorted_ascending _ products), orders_date. }
    destruct (str_eqb sort_rule DEAREST_FIRST).
    { eapply StronglySorted_weaken;
        [|apply (sorted_descending _ products), (orders_Z purchase_price)].
      intros a b. cbv beta. rewrite Z.ltb_ge. lia. }
    destruct (str_eqb sort_rule CHEAPEST_FIRST).
    { eapply StronglySorted_weaken;
        [|apply (sorted_ascending _ products), (orders_Z purchase_price)].
      intros a b. cbv beta. rewrite Z.ltb_ge. lia. }
    destruct (str_eqb sort_rule BY_STATUS).
    { eapply StronglySorted_weaken;
        [|apply (sorted_ascending _ products),
            (orders_Z (fun p => status_rank (sale_status p)))].
      intros a b. cbv beta. rewrite Z.ltb_ge. lia. }
    destruct (str_eqb sort_rule BY_NUMBER).
    { apply (sorted_ascending _ products), orders_str. }
    apply StronglySorted_True.
  - rewrite !not_elem_of_cons. intros (H1 & H2 & H3 & H4 & H5 & H6 & _).
    unfold _sort_products, str_eqb.
    rewrite (bool_decide_eq_false_2 _ H1), (bool_decide_eq_false_2 _ H2),
      (bool_decide_eq_false_2 _ H3), (bool_decide_eq_false_2 _ H4),
      (bool_decide_eq_false_2 _ H5), (bool_decide_eq_false_2 _ H6).
    reflexivity.
Qed.

End sorting_facts.

Section memory_facts.
Import InMemoryProductRepository.
Context `{R : PyRuntime}.
Variable now : nat -> datetime.

Lemma products_get_set_eq d k v : products_get (products_set d k v) k = Some v.
Proof.
  induction d as [|[k' v'] d IH]; cbn [products_set products_get].
  - unfold str_eqb. by rewrite bool_decide_eq_true_2.
  - destruct (str_eqb k' k) eqn:E; cbn [products_get]; by rewrite E.
Qed.

Lemma products_get_set_ne d k v k' :
  k' <> k -> products_get (products_set d k v) k' = products_get d k'.
Proof.
  intros Hne. induction d as [|[k0 v0] d IH]; cbn [products_set products_get].
  - unfold str_eqb. by rewrite bool_decide_eq_false_2.
  - destruct (str_eqb k0 k) eqn:E; cbn [products_get].
    + unfold str_eqb in *. apply bool_decide_eq_true in E. subst k0.
      by rewrite bool_decide_eq_false_2.
    + by rewrite IH.
Qed.

Lemma products_set_present d k v :
  is_Some (products_get d k) ->
  List.map fst (products_set d k v) = List.map fst d.
Proof.
  induction d as [|[k0 v0] d IH]; cbn [products_set products_get].
  - by intros [? ?].
  - destruct (str_eqb k0 k) eqn:E; [done|]. intros H.
    cbn [List.map fst]. by rewrite IH.
Qed.

Lemma products_set_absent d k v :
  products_get d k = None -> products_set d k v = d ++ [(k, v)].
Proof.
  induction d as [|[k0 v0] d IH]; cbn [products_set products_get]; [done|].
  destruct (str_eqb k0 k) eqn:E; [done|]. intros H. by rewrite IH.
Qed.

Lemma products_get_absent d k :
  k ∉ List.map fst d -> products_get d k = None.
Proof.
  induction d as [|[k0 v0] d IH]; cbn [products_get List.map fst]; [done|].
  rewrite not_elem_of_cons. intros [Hne Hin].
  unfold str_eqb. rewrite bool_decide_eq_false_2 by done. by apply IH.
Qed.

Lemma max_seq_of_keys_spec keys m M :
  max_seq_of_keys keys m = Ok M ->
  m <= M
  /\ forall key k, key ∈ keys ->
       startswith (u "P") key = true -> isdigit (drop 1 key) = true ->
       py_int (drop 1 key) = Some k -> k <= M.
Proof.
  revert m. induction keys as [|p ps IH]; intros m; cbn [max_seq_of_keys].
  - intros [= <-]. split; [lia|]. intros p k Hp. by inversion Hp.
  - destruct (startswith (u "P") p && isdigit (drop 1 p)) eqn:E.
    + destruct (py_int (drop 1 p)) as [n|] eqn:En; [|done].
      intros H. apply IH in H as [Hm Hall]. split; [lia|].
      intros q k [->|Hq]%elem_of_cons Hs Hd Hk.
      * rewrite En in Hk. injection Hk as <-. lia.
      * by eapply Hall.
    + intros H. apply IH in H as [Hm Hall]. split; [lia|].
      intros q k [->|Hq]%elem_of_cons Hs Hd Hk.
      * by rewrite Hs, Hd in E.
      * by eapply Hall.
Qed.

Lemma memory_next_fresh s n :
  reads_padded -> _next_product_no s = Ok n ->
  products_get (_products s) n = None
  /\ exists max_seq, 0 <= max_seq /\ n = u "P" ++ pad_int 5 (max_seq + 1).
Proof.
  intros Hr. unfold _next_product_no, mbind, result_bind.
  destruct (max_seq_of_keys _ 0) as [M|e] eqn:EM; [|done].
  intros [= <-]. apply max_seq_of_keys_spec in EM as [HM Hall].
  split; [|by exists M].
  apply products_get_absent. intros Hin.
  assert (M + 1 <= M); [|lia].
  apply (Hall _ (M + 1) Hin).
  - done.
  - simpl drop. apply isdigit_padded; [done|lia].
  - simpl drop. apply Hr. lia.
Qed.

(* what a record built by Product_call carries *)
Lemma Product_call_fields kwargs t p :
  Product_call kwargs t = Some (Ok p) ->
  text_arg kwargs "product_no" [] = Some (product_no p)
  /\ text_arg kwargs "revision" [] = Some (revision p)
  /\ updated_at p = Some t /\ checked p.
Proof.
  unfold Product_call. destruct (_ || _); [done|].
  unfold mbind, option_bind.
  destruct (text_arg kwargs "product_no" []) as [pn|]; [|done].
  destruct (text_arg kwargs "name" []) as [nm|]; [|done].
  destruct (text_arg kwargs "store_name" []) as [st|]; [|done].
  destruct (text_arg kwargs "sale_status" _) as [ss|]; [|done].
  destruct (match kwargs !! "sales_channel" with
            | Some VNone => _ | Some (VStr _) => _ | _ => _ end) as [ch|];
    [|done].
  destruct (match kwargs !! "is_archived" with
            | Some (VBool _) => _ | _ => _ end) as [ar|]; [|done].
  destruct (text_arg kwargs "revision" []) as [rv|]; [|done].
  intros [= H]. pose proof (post_init_checked _ _ H) as Hc.
  unfold __post_init__, mbind, result_bind in H.
  bind_inv H. injection H as <-. done.
Qed.

Lemma memory_create_run payload s n :
  _next_product_no s = Ok n ->
  create_product now payload s
  = match Product_call (created_data now payload n s)
            (now (S (clock_reads s))) with
    | None => None
    | Some (Raise e) => Some (Raise e, ticked 2 s)
    | Some (Ok p) =>
        match products_get (_products s) (product_no p) with
        | Some _ =>
            Some (Raise (ValueError "product_no already exists"), ticked 2 s)
        | None =>
            Some (Ok p,
                  with_products (ticked 2 s)
                    (products_set (_products s) (product_no p) p))
        end
    end.
Proof. intros Hn. unfold create_product. by rewrite Hn. Qed.

Lemma memory_update_run product_no updates expected_revision s current :
  products_get (_products s) product_no = Some current ->
  revision current = expected_revision ->
  update_product now product_no updates expected_revision s
  = match from_row
            (<["updated_at" :=
                 VStr (datetime_isoformat (now (S (clock_reads s))))]>
               (<["revision" := VStr (datetime_isoformat (now (clock_reads s)))]>
                  (<["product_no" := VStr product_no]>
                     (dict_update (to_row current) updates)))) with
    | Raise e => (Raise e, ticked 2 s)
    | Ok updated =>
        (Ok updated,
         with_products (ticked 2 s)
           (products_set (_products s) product_no updated))
    end.
Proof.
  intros Hc Hr. unfold update_product. rewrite Hc. unfold str_eqb.
  by rewrite bool_decide_eq_true_2.
Qed.

(** X25: the number the in-memory _next_product_no returns is P followed by
    a count of five digits or more and is the key of no stored product.  So
    for a payload without product_no, create_product stores what the
    constructor builds under that number, and raises only what the
    constructor raises, never its duplicate-number error; provided
    str.isdigit accepts the ASCII digits and int() reads a zero-padded
    numeral. *)
Theorem memory_next_product_no_is_fresh (s : store) (n : str) :
  reads_padded ->
  _next_product_no s = Ok n ->
  (exists max_seq, 0 <= max_seq /\ n = u "P" ++ pad_int 5 (max_seq + 1))
  /\ products_get (_products s) n = None
  /\ forall payload r s',
       payload !! "product_no" = None ->
       create_product now payload s = Some (r, s') ->
       Product_call (created_data now payload n s) (now (S (clock_reads s)))
         = Some r
       /\ match r with
          | Ok p => product_no p = n /\ _products s' = _products s ++ [(n, p)]
          | Raise _ => _products s' = _products s
          end.
Proof.
  intros Hr Hn. destruct (memory_next_fresh s n Hr Hn) as [Hfresh Hshape].
  split; [done|]. split; [done|].
  intros payload r s' Hp. rewrite (memory_create_run payload s n Hn).
  destruct (Product_call _ _) as [[p|e]|] eqn:Ecall; [| |done].
  - pose proof Ecall as F. apply Product_call_fields in F as (Hno & _).
    unfold text_arg, created_data, setdefault in Hno. rewrite Hp in Hno.
    rewrite lookup_insert_ne, lookup_insert_eq in Hno by done.
    injection Hno as Hno. rewrite <- Hno, Hfresh. intros [= <- <-].
    split; [done|]. split; [done|]. cbn [_products with_products ticked].
    by apply products_set_absent.
  - by intros [= <- <-].
Qed.

(** X26: when the in-memory create_product returns a product, its number
    was the key of no stored product and it is stored last under that
    number, so list_products shows it after the products listed before; its
    revision is the ISO text of the first clock reading and its updated_at
    the second reading, whatever the payload holds under these keys.  When
    it raises, the stored products are unchanged. *)
Theorem memory_create_outcome (s s' : store) (payload : gmap string PyVal)
    (r : result Product) :
  create_product now payload s = Some (r, s') ->
  match r with
  | Ok p =>
      products_get (_products s) (product_no p) = None
      /\ _products s' = _products s ++ [(product_no p, p)]
      /\ list_products true s' = list_products true s ++ [p]
      /\ revision p = datetime_isoformat (now (clock_reads s))
      /\ updated_at p = Some (now (S (clock_reads s)))
      /\ checked p
  | Raise _ => _products s' = _products s
  end.
Proof.
  destruct (_next_product_no s) as [n|e] eqn:En.
  - rewrite (memory_create_run payload s n En).
    destruct (Product_call _ _) as [[p|e]|] eqn:Ecall; [| |done].
    + apply Product_call_fields in Ecall as (_ & Hrev & Hup & Hc).
      unfold created_data in Hrev. unfold text_arg in Hrev.
      rewrite lookup_insert_eq in Hrev. injection Hrev as Hrev.
      destruct (products_get _ _) eqn:Eg; intros [= <- <-]; [done|].
      cbn [_products with_products ticked].
      rewrite (products_set_absent _ _ _ Eg).
      split; [done|]. split; [done|]. split.
      { unfold list_products. cbn [_products with_products ticked].
        by rewrite ?(products_set_absent _ _ _ Eg), List.map_app. }
      done.
    + by intros [= <- <-].
  - unfold create_product. rewrite En. by intros [= <- <-].
Qed.

(** X27: when the in-memory update_product returns a record, a product was
    stored under the number with the expected revision; the record replaces
    it under the same key, the other keys and their order being unchanged;
    the record's number is the trimmed number asked for, its revision the
    trimmed ISO text of the clock reading, and it has no updated_at. *)
Theorem memory_update_returns (s s' : store) (product_no : str)
    (updates : gmap string PyVal) (expected_revision : str) (p : Product) :
  update_product now product_no updates expected_revision s = (Ok p, s') ->
  exists current,
    products_get (_products s) product_no = Some current
    /\ revision current = expected_revision
    /\ products_get (_products s') product_no = Some p
    /\ (forall k, k <> product_no ->
          products_get (_products s') k = products_get (_products s) k)
    /\ List.map fst (_products s') = List.map fst (_products s)
    /\ product.product_no p = strip product_no
    /\ revision p = strip (datetime_isoformat (now (clock_reads s)))
    /\ updated_at p = None.
Proof.
  intros H.
  destruct (products_get (_products s) product_no) as [current|] eqn:Ec;
    [|by unfold update_product in H; rewrite Ec in H].
  destruct (decide (revision current = expected_revision)) as [Er|Er];
    [|by unfold update_product, str_eqb in H; rewrite Ec in H;
         rewrite bool_decide_eq_false_2 in H].
  rewrite (memory_update_run _ updates _ _ _ Ec Er) in H.
  destruct (from_row _) as [q|e] eqn:Eq; [|done]. injection H as <- <-.
  exists current. split; [done|]. split; [done|].
  cbn [_products with_products].
  split; [apply products_get_set_eq|].
  split; [intros k Hk; by apply products_get_set_ne|].
  split; [apply products_set_present; by rewrite Ec|].
  pose proof Eq as F. unfold from_row in F.
  apply post_init_fields in F as (Fno & _ & _ & _ & _ & _ & Frev).
  cbn [a_product_no a_revision] in Fno, Frev. unfold dict_get in Fno, Frev.
  rewrite !lookup_insert_ne, lookup_insert_eq in Fno by done.
  rewrite lookup_insert_ne, lookup_insert_eq in Frev by done.
  simpl default in Fno, Frev. rewrite py_str_VStr in Fno, Frev.
  split; [done|]. split; [done|].
  unfold from_row, __post_init__, mbind, result_bind in Eq.
  bind_inv Eq. by injection Eq as <-.
Qed.

(** X28: after the in-memory update_product has returned a record whose
    revision differs from the one expected, a further update of the same
    product with the old revision raises ExternalUpdateDetectedError and
    leaves the store as it is. *)
Theorem memory_stale_revision_refused (s s' : store) (product_no : str)
    (updates updates' : gmap string PyVal) (expected_revision : str)
    (p : Product) :
  update_product now product_no updates expected_revision s = (Ok p, s') ->
  revision p <> expected_revision ->
  update_product now product_no updates' expected_revision s'
  = (Raise ExternalUpdateDetectedError, s').
Proof.
  intros H Hne.
  destruct (products_get (_products s) product_no) as [current|] eqn:Ec;
    [|by unfold update_product in H; rewrite Ec in H].
  destruct (decide (revision current = expected_revision)) as [Er|Er];
    [|by unfold update_product, str_eqb in H; rewrite Ec in H;
         rewrite bool_decide_eq_false_2 in H].
  rewrite (memory_update_run _ updates _ _ _ Ec Er) in H.
  destruct (from_row _) as [q|e] eqn:Eq; [|done]. injection H as <- <-.
  unfold update_product. cbn [_products with_products].
  rewrite products_get_set_eq. unfold str_eqb.
  by rewrite bool_decide_eq_false_2.
Qed.

(** X29: when the in-memory update_product raises, the stored products are
    unchanged; it raises KeyError when no product is stored under the
    number, ExternalUpdateDetectedError when the stored revision differs
    from the expected one, both before the clock is read, and otherwise a
    ValueError of the validation of the merged row, the updates holding
    None, flags, integers, text and dates. *)
Theorem memory_update_refusals (s s' : store) (product_no : str)
    (updates : gmap string PyVal) (expected_revision : str) (e : exn) :
  update_product now product_no updates expected_revision s = (Raise e, s') ->
  _products s' = _products s
  /\ match products_get (_products s) product_no with
     | None => e = KeyError product_no /\ s' = s
     | Some current =>
         if str_eqb (revision current) expected_revision
         then exists msg, e = ValueError msg
         else e = ExternalUpdateDetectedError /\ s' = s
     end.
Proof.
  intros H.
  destruct (products_get (_products s) product_no) as [current|] eqn:Ec;
    [|unfold update_product in H; rewrite Ec in H; by injection H as <- <-].
  destruct (decide (revision current = expected_revision)) as [Er|Er].
  - rewrite (memory_update_run _ updates _ _ _ Ec Er) in H.
    unfold str_eqb. rewrite bool_decide_eq_true_2 by done.
    destruct (from_row _) as [q|e'] eqn:Eq; [done|]. injection H as <- <-.
    split; [done|]. by apply from_row_raises in Eq.
  - unfold update_product, str_eqb in *. rewrite Ec in H.
    rewrite bool_decide_eq_false_2 in * by done. by injection H as <- <-.
Qed.

End memory_facts.

(* ===================================================================== *)
(* 14. More of the code on concrete sheets, records and stores           *)
(* ===================================================================== *)

Section reference_facts.
Import Reference ReferenceRuntime.

Lemma ascii_digit_not_minus c :
  ascii_digit c -> Ascii.eqb (ascii_of_N c) "-" = false.
Proof.
  unfold ascii_digit. intros Hc.
  assert (c = 48 \/ c = 49 \/ c = 50 \/ c = 51 \/ c = 52 \/ c = 53 \/ c = 54
          \/ c = 55 \/ c = 56 \/ c = 57)%N as H by lia.
  repeat destruct H as [->|H]; try reflexivity. by subst.
Qed.

Lemma int_plain_zero s n :
  Forall ascii_digit s -> int_plain s = Some n -> int_plain (48%N :: s) = Some n.
Proof.
  intros Hd. unfold int_plain. cbn [forallb].
  change ((48 <? 256)%N) with true. cbn [andb].
  destruct (forallb (fun c => (c <? 256)%N) s); [|done].
  destruct s as [|c s]; [done|].
  apply Forall_cons in Hd as [Hc _].
  unfold text_of. cbn [List.map string_of_list_ascii].
  unfold NilZero.int_of_string.
  rewrite (ascii_digit_not_minus c Hc).
  change (ascii_of_N 48) with "0"%char.
  change (Ascii.eqb "0" "-") with false. cbv iota.
  unfold NilZero.uint_of_string.
  cbn [NilEmpty.uint_of_string].
  destruct (uint_of_char (ascii_of_N c) _) as [d|]; [|done].
  intros H. exact H.
Qed.

Lemma int_plain_padded k z :
  0 <= z -> int_plain (repeat 48%N k ++ str_of_int z) = Some z.
Proof.
  intros Hz. induction k as [|k IH]; cbn [repeat app].
  - apply int_plain_str_of_int.
  - apply int_plain_zero; [|done].
    apply Forall_app. split; [|by apply str_of_int_digits].
    apply List.Forall_forall. intros c Hc%repeat_spec. subst.
    unfold ascii_digit. lia.
Qed.

Lemma reference_reads_padded : reads_padded.
Proof.
  split.
  - intros c Hc. unfold ascii_digit in Hc. cbn. unfold isdigit1.
    apply andb_true_iff. split; apply N.leb_le; lia.
  - intros n Hn. cbn. unfold Reference.int, pad_int.
    rewrite (proj2 (Z.ltb_ge n 0)) by lia.
    by rewrite int_plain_padded.
Qed.

End reference_facts.

Section record_concrete.
Import Reference Example.

Lemma from_row_record_valid_witness :
  exists p, from_row jacket_row = Ok p /\ checked p /\ tidy p.
Proof.
  assert (succeeds (from_row jacket_row) = true) as H
    by (vm_compute; reflexivity).
  apply succeeds_Ok in H as [p H].
  destruct (from_row_record_valid _ _ H) as (Hc & Ht & _).
  exists p. split; [exact H|]. split; [exact Hc|exact Ht].
Defined.

Lemma from_row_ignores_other_keys_witness :
  ("handling_fee" ∉ FROM_ROW_KEYS)
  /\ from_row (<["handling_fee" := VInt 300]> jacket_row) = from_row jacket_row.
Proof.
  assert ("handling_fee" ∉ FROM_ROW_KEYS) as Hk.
  { unfold FROM_ROW_KEYS. rewrite !not_elem_of_cons.
    repeat split; try discriminate. apply not_elem_of_nil. }
  split; [exact Hk|].
  exact (proj1 (from_row_ignores_other_keys jacket_row "handling_fee"
                  (VInt 300) Hk)).
Defined.

Lemma converters_read_back_witness :
  valid_date (mkdate 2024 2 29) = true
  /\ _to_date (VStr (isoformat (mkdate 2024 2 29))) "sale_date" false
     = Ok (Some (mkdate 2024 2 29))
  /\ _to_int (VStr (str_of_int (-5))) "sale_date" false = Ok (Some (-5)).
Proof.
  assert (valid_date (mkdate 2024 2 29) = true) as Hv by reflexivity.
  destruct (converters_read_back (mkdate 2024 2 29) (-5) "sale_date" false Hv)
    as (_ & Hd & _ & Hi).
  split; [exact Hv|]. split; [exact Hd|exact Hi].
Defined.

End record_concrete.

Lemma error_of_Raise {A} (r : result A) e : error_of r = Some e -> r = Raise e.
Proof. destruct r; [done|]. by intros [= ->]. Qed.

Section more_concrete.
Import Reference Example.

Lemma column_map_first_header_witness :
  unopened (fresh coat_sheet)
  /\ col_get (default [] (_jp_col_map (opened (fresh coat_sheet)))) "name"
     = header_column "name" (row_values (sheet (fresh coat_sheet)) 3)
  /\ header_column "name" (row_values (sheet (fresh coat_sheet)) 3) = Some 2.
Proof.
  assert (unopened (fresh coat_sheet)) as Hu by reflexivity.
  split; [exact Hu|]. split; [|vm_compute; reflexivity].
  exact (proj1 (column_map_first_header (fresh coat_sheet) "name" Hu)).
Defined.

Lemma column_map_sound_witness :
  unopened (fresh coat_sheet)
  /\ col_get (default [] (_jp_col_map (opened (fresh coat_sheet)))) "name"
     = Some 2
  /\ 1 <= 2 <= Z.of_nat (length (row_values (sheet (fresh coat_sheet)) 3)).
Proof.
  assert (unopened (fresh coat_sheet)) as Hu by reflexivity.
  assert (col_get (default [] (_jp_col_map (opened (fresh coat_sheet)))) "name"
          = Some 2) as Hc by (vm_compute; reflexivity).
  split; [exact Hu|]. split; [exact Hc|].
  exact (proj1 (column_map_sound (fresh coat_sheet) "name" 2 Hu Hc)).
Defined.

Lemma record_from_row_errors_witness :
  from_one (default [] (_jp_col_map (opened (fresh inf_sheet))))
  /\ exists e key c,
       jp_record (default [] (_jp_col_map (opened (fresh inf_sheet)))) inf_row
         = Raise e
       /\ key ∈ NUMERIC_FIELDS
       /\ _cell (default [] (_jp_col_map (opened (fresh inf_sheet)))) inf_row key
          = Ok c
       /\ c <> [].
Proof.
  assert (from_one (default [] (_jp_col_map (opened (fresh inf_sheet))))) as Hone
    by (apply opened_from_one; reflexivity).
  assert (error_of (jp_record (default [] (_jp_col_map (opened (fresh inf_sheet))))
                      inf_row) = Some OverflowError) as He
    by (vm_compute; reflexivity).
  apply error_of_Raise in He.
  destruct (record_from_row_errors _ _ _ Hone He)
    as (key & c & Hk & Hc & Hne & _).
  split; [exact Hone|]. exists OverflowError, key, c.
  split; [exact He|]. split; [exact Hk|]. split; [exact Hc|exact Hne].
Defined.

Lemma list_products_reads_only_witness :
  (list_products false (fresh coat_sheet)).2 = opened (fresh coat_sheet)
  /\ writes (list_products false (fresh coat_sheet)).2 = writes (fresh coat_sheet).
Proof.
  destruct (list_products_reads_only false (fresh coat_sheet) _ _
              (surjective_pairing (list_products false (fresh coat_sheet))))
    as (Hs & Hw & _).
  split; [exact Hs|exact Hw].
Defined.

Lemma list_products_rows_witness :
  exists ps σ',
    list_products true (fresh coat_sheet) = (Ok ps, σ')
    /\ ps = omap (row_product (default [] (_jp_col_map (opened (fresh coat_sheet)))))
              (drop 4 (get_all_values (sheet (fresh coat_sheet)))).
Proof.
  assert (exists ps σ', list_products true (fresh coat_sheet) = (Ok ps, σ'))
    as (ps & σ' & E) by (vm_compute; eexists _, _; reflexivity).
  exists ps, σ'. split; [exact E|].
  exact (list_products_rows true (fresh coat_sheet) σ' ps E).
Defined.

Lemma list_products_fails_on_row_witness :
  inf_row ∈ drop 4 (get_all_values (sheet (fresh inf_sheet)))
  /\ exists e', list_products false (fresh inf_sheet)
                = (Raise e', opened (fresh inf_sheet)).
Proof.
  assert (inf_row ∈ drop 4 (get_all_values (sheet (fresh inf_sheet)))) as Hin
    by (apply list_elem_of_further, list_elem_of_here).
  assert (error_of (jp_record (default [] (_jp_col_map (opened (fresh inf_sheet))))
                      inf_row) = Some OverflowError) as He
    by (vm_compute; reflexivity).
  apply error_of_Raise in He.
  split; [exact Hin|].
  exact (list_products_fails_on_row false (fresh inf_sheet) inf_row
           OverflowError Hin He ltac:(discriminate)).
Defined.

Lemma next_product_no_is_fresh_witness :
  reads_padded
  /\ exists n σ' ps,
       _next_product_no (fresh coat_sheet) = (Ok n, σ')
       /\ list_products true (fresh coat_sheet) = (Ok ps, σ')
       /\ Forall (fun p => product_no p <> n) ps.
Proof.
  assert (exists n σ', _next_product_no (fresh coat_sheet) = (Ok n, σ'))
    as (n & σ' & E) by (vm_compute; eexists _, _; reflexivity).
  destruct (next_product_no_is_fresh (fresh coat_sheet) σ' n
              reference_reads_padded E) as (ps & M & Hl & _ & _ & Hf).
  split; [exact reference_reads_padded|].
  exists n, σ', ps. split; [exact E|]. split; [exact Hl|exact Hf].
Defined.

Lemma first_insertable_row_witness :
  _find_first_insertable_jp_row (fresh slot_sheet)
    = (Ok (Some (5, u "P00007")), opened (fresh slot_sheet))
  /\ exists pc nc row, slot_row pc nc row (u "P00007").
Proof.
  assert (_find_first_insertable_jp_row (fresh slot_sheet)
          = (Ok (Some (5, u "P00007")), opened (fresh slot_sheet))) as E
    by (vm_compute; reflexivity).
  destruct (first_insertable_row _ _ _ E)
    as (_ & pc & nc & row & _ & _ & _ & _ & Hs & _).
  split; [exact E|]. exists pc, nc, row. exact Hs.
Defined.

Lemma update_unknown_product_witness :
  from_one (default [] (_jp_col_map (opened (fresh coat_sheet))))
  /\ update_product (u "P99999") sold_update (u "any") (fresh coat_sheet)
     = (Raise (KeyError (u "P99999")), opened (fresh coat_sheet)).
Proof.
  assert (from_one (default [] (_jp_col_map (opened (fresh coat_sheet))))) as Hone
    by (apply opened_from_one; reflexivity).
  assert (forall c row,
     col_get (default [] (_jp_col_map (opened (fresh coat_sheet)))) "product_no"
       = Some c ->
     row ∈ data_rows (fresh coat_sheet) -> cell_at row c <> Ok (u "P99999"))
    as Hno.
  { intros c row Hc Hin. vm_compute in Hc. injection Hc as <-.
    change (data_rows (fresh coat_sheet)) with [coat_row] in Hin.
    apply list_elem_of_singleton in Hin. subst row.
    vm_compute. discriminate. }
  split; [exact Hone|].
  exact (proj1 (update_unknown_product (fresh coat_sheet) (u "P99999")
                  sold_update (u "any") Hone Hno)).
Defined.

Lemma update_product_returns_witness :
  exists p σ',
    update_product (u "P00007") sold_update (_row_revision coat_row)
      (fresh coat_sheet) = (Ok p, σ')
    /\ product_no p = u "P00007"
    /\ exists cells, writes σ' = writes (fresh coat_sheet) ++ cell_writes 5 cells.
Proof.
  assert (exists p σ',
            update_product (u "P00007") sold_update (_row_revision coat_row)
              (fresh coat_sheet) = (Ok p, σ')) as (p & σ' & E)
    by (vm_compute; eexists _, _; reflexivity).
  assert (locate_row (opened (fresh coat_sheet)) (u "P00007") = Ok (5, coat_row))
    as Hl by (vm_compute; reflexivity).
  destruct (update_product_returns _ _ _ _ _ _ E)
    as (row & rv & cells & Hl' & _ & _ & Hno & Hw & _).
  rewrite Hl in Hl'. injection Hl' as <- <-.
  exists p, σ'. split; [exact E|]. split; [exact Hno|].
  exists cells. exact Hw.
Defined.

Lemma create_invalid_writes_nothing_witness :
  slot_of (opened (fresh slot_sheet)) = Ok (Some (5, u "P00007"))
  /\ exists e,
       create_product nameless (fresh slot_sheet)
         = (Raise e, opened (fresh slot_sheet))
       /\ writes (opened (fresh slot_sheet)) = writes (fresh slot_sheet).
Proof.
  assert (slot_of (opened (fresh slot_sheet)) = Ok (Some (5, u "P00007")))
    as Hslot by (vm_compute; reflexivity).
  assert (settled_number (opened (fresh slot_sheet)) nameless
            (Some (5, u "P00007")) = Ok (VStr (u "P00007"))) as Hv
    by (vm_compute; reflexivity).
  assert (error_of (from_row (create_data nameless (VStr (u "P00007"))))
          = Some (ValueError "name is required")) as He
    by (vm_compute; reflexivity).
  apply error_of_Raise in He.
  destruct (create_invalid_writes_nothing (fresh slot_sheet) nameless
              (Some (5, u "P00007")) (ValueError "name is required") Hslot
              (or_intror (ex_intro _ (VStr (u "P00007")) (conj Hv He))))
    as (Hc & Hw & _).
  split; [exact Hslot|]. exists (ValueError "name is required").
  split; [exact Hc|exact Hw].
Defined.

Lemma create_appends_one_row_witness :
  slot_of (opened (fresh coat_sheet)) = Ok None
  /\ exists p σ' row_data,
       create_product jacket (fresh coat_sheet) = (Ok p, σ')
       /\ writes σ' = writes (fresh coat_sheet) ++ [AppendRow row_data].
Proof.
  assert (slot_of (opened (fresh coat_sheet)) = Ok None) as Hslot
    by (vm_compute; reflexivity).
  assert (exists p σ', create_product jacket (fresh coat_sheet) = (Ok p, σ'))
    as (p & σ' & E) by (vm_compute; eexists _, _; reflexivity).
  destruct (create_appends_one_row (fresh coat_sheet) σ' jacket p Hslot E)
    as (v & row_data & _ & Hw & _).
  split; [exact Hslot|]. exists p, σ', row_data. split; [exact E|exact Hw].
Defined.

Lemma handling_fee_column_blocks_update_witness :
  bound (default [] (_jp_col_map (opened (fresh fee_coat_sheet)))) "handling_fee"
    = true
  /\ (exists e,
        (update_product (u "P00007") sold_update (_row_revision coat_row)
           (fresh fee_coat_sheet)).1 = Raise e)
  /\ writes (update_product (u "P00007") sold_update (_row_revision coat_row)
               (fresh fee_coat_sheet)).2 = writes (fresh fee_coat_sheet).
Proof.
  assert (bound (default [] (_jp_col_map (opened (fresh fee_coat_sheet))))
            "handling_fee" = true) as Hb by (vm_compute; reflexivity).
  destruct (handling_fee_column_blocks_update (fresh fee_coat_sheet) _
              (u "P00007") sold_update (_row_revision coat_row) _ Hb
              (surjective_pairing _)) as (_ & Hw & He & _).
  split; [exact Hb|]. split; [exact He|exact Hw].
Defined.

Lemma handling_fee_column_breaks_create_witness :
  bound (default [] (_jp_col_map (opened (fresh fee_slot_sheet)))) "handling_fee"
    = true
  /\ create_product jacket (fresh fee_slot_sheet)
     = (Raise (AttributeError "handling_fee"),
        commit (number_write 5 1 (chosen_number jacket (u "P00007")))
          (opened (fresh fee_slot_sheet))).
Proof.
  assert (bound (default [] (_jp_col_map (opened (fresh fee_slot_sheet))))
            "handling_fee" = true) as Hb by (vm_compute; reflexivity).
  assert (slot_of (opened (fresh fee_slot_sheet)) = Ok (Some (5, u "P00007")))
    as Hslot by (vm_compute; reflexivity).
  assert (col_get (default [] (_jp_col_map (opened (fresh fee_slot_sheet))))
            "product_no" = Some 1) as Hcol by (vm_compute; reflexivity).
  assert (succeeds (from_row (create_data jacket
                                (chosen_number jacket (u "P00007")))) = true)
    as Hs by (vm_compute; reflexivity).
  apply succeeds_Ok in Hs as [product Hfrom].
  split; [exact Hb|].
  exact (proj2 (handling_fee_column_breaks_create (fresh fee_slot_sheet) jacket Hb)
           5 (u "P00007") 1 product Hslot Hcol Hfrom).
Defined.

(* The page helpers on concrete lists. *)
Example list_sales_channels_runs :
  list_sales_channels (Some fee_column) = [u "Mercari"; u "Yahoo"]
  /\ app._channel_options (list_sales_channels (Some fee_column))
     = [[]; u "Mercari"; u "Yahoo"].
Proof. split; vm_compute; reflexivity. Qed.

Example sort_products_runs :
  app._sort_products [built (u "Jacket"); hat; coat_product] app.CHEAPEST_FIRST
    = [hat; coat_product; built (u "Jacket")]
  /\ app._sort_products [built (u "Jacket"); hat; coat_product] app.NEWEST_FIRST
     = [hat; built (u "Jacket"); coat_product].
Proof. split; vm_compute; reflexivity. Qed.

End more_concrete.

Section memory_concrete.
Import Reference Example InMemoryProductRepository.

Lemma memory_next_product_no_is_fresh_witness :
  reads_padded
  /\ _next_product_no jeans_store = Ok (u "P00002")
  /\ products_get (_products jeans_store) (u "P00002") = None.
Proof.
  assert reads_padded as Hr by exact reference_reads_padded.
  assert (_next_product_no jeans_store = Ok (u "P00002")) as Hn
    by (vm_compute; reflexivity).
  split; [exact Hr|]. split; [exact Hn|].
  exact (proj1 (proj2 (memory_next_product_no_is_fresh tick jeans_store _ Hr Hn))).
Defined.

Lemma memory_create_outcome_witness :
  create_product tick jeans empty_store = Some (Ok jeans_product, jeans_store)
  /\ _products jeans_store
     = _products empty_store ++ [(product_no jeans_product, jeans_product)].
Proof.
  assert (create_product tick jeans empty_store
          = Some (Ok jeans_product, jeans_store)) as Hc
    by (vm_compute; reflexivity).
  split; [exact Hc|].
  exact (proj1 (proj2 (memory_create_outcome tick _ _ _ _ Hc))).
Defined.

Lemma memory_update_returns_witness :
  update_product tick (u "P00001") sold_update (revision jeans_product)
    jeans_store = (Ok sold_jeans, sold_store)
  /\ exists current,
       products_get (_products jeans_store) (u "P00001") = Some current
       /\ revision current = revision jeans_product
       /\ products_get (_products sold_store) (u "P00001") = Some sold_jeans.
Proof.
  assert (update_product tick (u "P00001") sold_update (revision jeans_product)
            jeans_store = (Ok sold_jeans, sold_store)) as Hu
    by (vm_compute; reflexivity).
  split; [exact Hu|].
  destruct (memory_update_returns tick _ _ _ _ _ _ Hu)
    as (current & Hc & Hr & Hs & _).
  exists current. split; [exact Hc|]. split; [exact Hr|exact Hs].
Defined.

Lemma memory_stale_revision_refused_witness :
  update_product tick (u "P00001") sold_update (revision jeans_product)
    jeans_store = (Ok sold_jeans, sold_store)
  /\ revision sold_jeans <> revision jeans_product
  /\ update_product tick (u "P00001") bogus_update (revision jeans_product)
       sold_store = (Raise ExternalUpdateDetectedError, sold_store).
Proof.
  assert (update_product tick (u "P00001") sold_update (revision jeans_product)
            jeans_store = (Ok sold_jeans, sold_store)) as Hu
    by (vm_compute; reflexivity).
  assert (revision sold_jeans <> revision jeans_product) as Hne
    by (vm_compute; discriminate).
  split; [exact Hu|]. split; [exact Hne|].
  exact (memory_stale_revision_refused tick _ _ _ _ bogus_update _ _ Hu Hne).
Defined.

Lemma memory_update_refusals_witness :
  update_product tick (u "P00001") bogus_update (revision jeans_product)
    jeans_store = (Raise (ValueError
      "sale_status must be one of ['出品済', '売却済', '未出品']"),
      ticked 2 jeans_store)
  /\ _products (ticked 2 jeans_store) = _products jeans_store.
Proof.
  assert (update_product tick (u "P00001") bogus_update (revision jeans_product)
    jeans_store = (Raise (ValueError
      "sale_status must be one of ['出品済', '売却済', '未出品']"),
      ticked 2 jeans_store)) as Hu by (vm_compute; reflexivity).
  split; [exact Hu|].
  exact (proj1 (memory_update_refusals tick _ _ _ _ _ _ Hu)).
Defined.

(* tests/test_phase1_flow.py: test_phase1_create_list_update_flow *)
Example test_phase1_create_list_update_flow :
  create_product tick jeans empty_store = Some (Ok jeans_product, jeans_store)
  /\ product_no jeans_product = u "P00001"
  /\ List.map name (list_products false jeans_store) = [u "Levi's 505"]
  /\ update_product tick (product_no jeans_product) sold_update
       (revision jeans_product) jeans_store = (Ok sold_jeans, sold_store)
  /\ sale_status sold_jeans = u "売却済"
  /\ sale_price sold_jeans = Some 9000
  /\ profit sold_jeans = Some 5000.
Proof. repeat split; vm_compute; reflexivity. Qed.

End memory_concrete.

Section status_concrete.
Import Reference Example.

Lemma sale_status_precedence_witness :
  from_one (default [] (_jp_col_map (opened (fresh coat_sheet))))
  /\ text_in_row (default [] (_jp_col_map (opened (fresh coat_sheet)))) coat_row
       "listed_flag" = u "○"
  /\ exists rec,
       jp_record (default [] (_jp_col_map (opened (fresh coat_sheet)))) coat_row
         = Ok rec
       /\ rec !! "sale_status" = Some (VStr LISTED).
Proof.
  assert (from_one (default [] (_jp_col_map (opened (fresh coat_sheet)))))
    as Hone by (apply opened_from_one; reflexivity).
  assert (text_in_row (default [] (_jp_col_map (opened (fresh coat_sheet))))
            coat_row "sale_date" = []) as Hd by (vm_compute; reflexivity).
  assert (text_in_row (default [] (_jp_col_map (opened (fresh coat_sheet))))
            coat_row "sale_price" = []) as Hp by (vm_compute; reflexivity).
  assert (text_in_row (default [] (_jp_col_map (opened (fresh coat_sheet))))
            coat_row "listed_flag" = u "○") as Hf by (vm_compute; reflexivity).
  assert (succeeds (jp_record
            (default [] (_jp_col_map (opened (fresh coat_sheet)))) coat_row)
          = true) as Hs by (vm_compute; reflexivity).
  apply succeeds_Ok in Hs as [rec E].
  destruct (sale_status_precedence _ _ _ Hone E)
    as (st & Hst & _ & _ & Hlisted & _).
  rewrite Hd, Hp, Hf in Hlisted.
  assert (st = LISTED) as ->.
  { apply Hlisted; [|vm_compute; reflexivity].
    intros [[iso Hiso]|(z & Hz & _)]; [|by apply Hz].
    assert (_to_iso_date (VStr []) = Ok None) as Hn by (vm_compute; reflexivity).
    rewrite Hn in Hiso. discriminate Hiso. }
  split; [exact Hone|]. split; [exact Hf|]. exists rec.
  split; [exact E|exact Hst].
Defined.

End status_concrete.
